(** * QEMU assistant: session store, command synthesis, backing-chain manager

    A shallow embedding of [qemu助手.py].  Python strings are sequences of
    code points; the embedding covers text whose code points lie below 256,
    one [ascii] per code point.  The file system is a finite map from paths
    to nodes, each a directory or a regular file; device nodes, FIFOs and
    sockets are outside the embedding.  The interactive menu handlers are
    functions of the operator's typed answers.  Calls the script guards
    with [try] can fail here as well ([os.remove], [shutil.copy2],
    [qemu-img]); console output is left out.

    The first part holds the definitions, the second the properties. *)

From Stdlib Require Import ZArith String Ascii List Bool Lia DecimalString
  DecimalNat.
From stdpp Require Import gmap strings list fin_maps sorting.

Open Scope string_scope.
Open Scope list_scope.

(** ** Python string primitives *)

Module Py.

Definition dquote : ascii := "034"%char.
Definition squote : ascii := "039"%char.
Definition LF : ascii := "010"%char.
Definition CR : ascii := "013"%char.

Definition chr (c : ascii) : string := String c EmptyString.

(** [str.isspace] on one code point below 256. *)
Definition isspace (c : ascii) : bool :=
  let n := nat_of_ascii c in
  (((9 <=? n) && (n <=? 13)) || ((28 <=? n) && (n <=? 32))
   || (n =? 133) || (n =? 160))%nat.

Definition isdigit (c : ascii) : bool :=
  let n := nat_of_ascii c in ((48 <=? n) && (n <=? 57))%nat.

(** [s.lstrip(pred)], [s.rstrip(pred)], [s.strip(pred)]: drop the
    characters satisfying [p] from either end. *)
Fixpoint lstrip_by (p : ascii -> bool) (s : string) : string :=
  match s with
  | EmptyString => EmptyString
  | String c r => if p c then lstrip_by p r else s
  end.

Fixpoint rstrip_by (p : ascii -> bool) (s : string) : string :=
  match s with
  | EmptyString => EmptyString
  | String c r =>
      match rstrip_by p r with
      | EmptyString => if p c then EmptyString else chr c
      | r' => String c r'
      end
  end.

Definition strip_by (p : ascii -> bool) (s : string) : string :=
  lstrip_by p (rstrip_by p s).

(** [s.strip()] *)
Definition strip (s : string) : string := strip_by isspace s.

(** [s.strip(c)] for a one-character argument. *)
Definition strip_chr (c : ascii) (s : string) : string :=
  strip_by (Ascii.eqb c) s.

(** [c in s] for a one-character [c]. *)
Fixpoint contains (c : ascii) (s : string) : bool :=
  match s with
  | EmptyString => false
  | String d r => Ascii.eqb c d || contains c r
  end.

(** [s.split(c, 1)] when [c in s]: the text before the first [c] and the
    text after it. *)
Fixpoint split1 (c : ascii) (s : string) : option (string * string) :=
  match s with
  | EmptyString => None
  | String d r =>
      if Ascii.eqb c d then Some (EmptyString, r)
      else match split1 c r with
           | Some (k, v) => Some (String d k, v)
           | None => None
           end
  end.

(** [s.split(c)] *)
Fixpoint split (c : ascii) (s : string) : list string :=
  match s with
  | EmptyString => [EmptyString]
  | String d r =>
      if Ascii.eqb c d then EmptyString :: split c r
      else match split c r with
           | h :: t => String d h :: t
           | [] => [chr d]
           end
  end.

(** [s.startswith(p)] *)
Definition startswith (s p : string) : bool := String.prefix p s.

(** Decimal digits of [int(s)], with single underscores allowed between
    digits. *)
Fixpoint digits (acc : Z) (after_digit : bool) (s : string) : option Z :=
  match s with
  | EmptyString => if after_digit then Some acc else None
  | String c r =>
      if isdigit c
      then digits (10 * acc + (Z.of_nat (nat_of_ascii c) - 48)) true r
      else if Ascii.eqb c "_" && after_digit
           then match r with
                | EmptyString => None
                | _ => digits acc false r
                end
           else None
  end.

(** [int(s)]: [None] stands for [ValueError]. *)
Definition int (s : string) : option Z :=
  match strip s with
  | String "+" r => digits 0 false r
  | String "-" r => Z.opp <$> digits 0 false r
  | r => digits 0 false r
  end.

(** [str(n)] and [f"{n}"] for a non-negative [int]. *)
Definition str_of_nat (n : nat) : string :=
  NilEmpty.string_of_uint (Nat.to_uint n).

(** [s.lower()] on code points below 256. *)
Definition lower_chr (c : ascii) : ascii :=
  let n := nat_of_ascii c in
  if (((65 <=? n) && (n <=? 90))
      || ((192 <=? n) && (n <=? 222) && negb (n =? 215)))%nat
  then ascii_of_nat (n + 32) else c.

Fixpoint lower (s : string) : string :=
  match s with
  | EmptyString => EmptyString
  | String c r => String (lower_chr c) (lower r)
  end.

(** Iterating a file opened in text mode: [CR], [LF] and [CR LF] all end
    a line and are read as [LF]; a last line may lack its terminator. *)
Fixpoint readlines (s : string) : list string :=
  match s with
  | EmptyString => []
  | String c r =>
      if Ascii.eqb c LF then chr LF :: readlines r
      else if Ascii.eqb c CR then
        match r with
        | String d r' =>
            if Ascii.eqb d LF then chr LF :: readlines r'
            else chr LF :: readlines r
        | EmptyString => [chr LF]
        end
      else match readlines r with
           | l :: ls => String c l :: ls
           | [] => [chr c]
           end
  end.

End Py.

(** ** [os.path] on POSIX paths *)

Module Path.

(** [s.rfind(c)] *)
Fixpoint rfind (c : ascii) (s : string) : Z :=
  match s with
  | EmptyString => (-1)%Z
  | String d r =>
      let i := rfind c r in
      if (0 <=? i)%Z then (i + 1)%Z
      else if Ascii.eqb d c then 0%Z else (-1)%Z
  end.

(** [s[i:j]], [s[:j]] and [s[i:]] for [0 <= i <= j]. *)
Definition slice (i j : Z) (s : string) : string :=
  String.substring (Z.to_nat i) (Z.to_nat (j - i)) s.
Definition slice_to (j : Z) (s : string) : string := slice 0 j s.
Definition slice_from (i : Z) (s : string) : string :=
  slice i (Z.of_nat (String.length s)) s.

Fixpoint all_chr (c : ascii) (s : string) : bool :=
  match s with
  | EmptyString => true
  | String d r => Ascii.eqb d c && all_chr c r
  end.

Fixpoint endswith_chr (s : string) (c : ascii) : bool :=
  match s with
  | EmptyString => false
  | String d EmptyString => Ascii.eqb d c
  | String _ r => endswith_chr r c
  end.

(** [os.path.join(a, b)] *)
Definition join (a b : string) : string :=
  if Py.startswith b "/" then b
  else if String.eqb a EmptyString || endswith_chr a "/" then a +:+ b
  else a +:+ "/" +:+ b.

(** [os.path.basename(p)] *)
Definition basename (p : string) : string :=
  slice_from (rfind "/" p + 1) p.

(** [os.path.splitext(p)]: the extension starts at the last dot of the
    last path component, unless only dots precede it there. *)
Definition splitext (p : string) : string * string :=
  let sepIndex := rfind "/" p in
  let dotIndex := rfind "." p in
  if (sepIndex <? dotIndex)%Z
     && negb (all_chr "." (slice (sepIndex + 1) dotIndex p))
  then (slice_to dotIndex p, slice_from dotIndex p)
  else (p, EmptyString).

End Path.

(** [os.path.dirname(p)] *)
Definition dirname (p : string) : string :=
  let head := Path.slice_to (Path.rfind "/" p + 1) p in
  if negb (String.eqb head EmptyString) && negb (Path.all_chr "/" head)
  then Py.rstrip_by (Ascii.eqb "/") head
  else head.

(** ** The file system *)

Inductive node : Type :=
| Dir : node
| File (content : string) : node.

(** Paths are compared as written; the program builds every path of a
    session with [os.path.join] from the same components. *)
Abbreviation Fs := (gmap string node).

Module Os.

Definition exists_ (fs : Fs) (p : string) : bool :=
  match fs !! p with Some _ => true | None => false end.

Definition isdir (fs : Fs) (p : string) : bool :=
  match fs !! p with Some Dir => true | _ => false end.

Definition isfile (fs : Fs) (p : string) : bool :=
  match fs !! p with Some (File _) => true | _ => false end.

(** [os.makedirs(p, exist_ok=True)] for a path whose parent directory is
    there and which no regular file occupies: the program makes the
    directories of a session in order under a save root that exists, so
    no parent is created and the call does not raise. *)
Definition makedirs (fs : Fs) (p : string) : Fs :=
  match fs !! p with
  | Some _ => fs
  | None => <[p := Dir]> fs
  end.

(** [os.remove(p)]: [None] stands for the [OSError] raised when [p] is
    not a file. *)
Definition remove (fs : Fs) (p : string) : option Fs :=
  match fs !! p with
  | Some (File _) => Some (delete p fs)
  | _ => None
  end.

(** [open(p, 'w')] followed by writes that add up to [text]; writing is
    taken to succeed. *)
Definition write_text (fs : Fs) (p : string) (text : string) : Fs :=
  <[p := File text]> fs.

End Os.

(** ** Dictionaries in insertion order *)

Module Dict.

Definition t : Type := list (string * string).

(** [d.get(k)] *)
Fixpoint get (d : t) (k : string) : option string :=
  match d with
  | [] => None
  | (k', v) :: r => if String.eqb k' k then Some v else get r k
  end.

(** [d.get(k, default)] *)
Definition get_default (d : t) (k default : string) : string :=
  match get d k with Some v => v | None => default end.

(** [d[k] = v]: an existing key keeps its place, a new key goes last. *)
Fixpoint set (d : t) (k v : string) : t :=
  match d with
  | [] => [(k, v)]
  | (k', v') :: r =>
      if String.eqb k' k then (k', v) :: r else (k', v') :: set r k v
  end.

End Dict.

(** [enumerate(l)] *)
Fixpoint enumerate_from {A} (i : nat) (l : list A) : list (nat * A) :=
  match l with
  | [] => []
  | x :: r => (i, x) :: enumerate_from (S i) r
  end.

Definition enumerate {A} (l : list A) : list (nat * A) := enumerate_from 0 l.

(** ** Sessions *)

Record Session : Type := mkSession {
  name : string;
  config : Dict.t;
  disks : list string;
  isos : list string;
  transient_mounts : list string
}.

(** What the program takes from its surroundings: where the script lives,
    how the shell expands a typed path, and the [qemu-img] utility. *)
Record Env : Type := mkEnv {
  (** [SAVE_ROOT] *)
  SAVE_ROOT : string;
  (** [os.path.abspath(os.path.expanduser(path))] *)
  abspath_expanduser : string -> string;
  (** [qemu-img info --output=json path]: its standard output, or [None]
      when it exits with an error. *)
  qemu_img_info : Fs -> string -> option string;
  (** [json.loads]: the members of the JSON object with their values as
      text, or [None] for text that does not parse. *)
  json_loads : string -> option (gmap string string);
  (** [qemu-img create] run in a working directory with the arguments
      after [create]: the bytes of the new image, or [None] when it exits
      with an error. *)
  qemu_img_create : Fs -> string -> list string -> option string;
  (** [qemu-img commit path]: the new bytes of the backing file, or [None]
      when it exits with an error. *)
  qemu_img_commit : Fs -> string -> option string;
  (** Whether the [qemu-img] program can be started at all.  When it
      cannot, [subprocess.run] raises; the calls made with [check=True]
      inside a [try] treat that like an exit with an error. *)
  qemu_img_found : bool
}.

Section Program.

Context (E : Env).

(** [Session.__init__]: the paths of a session. *)
Definition dir (s : Session) : string := Path.join (SAVE_ROOT E) (name s).
Definition config_file (s : Session) : string := Path.join (dir s) "config.conf".
Definition vars_file (s : Session) : string := Path.join (dir s) "OVMF_VARS.fd".
Definition shared_dir (s : Session) : string := Path.join (dir s) "shared".
Definition iso_dir (s : Session) : string := Path.join (dir s) "isos".
Definition disk_dir (s : Session) : string := Path.join (dir s) "disks".

Definition new_session (n : string) : Session :=
  mkSession n [] [] [] [].

(** *** [QEMURunner.build_command] *)

Definition preamble (ovmf_code : string) (s : Session) : list string :=
  [ "qemu-system-x86_64";
    "-name"; Dict.get_default (config s) "VM_NAME" "unknown";
    "-machine"; "q35"; "-accel"; "kvm";
    "-object"; "iothread,id=io0";
    "-cpu"; "host,hv_relaxed,hv_spinlocks=0x1fff,hv_vapic,hv_time,hv_synic,hv_stimer,hv_reset,hv_vpindex,hv_runtime,hv_frequencies";
    "-m"; Dict.get_default (config s) "MEM_SIZE" "4G";
    "-smp"; Dict.get_default (config s) "CPU_CORES" "2";
    "-drive"; "if=pflash,format=raw,readonly=on,file=" +:+ ovmf_code;
    "-drive"; "if=pflash,format=raw,file=" +:+ vars_file s;
    "-device"; "virtio-balloon-pci";
    "-device"; "virtio-rng-pci";
    "-device"; "virtio-serial-pci";
    "-device"; "virtio-keyboard-pci";
    "-device"; "virtio-tablet-pci";
    "-device"; "qemu-xhci,id=usb";
    "-device"; "usb-tablet";
    "-device"; "usb-kbd";
    "-device"; "virtio-vga-gl"; "-display"; "gtk,gl=on,zoom-to-fit=on";
    "-device"; "intel-hda"; "-device"; "hda-duplex";
    "-device"; "virtio-net-pci,netdev=net0,mq=on"; "-netdev"; "user,id=net0" ].

(** The [-device] argument of the disk at position [i]. *)
Definition blk_device (i : nat) : string :=
  "virtio-blk-pci,drive=" +:+ ("drive_disk_" +:+ Py.str_of_nat i)
    +:+ ",serial=" +:+ ("DISK_" +:+ Py.str_of_nat i)
    +:+ ",bootindex=" +:+ Py.str_of_nat (i + 1) +:+ ",iothread=io0".

Definition disk_args (fs : Fs) (s : Session) (e : nat * string) : list string :=
  let '(i, disk) := e in
  let disk_path := Path.join (disk_dir s) disk in
  if Os.exists_ fs disk_path then
    let drive_id := "drive_disk_" +:+ Py.str_of_nat i in
    [ "-drive"; "file=" +:+ disk_path +:+ ",format=qcow2,if=none,id="
                  +:+ drive_id +:+ ",cache=writeback";
      "-device"; blk_device i ]
  else [].

Definition iso_args (fs : Fs) (s : Session) (e : nat * string) : list string :=
  let '(i, iso) := e in
  let iso_path := Path.join (iso_dir s) iso in
  if Os.exists_ fs iso_path then
    [ "-drive"; "file=" +:+ iso_path +:+ ",media=cdrom,readonly=on" ]
  else [].

Definition shared_args (s : Session) : list string :=
  [ "-drive"; "file=fat:ro:" +:+ shared_dir s
                +:+ ",format=raw,if=none,id=drive_shared,readonly=on";
    "-device"; "usb-storage,drive=drive_shared,serial=SHARED_AUTO,removable=on" ].

Definition transient_args (fs : Fs) (e : nat * string) : list string :=
  let '(i, path) := e in
  let drive_id := "drive_trans_" +:+ Py.str_of_nat i in
  let serial := "TRANS_" +:+ Py.str_of_nat i in
  if Os.isdir fs path then
    [ "-drive"; "file=fat:ro:" +:+ path +:+ ",format=raw,if=none,id="
                  +:+ drive_id +:+ ",readonly=on";
      "-device"; "usb-storage,drive=" +:+ drive_id +:+ ",serial="
                   +:+ serial +:+ ",removable=on" ]
  else if Os.isfile fs path then
    [ "-drive"; "file=" +:+ path +:+ ",format=raw,if=none,id="
                  +:+ drive_id +:+ ",readonly=on";
      "-device"; "usb-storage,drive=" +:+ drive_id +:+ ",serial="
                   +:+ serial +:+ ",removable=on" ]
  else [].

(** The argument vector; the warnings it prints are not part of it. *)
Definition build_command (fs : Fs) (ovmf_code : string) (s : Session)
  : list string :=
  preamble ovmf_code s
    ++ flat_map (disk_args fs s) (enumerate (disks s))
    ++ flat_map (iso_args fs s) (enumerate (isos s))
    ++ shared_args s
    ++ flat_map (transient_args fs) (enumerate (transient_mounts s)).


(** *** [Session.save] and [Session.load] *)

(** [Session.create_structure] *)
Definition create_structure (fs : Fs) (s : Session) : Fs :=
  Os.makedirs (Os.makedirs (Os.makedirs (Os.makedirs fs (dir s))
                                        (shared_dir s))
                           (iso_dir s))
              (disk_dir s).

(** One written line: [f'{key}="{val}"\n']. *)
Definition assignment (key val : string) : string :=
  key +:+ "=" +:+ Py.chr Py.dquote +:+ val +:+ Py.chr Py.dquote
      +:+ Py.chr Py.LF.

Definition config_lines (s : Session) : list string :=
  map (fun kv => assignment (fst kv) (snd kv)) (config s)
    ++ map (fun e => assignment ("DISK_" +:+ Py.str_of_nat (fst e)) (snd e))
           (enumerate (disks s))
    ++ map (fun e => assignment ("ISO_" +:+ Py.str_of_nat (fst e)) (snd e))
           (enumerate (isos s)).

(** Everything [save] writes to the config file. *)
Definition config_text (s : Session) : string :=
  fold_right String.append EmptyString (config_lines s).

(** [save]: the directories are made, then the file is rewritten in
    full. *)
Definition save (fs : Fs) (s : Session) : Fs :=
  Os.write_text (create_structure fs s) (config_file s) (config_text s).

(** The loop body of [load]: the scalar config, [disk_map] and
    [iso_map] after one more line.  A [DISK_]/[ISO_] key whose index does
    not parse leaves all three as they are ([continue]). *)
Definition load_line (st : Dict.t * gmap Z string * gmap Z string)
           (line : string) : Dict.t * gmap Z string * gmap Z string :=
  let '(cfg, disk_map, iso_map) := st in
  if Py.contains "=" line then
    match Py.split1 "=" (Py.strip line) with
    | Some (key, val) =>
        let val := Py.strip_chr Py.squote (Py.strip_chr Py.dquote val) in
        if Py.startswith key "DISK_" then
          match Py.split "_" key !! 1%nat ≫= Py.int with
          | Some idx => (cfg, <[idx := val]> disk_map, iso_map)
          | None => st
          end
        else if Py.startswith key "ISO_" then
          match Py.split "_" key !! 1%nat ≫= Py.int with
          | Some idx => (cfg, disk_map, <[idx := val]> iso_map)
          | None => st
          end
        else (Dict.set cfg key val, disk_map, iso_map)
    | None => st
    end
  else st.

(** [sorted(m.keys())] *)
Definition sorted_keys (m : gmap Z string) : list Z :=
  merge_sort Z.le ((map_to_list m).*1).

(** [[m[i] for i in sorted(m.keys())]] *)
Definition values_by_index (m : gmap Z string) : list string :=
  omap (fun i => m !! i) (sorted_keys m).

Definition load_lines (lines : list string)
  : Dict.t * gmap Z string * gmap Z string :=
  fold_left load_line lines ([], ∅, ∅).

(** [load]: the session afterwards and the returned flag.  Opening a
    directory raises inside the [try], after the three fields were
    reset. *)
Definition load (fs : Fs) (s : Session) : Session * bool :=
  match fs !! config_file s with
  | None => (s, false)
  | Some Dir => (mkSession (name s) [] [] [] (transient_mounts s), false)
  | Some (File text) =>
      let '(cfg, disk_map, iso_map) := load_lines (Py.readlines text) in
      (mkSession (name s) cfg (values_by_index disk_map)
                 (values_by_index iso_map) (transient_mounts s), true)
  end.

(** *** Effects of the menu handlers *)

Inductive event : Type :=
| EvCopy (src dst : string)
| EvSave (path text : string)
| EvRemove (path : string)
| EvCreate (cwd : string) (args : list string)
| EvCommit (path : string).

(** The state after a handler ran: the file system, the session, the
    effects that took place, in order, and whether an exception left the
    handler. *)
Record Run : Type := mkRun {
  run_fs : Fs;
  run_session : Session;
  run_events : list event;
  run_raised : bool
}.

Definition unchanged (fs : Fs) (s : Session) : Run := mkRun fs s [] false.

Definition with_disks (s : Session) (l : list string) : Session :=
  mkSession (name s) (config s) l (isos s) (transient_mounts s).

Definition with_isos (s : Session) (l : list string) : Session :=
  mkSession (name s) (config s) (disks s) l (transient_mounts s).

(** [l[idx] = v]: [None] stands for [IndexError]. *)
Definition list_assign (l : list string) (idx : nat) (v : string)
  : option (list string) :=
  if (idx <? length l)%nat then Some (<[idx := v]> l) else None.

(** [UI.get_input]: what the operator typed, or the default. *)
Definition get_input (typed default : string) : string :=
  let user_input := Py.strip typed in
  if String.eqb user_input EmptyString then default else user_input.

(** [UI.get_input(..., "N").lower() == 'y'] *)
Definition confirmed (typed : string) : bool :=
  String.eqb (Py.lower (get_input typed "N")) "y".

(** [FS.expand_path] *)
Definition expand_path (path : string) : string :=
  if String.eqb path EmptyString then EmptyString
  else abspath_expanduser E path.

(** The directory a file at [p] is created in is there; the empty
    directory part stands for the working directory. *)
Definition parent_there (fs : Fs) (p : string) : bool :=
  String.eqb (dirname p) EmptyString || Os.isdir fs (dirname p).

(** [shutil.copy2(src, dst)]: [None] stands for the [OSError] raised
    when [src] is not a regular file, is the destination itself, the
    destination is a directory that cannot take the file, or the directory
    of the destination is missing. *)
Definition copy2 (fs : Fs) (src dst : string) : option Fs :=
  match fs !! src with
  | Some (File content) =>
      let dst := if Os.isdir fs dst then Path.join dst (Path.basename src)
                 else dst in
      if String.eqb src dst || Os.isdir fs dst || negb (parent_there fs dst)
      then None
      else Some (<[dst := File content]> fs)
  | _ => None
  end.

(** *** [Session.import_resource] *)
Definition import_resource (fs : Fs) (src_path target_dir : string)
           (typed_confirm : string) : Fs * list event * option string :=
  if String.eqb src_path EmptyString then (fs, [], None)
  else
    let src_path := expand_path src_path in
    if negb (Os.exists_ fs src_path) then (fs, [], None)
    else
      let filename := Path.basename src_path in
      let dest_path := Path.join target_dir filename in
      if Os.exists_ fs dest_path && negb (confirmed typed_confirm)
      then (fs, [], Some filename)
      else
        match copy2 fs src_path dest_path with
        | Some fs' => (fs', [EvCopy src_path dest_path], Some filename)
        | None => (fs, [], None)
        end.

(** [if imported_name:] *)
Definition truthy (r : option string) : option string :=
  match r with
  | Some n => if String.eqb n EmptyString then None else Some n
  | None => None
  end.

(** The [I] branch of [manage_disk]. *)
Definition manage_disk_import (fs : Fs) (s : Session)
           (typed_path typed_confirm : string) : Run :=
  let path := get_input typed_path EmptyString in
  let '(fs1, evs, imported_name) :=
    import_resource fs path (disk_dir s) typed_confirm in
  match truthy imported_name with
  | Some n =>
      let s' := with_disks s (disks s ++ [n]) in
      mkRun (save fs1 s') s'
            (evs ++ [EvSave (config_file s') (config_text s')]) false
  | None => mkRun fs1 s evs false
  end.

(** The [I] branch of [manage_cdrom]. *)
Definition manage_cdrom_import (fs : Fs) (s : Session)
           (typed_path typed_confirm : string) : Run :=
  let path := get_input typed_path EmptyString in
  let '(fs1, evs, imported_name) :=
    import_resource fs path (iso_dir s) typed_confirm in
  match truthy imported_name with
  | Some n =>
      let s' := with_isos s (isos s ++ [n]) in
      mkRun (save fs1 s') s'
            (evs ++ [EvSave (config_file s') (config_text s')]) false
  | None => mkRun fs1 s evs false
  end.

(** *** [Session.get_disk_info] *)

(** [None] is the outcome for a missing file, a failing [qemu-img] and
    output that does not parse. *)
Definition get_disk_info (fs : Fs) (s : Session) (disk_name : string)
  : option (gmap string string) :=
  let path := Path.join (disk_dir s) disk_name in
  if negb (Os.exists_ fs path) then None
  else match qemu_img_info E fs path with
       | Some stdout => json_loads E stdout
       | None => None
       end.

(** *** [Session.snapshot_ops] *)

(** [R]: remove the overlay, then create it again over the same backing
    file; both inside one [try]. *)
Definition reset_overlay (fs : Fs) (s : Session) (disk_name backing : string)
  : Run :=
  let disk_path := Path.join (disk_dir s) disk_name in
  match Os.remove fs disk_path with
  | None => unchanged fs s
  | Some fs1 =>
      let args := ["-f"; "qcow2"; "-b"; backing; "-F"; "qcow2"; disk_name] in
      match qemu_img_create E fs1 (disk_dir s) args with
      | Some image =>
          mkRun (<[disk_path := File image]> fs1) s
                [EvRemove disk_path; EvCreate (disk_dir s) args] false
      | None => mkRun fs1 s [EvRemove disk_path] false
      end
  end.

(** [C] on an overlay: merge it into its backing file. *)
Definition commit_overlay (fs : Fs) (s : Session) (disk_name backing : string)
  : Run :=
  let disk_path := Path.join (disk_dir s) disk_name in
  match qemu_img_commit E fs disk_path with
  | Some image =>
      mkRun (<[Path.join (disk_dir s) backing := File image]> fs) s
            [EvCommit disk_path] false
  | None => unchanged fs s
  end.

(** [D]: switch back to the backing file and delete the overlay.  The
    assignment and [save] are outside the [try]; only [os.remove] is
    inside it. *)
Definition discard_overlay (fs : Fs) (s : Session) (idx : nat)
           (disk_name backing : string) : Run :=
  let disk_path := Path.join (disk_dir s) disk_name in
  if negb (Os.exists_ fs (Path.join (disk_dir s) backing))
  then unchanged fs s
  else
    match list_assign (disks s) idx backing with
    | None => mkRun fs s [] true
    | Some l =>
        let s' := with_disks s l in
        let fs1 := save fs s' in
        let saved := EvSave (config_file s') (config_text s') in
        match Os.remove fs1 disk_path with
        | Some fs2 => mkRun fs2 s' [saved; EvRemove disk_path] false
        | None => mkRun fs1 s' [saved] false
        end
    end.

(** [C] on a base image: create the overlay, then repoint and save; all
    inside one [try]. *)
Definition create_overlay (fs : Fs) (s : Session) (idx : nat)
           (disk_name : string) : Run :=
  let overlay_name := fst (Path.splitext disk_name) +:+ ".snap.qcow2" in
  let overlay_path := Path.join (disk_dir s) overlay_name in
  if Os.exists_ fs overlay_path then unchanged fs s
  else
    let args := ["-f"; "qcow2"; "-b"; disk_name; "-F"; "qcow2"; overlay_name] in
    match qemu_img_create E fs (disk_dir s) args with
    | None => unchanged fs s
    | Some image =>
        let fs1 := <[overlay_path := File image]> fs in
        let created := EvCreate (disk_dir s) args in
        match list_assign (disks s) idx overlay_name with
        | None => mkRun fs1 s [created] false
        | Some l =>
            let s' := with_disks s l in
            mkRun (save fs1 s') s'
                  [created; EvSave (config_file s') (config_text s')] false
        end
    end.

(** [typed_op] is the answer to the operation prompt, [typed_confirm]
    the answer to the confirmation prompt of the chosen operation.  The
    test [not info] holds for [None] and for the empty object. *)
Definition snapshot_ops (fs : Fs) (s : Session) (idx : nat)
           (disk_name : string) (info : option (gmap string string))
           (typed_op typed_confirm : string) : Run :=
  match info with
  | None => unchanged fs s
  | Some d =>
      if bool_decide (d = ∅) then unchanged fs s
      else
        let op := Py.lower (Py.strip typed_op) in
        match d !! "backing-filename" with
        | Some backing =>
            if String.eqb op "r" then
              if confirmed typed_confirm
              then reset_overlay fs s disk_name backing
              else unchanged fs s
            else if String.eqb op "c" then
              if confirmed typed_confirm
              then commit_overlay fs s disk_name backing
              else unchanged fs s
            else if String.eqb op "d" then
              if confirmed typed_confirm
              then discard_overlay fs s idx disk_name backing
              else unchanged fs s
            else unchanged fs s
        | None =>
            if String.eqb op "c" then create_overlay fs s idx disk_name
            else unchanged fs s
        end
  end.

End Program.

(** The [virtio-blk] device entries of an argument vector: the arguments
    that follow a [-device] flag and name the [virtio-blk-pci] driver. *)
Fixpoint virtio_blk_devices (cmd : list string) : list string :=
  match cmd with
  | [] => []
  | flag :: rest =>
      match rest with
      | arg :: _ =>
          if String.eqb flag "-device" && Py.startswith arg "virtio-blk-pci,"
          then arg :: virtio_blk_devices rest
          else virtio_blk_devices rest
      | [] => []
      end
  end.

(** The positions of the disks whose file exists. *)
Definition present_disks (E : Env) (fs : Fs) (s : Session) : list nat :=
  map fst (filter (fun e => Os.exists_ fs (Path.join (disk_dir E s) (snd e)) = true)
                  (enumerate (disks s))).

(** A list of arguments whose first one, if any, is not a virtio-blk
    device argument. *)
Definition quiet_head (l : list string) : Prop :=
  match l with
  | [] => True
  | a :: _ => Py.startswith a "virtio-blk-pci," = false
  end.

(** Two states of [load] that agree except at disk (or ISO) index [i]. *)
Definition same_but_disk (i : Z)
           (st st' : Dict.t * gmap Z string * gmap Z string) : Prop :=
  st.1.1 = st'.1.1 /\ st.2 = st'.2
  /\ forall j, j <> i -> st.1.2 !! j = st'.1.2 !! j.

Definition same_but_iso (i : Z)
           (st st' : Dict.t * gmap Z string * gmap Z string) : Prop :=
  st.1.1 = st'.1.1 /\ st.1.2 = st'.1.2
  /\ forall j, j <> i -> st.2 !! j = st'.2 !! j.

(** The line [save] writes for one entry. *)
Definition written (kv : string * string) : string := assignment kv.1 kv.2.

(** ** What can be stored in a config file *)

(** Text without a line break. *)
Definition one_line (s : string) : bool :=
  negb (Py.contains Py.LF s) && negb (Py.contains Py.CR s).

(** A key that comes back as it was written: one line, no [=], no white
    space in front. *)
Definition key_ok (k : string) : bool :=
  one_line k && negb (Py.contains "=" k)
  && match k with
     | String c _ => negb (Py.isspace c)
     | EmptyString => true
     end.

Definition starts_by (p : ascii -> bool) (s : string) : bool :=
  match s with
  | String c _ => p c
  | EmptyString => false
  end.

Fixpoint ends_by (p : ascii -> bool) (s : string) : bool :=
  match s with
  | EmptyString => false
  | String c EmptyString => p c
  | String _ r => ends_by p r
  end.

Definition is_quote (c : ascii) : bool :=
  Ascii.eqb Py.dquote c || Ascii.eqb Py.squote c.

(** A value with no quote character, single or double, at either end. *)
Definition plain_value (v : string) : bool :=
  negb (starts_by is_quote v) && negb (ends_by is_quote v).

(** A session whose config file reads back line by line: distinct keys,
    each of them [key_ok], and no line break in any value or in any disk or
    ISO name. *)
Definition storable (s : Session) : Prop :=
  NoDup (config s).*1
  /\ Forall (fun kv => key_ok kv.1 = true /\ one_line kv.2 = true) (config s)
  /\ Forall (fun n => one_line n = true) (disks s ++ isos s).

(** The effect of one line, read off [load_line] without the state. *)
Inductive action : Type :=
| Skip
| SetDisk (i : Z) (v : string)
| SetIso (i : Z) (v : string)
| SetConfig (k v : string).

(** The value of a line: double quotes stripped from both ends, then
    single quotes. *)
Definition unquote (val : string) : string :=
  Py.strip_chr Py.squote (Py.strip_chr Py.dquote val).

Definition key_action (key val : string) : action :=
  if Py.startswith key "DISK_" then
    match Py.split "_" key !! 1%nat ≫= Py.int with
    | Some idx => SetDisk idx val
    | None => Skip
    end
  else if Py.startswith key "ISO_" then
    match Py.split "_" key !! 1%nat ≫= Py.int with
    | Some idx => SetIso idx val
    | None => Skip
    end
  else SetConfig key val.

Definition line_action (line : string) : action :=
  if Py.contains "=" line then
    match Py.split1 "=" (Py.strip line) with
    | Some (key, val) => key_action key (unquote val)
    | None => Skip
    end
  else Skip.

Definition act (a : action) (st : Dict.t * gmap Z string * gmap Z string)
  : Dict.t * gmap Z string * gmap Z string :=
  let '(cfg, dm, im) := st in
  match a with
  | Skip => st
  | SetDisk i v => (cfg, <[i := v]> dm, im)
  | SetIso i v => (cfg, dm, <[i := v]> im)
  | SetConfig k v => (Dict.set cfg k v, dm, im)
  end.

(** What one line of the config file does to the three mappings of
    [load]: it assigns [v] to disk (or ISO) index [i] whatever came before,
    or it leaves the entry of index [i] alone. *)
Definition sets_disk (line : string) (i : Z) (v : string) : Prop :=
  forall cfg dm im, load_line (cfg, dm, im) line = (cfg, <[i := v]> dm, im).

Definition sets_iso (line : string) (i : Z) (v : string) : Prop :=
  forall cfg dm im, load_line (cfg, dm, im) line = (cfg, dm, <[i := v]> im).

Definition keeps_disk (line : string) (i : Z) : Prop :=
  forall cfg dm im, (load_line (cfg, dm, im) line).1.2 !! i = dm !! i.

Definition keeps_iso (line : string) (i : Z) : Prop :=
  forall cfg dm im, (load_line (cfg, dm, im) line).2 !! i = im !! i.

(** A line that assigns [v] to disk index [i], as text: trimmed, it is a
    key without equals sign that starts with [DISK_] and whose second
    underscore-separated part [int] reads as [i], the sign, and a text
    whose unquoted form is [v]. *)
Definition disk_line (line : string) (i : Z) (v : string) : Prop :=
  exists key raw,
    Py.strip line = key +:+ "=" +:+ raw
    /\ Py.contains "=" key = false
    /\ Py.startswith key "DISK_" = true
    /\ Py.split "_" key !! 1%nat ≫= Py.int = Some i
    /\ v = unquote raw.

(** The same for an ISO index and the prefix [ISO_]. *)
Definition iso_line (line : string) (i : Z) (v : string) : Prop :=
  exists key raw,
    Py.strip line = key +:+ "=" +:+ raw
    /\ Py.contains "=" key = false
    /\ Py.startswith key "ISO_" = true
    /\ Py.split "_" key !! 1%nat ≫= Py.int = Some i
    /\ v = unquote raw.

(** A run that never wrote the config file. *)
Definition never_saves (r : Run) : Prop :=
  forall p t, EvSave p t ∉ run_events r.



(** ** A concrete installation

    The script lives in [/opt/vm]; typed paths are absolute already;
    [qemu-img info] prints the image header kept as the file's content, and
    [qemu-img create -b] fails when the backing file is absent from the
    working directory. *)

Module Demo.

Definition loads (stdout : string) : option (gmap string string) :=
  if String.eqb stdout "garbage" then None
  else if Py.startswith stdout "backing:"
       then Some {[ "format" := "qcow2";
                    "backing-filename" := Path.slice_from 8 stdout ]}
       else Some {[ "format" := "qcow2" ]}.

Definition info (fs : Fs) (path : string) : option string :=
  match fs !! path with
  | Some (File content) => Some content
  | _ => None
  end.

Definition create (fs : Fs) (cwd : string) (args : list string)
  : option string :=
  match args with
  | [_; _; "-b"; backing; _; _; _] =>
      if Os.exists_ fs (Path.join cwd backing)
      then Some ("backing:" +:+ backing) else None
  | _ => Some "base"
  end.

Definition commit (fs : Fs) (path : string) : option string :=
  match fs !! path with
  | Some (File _) => Some "base"
  | _ => None
  end.

Definition env : Env :=
  mkEnv "/opt/vm/qemu_save" (fun p => p) info loads create commit true.

(** A session [win] whose only disk is the overlay [sys.snap.qcow2]. *)
Definition win : Session :=
  mkSession "win" [("VM_NAME", "win"); ("MEM_SIZE", "8G"); ("CPU_CORES", "4")]
            ["sys.snap.qcow2"] [] [].

Definition win_dir : Fs :=
  {[ "/opt/vm/qemu_save/win" := Dir;
     "/opt/vm/qemu_save/win/shared" := Dir;
     "/opt/vm/qemu_save/win/isos" := Dir;
     "/opt/vm/qemu_save/win/disks" := Dir ]}.

(** The overlay and its backing file are both there. *)
Definition healthy : Fs :=
  <[ "/opt/vm/qemu_save/win/disks/sys.qcow2" := File "base" ]>
    (<[ "/opt/vm/qemu_save/win/disks/sys.snap.qcow2" := File "backing:sys.qcow2" ]>
       (save env win_dir win)).

(** The backing file has been deleted behind the overlay's back. *)
Definition orphaned : Fs :=
  <[ "/opt/vm/qemu_save/win/disks/sys.snap.qcow2" := File "backing:sys.qcow2" ]>
    (save env win_dir win).

(** [data.qcow2] is in the disk directory already; the operator's home
    holds another file of that name. *)
Definition media : Fs :=
  <[ "/home/op/data.qcow2" := File "new" ]>
    (<[ "/home/op" := Dir ]>
       (<[ "/opt/vm/qemu_save/win/disks/data.qcow2" := File "old" ]> healthy)).

(** The operator typed the core count between single quotes. *)
Definition quoted : Session :=
  mkSession "win" [("VM_NAME", "win"); ("MEM_SIZE", "8G"); ("CPU_CORES", "'4'")]
            ["sys.snap.qcow2"] [] [].

(** Three disks, the first of which is missing from the disk directory. *)
Definition three : Session :=
  mkSession "win" [("VM_NAME", "win")] ["a.qcow2"; "b.qcow2"; "c.qcow2"] [] [].

Definition two_of_three : Fs :=
  <[ "/opt/vm/qemu_save/win/disks/b.qcow2" := File "base" ]>
    (<[ "/opt/vm/qemu_save/win/disks/c.qcow2" := File "base" ]> win_dir).

(** A config file that assigns disk index 1 twice, under two spellings. *)
Definition twice_text : string :=
  assignment "DISK_0" "sys.qcow2" +:+ assignment "DISK_1" "old.qcow2"
    +:+ assignment "MEM_SIZE" "8G" +:+ assignment "DISK_01" "new.qcow2".

Definition twice : Fs :=
  {[ "/opt/vm/qemu_save/win/config.conf" := File twice_text ]}.


Definition base_info : gmap string string := {[ "format" := "qcow2" ]}.

End Demo.

(** ** More of the script *)

Fixpoint all_by (p : ascii -> bool) (s : string) : bool :=
  match s with
  | EmptyString => true
  | String c r => p c && all_by p r
  end.

(** [str.isdigit] on one code point below 256: the ASCII digits and the
    superscripts one, two and three. *)
Definition unicode_isdigit (c : ascii) : bool :=
  let n := nat_of_ascii c in
  Py.isdigit c || ((n =? 178) || (n =? 179) || (n =? 185))%nat.

(** [s.isdigit()] *)
Definition str_isdigit (s : string) : bool :=
  negb (String.eqb s EmptyString) && all_by unicode_isdigit s.

Definition OVMF_CODE_PATHS : list string :=
  [ "/usr/share/OVMF/OVMF_CODE_4M.fd";
    "/usr/share/OVMF/OVMF_CODE.fd";
    "/usr/share/edk2/ovmf/OVMF_CODE.fd";
    "/usr/share/ovmf/x64/OVMF_CODE.fd";
    "/usr/share/qemu/ovmf-x86_64-code.bin";
    "/usr/share/qemu/OVMF.fd";
    "/usr/share/ovmf/OVMF.fd" ].

Definition OVMF_VARS_CANDIDATES : list string :=
  [ "OVMF_VARS.fd"; "OVMF_VARS_4M.fd"; "OVMF_VARS.4m.fd"; "ovmf-x86_64-vars.bin" ].

(** [FS.detect_ovmf]: the first firmware path that exists, and the first
    variable template that exists in its directory. *)
Definition detect_ovmf (fs : Fs) : option string * option string :=
  match find (Os.exists_ fs) OVMF_CODE_PATHS with
  | None => (None, None)
  | Some code_path =>
      let ovmf_dir := dirname code_path in
      (Some code_path,
       find (Os.exists_ fs) (map (Path.join ovmf_dir) OVMF_VARS_CANDIDATES))
  end.

(** The check at the start of [main]: both paths were found. *)
Definition firmware_found (fs : Fs) : bool :=
  match detect_ovmf fs with
  | (Some _, Some _) => true
  | _ => false
  end.

(** [d.update(other)] *)
Definition dict_update (d other : Dict.t) : Dict.t :=
  fold_left (fun d kv => Dict.set d kv.1 kv.2) other d.

(** The [usb-storage] device entries of an argument vector. *)
Fixpoint usb_storage_devices (cmd : list string) : list string :=
  match cmd with
  | [] => []
  | flag :: rest =>
      match rest with
      | arg :: _ =>
          if String.eqb flag "-device" && Py.startswith arg "usb-storage,"
          then arg :: usb_storage_devices rest
          else usb_storage_devices rest
      | [] => []
      end
  end.

Definition calm_head (l : list string) : Prop :=
  match l with
  | [] => True
  | a :: _ => Py.startswith a "usb-storage," = false
  end.

(** A transient mount that [build_command] attaches: a directory or a
    regular file. *)
Definition mountable (fs : Fs) (path : string) : bool :=
  Os.isdir fs path || Os.isfile fs path.

(** The [-device] argument of the transient mount at position [i]. *)
Definition transient_device (i : nat) : string :=
  "usb-storage,drive=" +:+ ("drive_trans_" +:+ Py.str_of_nat i) +:+ ",serial="
    +:+ ("TRANS_" +:+ Py.str_of_nat i) +:+ ",removable=on".

(** The positions of the transient mounts that are attached. *)
Definition mounted (fs : Fs) (s : Session) : list nat :=
  map fst (filter (fun e => mountable fs e.2 = true)
                  (enumerate (transient_mounts s))).

(** The paths inside a directory, the directory itself included. *)
Definition under (d p : string) : bool :=
  String.eqb p d
  || Py.startswith p (if String.eqb d EmptyString || Path.endswith_chr d "/"
                      then d else d +:+ "/").

(** [shutil.rmtree(d)]: [None] stands for the [OSError] raised when [d] is
    not a directory. *)
Definition rmtree (fs : Fs) (d : string) : option Fs :=
  match fs !! d with
  | Some Dir => Some (filter (fun kv => under d kv.1 = false) fs)
  | _ => None
  end.

(** The text every path inside directory [d] starts with. *)
Definition dir_prefix (d : string) : string :=
  if String.eqb d EmptyString || Path.endswith_chr d "/" then d else d +:+ "/".

(** The name under which path [p] is an entry of directory [d], if it is
    one; [.] and [..] are never listed. *)
Definition entry_name (d p : string) : option string :=
  let pre := dir_prefix d in
  if Py.startswith p pre then
    let n := Path.slice_from (Z.of_nat (String.length pre)) p in
    if String.eqb n EmptyString || Py.contains "/" n
       || String.eqb n "." || String.eqb n ".."
    then None else Some n
  else None.

(** [os.listdir(d)]: [None] stands for the [OSError] raised when [d] is
    not a directory. *)
Definition listdir (fs : Fs) (d : string) : option (list string) :=
  match fs !! d with
  | Some Dir => Some (omap (entry_name d) (map_to_list fs).*1)
  | _ => None
  end.

(** The order of [str]: by code point, a proper prefix first. *)
Definition str_le (a b : string) : Prop := String.leb a b = true.

#[global] Instance str_le_dec a b : Decision (str_le a b) :=
  bool_eq_dec (String.leb a b) true.

(** [sorted(l)] on a list of [str] *)
Definition sorted (l : list string) : list string := merge_sort str_le l.

(** [l.remove(x)]: the first occurrence goes; [None] stands for the
    [ValueError] raised when there is none. *)
Fixpoint list_remove (x : string) (l : list string) : option (list string) :=
  match l with
  | [] => None
  | y :: r => if String.eqb y x then Some r else cons y <$> list_remove x r
  end.

(** A file name without directory part. *)
Definition bare (n : string) : bool :=
  negb (String.eqb n EmptyString) && negb (Py.contains "/" n).

(** A name a directory entry can have: no directory part, and not one of
    the two names every directory resolves by itself. *)
Definition entry_ok (n : string) : bool :=
  bare n && negb (String.eqb n ".") && negb (String.eqb n "..").

Section MoreProgram.

Context (E : Env).

(** [Session.exists] *)
Definition session_exists (fs : Fs) (s : Session) : bool :=
  Os.exists_ fs (config_file E s).

(** [Session.delete]: [None] when [rmtree] raises. *)
Definition session_delete (fs : Fs) (s : Session) : option Fs :=
  if Os.exists_ fs (dir E s) then rmtree fs (dir E s) else Some fs.

(** [Session.ensure_vars]: [None] when [shutil.copy] raises.  The session
    loop calls it on a loaded session, whose directory is there. *)
Definition ensure_vars (fs : Fs) (s : Session) (template_path : string)
  : option Fs :=
  if negb (Os.exists_ fs (vars_file E s))
  then copy2 fs template_path (vars_file E s)
  else Some fs.

Definition with_config (s : Session) (c : Dict.t) : Session :=
  mkSession (name s) c (disks s) (isos s) (transient_mounts s).


(** [Session.configure_basic]: [typed_mem] and [typed_cpu] are the answers
    to the two prompts.  Both keys are in [defaults] from the start, so the
    two subscripts never raise. *)
Definition configure_basic (fs : Fs) (s : Session) (is_new : bool)
           (typed_mem typed_cpu : string) : Run :=
  let defaults := [("MEM_SIZE", "8G"); ("CPU_CORES", "4")] in
  let defaults := if is_new then defaults else dict_update defaults (config s) in
  let cfg := Dict.set (config s) "VM_NAME" (name s) in
  let cfg := Dict.set cfg "MEM_SIZE"
               (get_input typed_mem
                  (Dict.get_default defaults "MEM_SIZE" EmptyString)) in
  let cfg := Dict.set cfg "CPU_CORES"
               (get_input typed_cpu
                  (Dict.get_default defaults "CPU_CORES" EmptyString)) in
  let s' := with_config s cfg in
  mkRun (save E fs s') s' [EvSave (config_file E s') (config_text s')] false.

(** The [A] branch of [manage_disk].  [qemu-img create] is run without
    [check] and outside any [try]: its exit status is not looked at, and
    the exception raised when the program cannot be started leaves the
    handler before the name is appended. *)
Definition manage_disk_add (fs : Fs) (s : Session)
           (typed_name typed_size : string) : Run :=
  let name := get_input typed_name "system.qcow2" in
  let size := get_input typed_size "60G" in
  let dest_path := Path.join (disk_dir E s) name in
  if Os.exists_ fs dest_path then unchanged fs s
  else if negb (qemu_img_found E) then mkRun fs s [] true
  else
    let args := ["-f"; "qcow2"; dest_path; size] in
    let '(fs1, created) :=
      match qemu_img_create E fs EmptyString args with
      | Some image => (<[dest_path := File image]> fs,
                       [EvCreate EmptyString args])
      | None => (fs, [])
      end in
    let s' := with_disks s (disks s ++ [name]) in
    mkRun (save E fs1 s') s'
          (created ++ [EvSave (config_file E s') (config_text s')]) false.

(** A typed entry number: [None] when the text is not made of digits or
    the number is out of range; [Some None] when [int] raises on digits it
    does not read. *)
Definition chosen_index (idx_str : string) (len : nat) : option (option nat) :=
  if str_isdigit idx_str then
    match Py.int idx_str with
    | None => Some None
    | Some n =>
        let idx := (n - 1)%Z in
        if (0 <=? idx)%Z && (idx <? Z.of_nat len)%Z
        then Some (Some (Z.to_nat idx)) else None
    end
  else None.

(** The [D] branch of [manage_disk]. *)
Definition manage_disk_detach (fs : Fs) (s : Session)
           (typed_idx typed_confirm : string) : Run :=
  match chosen_index (get_input typed_idx EmptyString) (length (disks s)) with
  | None => unchanged fs s
  | Some None => mkRun fs s [] true
  | Some (Some idx) =>
      if confirmed typed_confirm then
        let s' := with_disks s (delete idx (disks s)) in
        mkRun (save E fs s') s'
              [EvSave (config_file E s') (config_text s')] false
      else unchanged fs s
  end.

(** The [D] branch of [manage_cdrom]: no confirmation is asked. *)
Definition manage_cdrom_detach (fs : Fs) (s : Session) (typed_idx : string)
  : Run :=
  match chosen_index (get_input typed_idx EmptyString) (length (isos s)) with
  | None => unchanged fs s
  | Some None => mkRun fs s [] true
  | Some (Some idx) =>
      let s' := with_isos s (delete idx (isos s)) in
      mkRun (save E fs s') s'
            [EvSave (config_file E s') (config_text s')] false
  end.

(** One round of [manage_snapshots]: the listing inspects every disk, the
    operator picks one by number, and [snapshot_ops] runs on it. *)
Definition manage_snapshots (fs : Fs) (s : Session)
           (typed_choice typed_op typed_confirm : string) : Run :=
  match disks s with
  | [] => unchanged fs s
  | _ =>
      let choice := Py.lower (Py.strip typed_choice) in
      if String.eqb choice "b" then unchanged fs s
      else
        match chosen_index choice (length (disks s)) with
        | None => unchanged fs s
        | Some None => mkRun fs s [] true
        | Some (Some idx) =>
            match disks s !! idx with
            | Some disk_name =>
                snapshot_ops E fs s idx disk_name
                             (get_disk_info E fs s disk_name)
                             typed_op typed_confirm
            | None => unchanged fs s
            end
        end
  end.



(** The [X] branch of [session_loop]. *)
Definition session_loop_delete (fs : Fs) (s : Session) (typed_confirm : string)
  : option Fs :=
  if confirmed typed_confirm then session_delete fs s else Some fs.

(** The files shown by [file_manager]. *)
Definition file_manager_listing (fs : Fs) (target_dir : string)
  : option (list string) :=
  if negb (Os.exists_ fs target_dir) then Some []
  else sorted <$> listdir fs target_dir.

(** One round of [file_manager] in which [D] is chosen.  The listing is
    outside the [try], the deletion and the update of the session inside
    it; [EvRemove] records the deletion, by [os.remove] or by
    [shutil.rmtree]. *)
Definition file_manager_delete (fs : Fs) (s : Session)
           (target_dir typed_idx typed_confirm : string) : Run :=
  match file_manager_listing fs target_dir with
  | None => mkRun fs s [] true
  | Some files =>
      match chosen_index (get_input typed_idx EmptyString) (length files) with
      | None => unchanged fs s
      | Some None => mkRun fs s [] true
      | Some (Some idx) =>
          match files !! idx with
          | None => unchanged fs s
          | Some fname =>
              let fpath := Path.join target_dir fname in
              let is_used :=
                (String.eqb target_dir (disk_dir E s)
                 && bool_decide (fname ∈ disks s))
                || (String.eqb target_dir (iso_dir E s)
                    && bool_decide (fname ∈ isos s)) in
              if confirmed typed_confirm then
                match (if Os.isdir fs fpath then rmtree fs fpath
                       else Os.remove fs fpath) with
                | None => unchanged fs s
                | Some fs1 =>
                    if is_used then
                      let updated :=
                        if String.eqb target_dir (disk_dir E s)
                        then with_disks s <$> list_remove fname (disks s)
                        else if String.eqb target_dir (iso_dir E s)
                        then with_isos s <$> list_remove fname (isos s)
                        else Some s in
                      match updated with
                      | Some s' =>
                          mkRun (save E fs1 s') s'
                                [EvRemove fpath;
                                 EvSave (config_file E s') (config_text s')]
                                false
                      | None => mkRun fs1 s [EvRemove fpath] false
                      end
                    else mkRun fs1 s [EvRemove fpath] false
                end
              else unchanged fs s
          end
      end
  end.

(** The scan of [main]: the entries of [SAVE_ROOT] that are directories,
    sorted; [None] when [os.listdir] raises. *)
Definition scan_sessions (fs : Fs) : option (list string) :=
  if Os.exists_ fs (SAVE_ROOT E) then
    (fun l => sorted (filter (fun d => Os.isdir fs (Path.join (SAVE_ROOT E) d)
                                       = true) l))
      <$> listdir fs (SAVE_ROOT E)
  else Some [].

(** The [N] branch of [main] for the scanned [sessions]: [None] when the
    name is blank or taken and the menu is shown again. *)
Definition main_new_session (fs : Fs) (sessions : list string)
           (typed_name typed_mem typed_cpu : string) : option Run :=
  let name := get_input typed_name EmptyString in
  if String.eqb name EmptyString then None
  else if bool_decide (name ∈ sessions) then None
  else
    let new_session := new_session name in
    Some (configure_basic (create_structure E fs new_session) new_session true
                          typed_mem typed_cpu).

End MoreProgram.

(** The name [snapshot_ops] gives to the overlay of a base image. *)
Definition overlay_name (disk_name : string) : string :=
  fst (Path.splitext disk_name) +:+ ".snap.qcow2".

(** The place of a session is ready for [save]: the name is an entry
    name, the save root is a directory, no regular file stands where one
    of the four directories goes, and no directory where the config file
    goes. *)
Definition save_in_place (E : Env) (fs : Fs) (s : Session) : Prop :=
  entry_ok (name s) = true
  /\ Os.isdir fs (SAVE_ROOT E) = true
  /\ Forall (fun p => Os.isfile fs p = false)
            [dir E s; shared_dir E s; iso_dir E s; disk_dir E s]
  /\ Os.isdir fs (config_file E s) = false.

(** Every listed disk is a regular file of the disk directory. *)
Definition disks_present (E : Env) (fs : Fs) (s : Session) : Prop :=
  Forall (fun d => Os.isfile fs (Path.join (disk_dir E s) d) = true) (disks s).

(** The save root of the concrete installation with no session in it,
    and with the session [win]. *)
Definition bare_root : Fs := {[ "/opt/vm/qemu_save" := Dir ]}.

Definition win_root : Fs := <[ "/opt/vm/qemu_save" := Dir ]> Demo.win_dir.

(** ** Sessions that read back whole *)

(** A storable session all of whose values and names are plain, and none
    of whose config keys looks like a disk or ISO entry. *)
Definition reloadable (s : Session) : Prop :=
  storable s
  /\ Forall (fun kv => Py.startswith kv.1 "DISK_" = false
                       /\ Py.startswith kv.1 "ISO_" = false
                       /\ plain_value kv.2 = true) (config s)
  /\ Forall (fun n => plain_value n = true) (disks s ++ isos s).

(** [disk_map] after the lines [DISK_i], [DISK_i+1], ... for the names of
    a list. *)
Definition indexed_from (i : nat) (l : list string) (m : gmap Z string)
  : gmap Z string :=
  fold_left (fun m e => <[Z.of_nat e.1 := e.2]> m) (enumerate_from i l) m.

(** * Properties *)

(** ** Command synthesis *)

Section BuildCommand.

Context (E : Env).

Lemma virtio_blk_devices_app (X Y : list string) :
  quiet_head Y ->
  virtio_blk_devices (X ++ Y) = virtio_blk_devices X ++ virtio_blk_devices Y.
Proof.
  intros HY. induction X as [|x X IH]; [reflexivity|].
  destruct X as [|x' X].
  - destruct Y as [|y Y]; [reflexivity|].
    cbn [app virtio_blk_devices]. cbn in HY. rewrite HY, andb_false_r.
    reflexivity.
  - change ((x :: x' :: X) ++ Y) with (x :: (x' :: X) ++ Y).
    cbn [virtio_blk_devices]. rewrite IH.
    change ((x' :: X) ++ Y) with (x' :: X ++ Y).
    cbn beta iota.
    destruct (String.eqb x "-device" && Py.startswith x' "virtio-blk-pci,");
      reflexivity.
Qed.

Lemma quiet_head_app (X Y : list string) :
  quiet_head X -> quiet_head Y -> quiet_head (X ++ Y).
Proof. destruct X; simpl; auto. Qed.

Lemma disk_args_quiet fs s e : quiet_head (disk_args E fs s e).
Proof.
  destruct e as [i d]. unfold disk_args.
  destruct (Os.exists_ _ _); simpl; reflexivity.
Qed.

Lemma flat_map_quiet {A} (f : A -> list string) (l : list A) :
  (forall a, quiet_head (f a)) -> quiet_head (flat_map f l).
Proof.
  intros Hf. induction l as [|a l IH]; simpl; [exact I|].
  apply quiet_head_app; auto.
Qed.

Lemma blk_device_prefix i :
  Py.startswith (blk_device i) "virtio-blk-pci," = true.
Proof. reflexivity. Qed.

Lemma disk_args_devices fs s i d :
  virtio_blk_devices (disk_args E fs s (i, d)) =
  if Os.exists_ fs (Path.join (disk_dir E s) d) then [blk_device i] else [].
Proof.
  unfold disk_args. destruct (Os.exists_ _ _); reflexivity.
Qed.

Lemma flat_map_no_devices {A} (f : A -> list string) (l : list A) :
  (forall a, quiet_head (f a)) ->
  (forall a, virtio_blk_devices (f a) = []) ->
  virtio_blk_devices (flat_map f l) = [].
Proof.
  intros Hq Hf. induction l as [|a l IH]; [reflexivity|].
  cbn [flat_map]. rewrite virtio_blk_devices_app, Hf, IH; [reflexivity|].
  now apply flat_map_quiet.
Qed.

Lemma disks_devices fs s (l : list string) (i : nat) :
  virtio_blk_devices (flat_map (disk_args E fs s) (enumerate_from i l)) =
  map blk_device
    (map fst (filter (fun e => Os.exists_ fs (Path.join (disk_dir E s) (snd e)) = true)
                     (enumerate_from i l))).
Proof.
  revert i. induction l as [|d l IH]; intros i; [reflexivity|].
  cbn [enumerate_from flat_map].
  rewrite virtio_blk_devices_app by (apply flat_map_quiet, disk_args_quiet).
  rewrite disk_args_devices, IH, filter_cons. cbn [snd].
  destruct (decide _) as [Hx|Hx].
  - rewrite Hx. reflexivity.
  - apply not_true_is_false in Hx. rewrite Hx. reflexivity.
Qed.

Lemma iso_args_quiet fs s e : quiet_head (iso_args E fs s e).
Proof.
  destruct e as [i d]. unfold iso_args.
  destruct (Os.exists_ _ _); simpl; reflexivity.
Qed.

Lemma iso_args_devices fs s e : virtio_blk_devices (iso_args E fs s e) = [].
Proof.
  destruct e as [i d]. unfold iso_args.
  destruct (Os.exists_ _ _); reflexivity.
Qed.

Lemma transient_args_quiet fs e : quiet_head (transient_args fs e).
Proof.
  destruct e as [i d]. unfold transient_args.
  destruct (Os.isdir _ _); [reflexivity|].
  destruct (Os.isfile _ _); simpl; reflexivity.
Qed.

Lemma transient_args_devices fs e :
  virtio_blk_devices (transient_args fs e) = [].
Proof.
  destruct e as [i d]. unfold transient_args.
  destruct (Os.isdir _ _); [reflexivity|].
  destruct (Os.isfile _ _); reflexivity.
Qed.

Lemma virtio_blk_devices_skip (a b : string) (rest : list string) :
  String.eqb a "-device" && Py.startswith b "virtio-blk-pci," = false ->
  virtio_blk_devices (a :: b :: rest) = virtio_blk_devices (b :: rest).
Proof. intros H. cbn [virtio_blk_devices]. rewrite H. reflexivity. Qed.

Lemma preamble_devices ovmf s :
  virtio_blk_devices (preamble E ovmf s) = [].
Proof.
  unfold preamble.
  repeat (etransitivity;
          [ apply virtio_blk_devices_skip;
            first [ reflexivity | apply andb_false_intro2; reflexivity ]
          | ]).
  reflexivity.
Qed.

Lemma present_length fs s (l : list string) (i : nat) :
  length (map fst (filter (fun e => Os.exists_ fs (Path.join (disk_dir E s) (snd e)) = true)
                          (enumerate_from i l)))
  = length (filter (fun d => Os.exists_ fs (Path.join (disk_dir E s) d) = true) l).
Proof.
  revert i. induction l as [|d l IH]; intros i; [reflexivity|].
  cbn [enumerate_from].
  rewrite (filter_cons _ (i, d)), (filter_cons _ d l). cbn [snd].
  destruct (decide _); cbn [map length]; rewrite IH; reflexivity.
Qed.

Lemma build_command_devices fs ovmf s :
  virtio_blk_devices (build_command E fs ovmf s)
  = map blk_device (present_disks E fs s).
Proof.
  unfold build_command, present_disks, enumerate.
  assert (Hs : quiet_head (shared_args E s)) by reflexivity.
  pose proof (flat_map_quiet (transient_args fs)
                (enumerate_from 0 (transient_mounts s))
                (transient_args_quiet fs)) as Ht.
  pose proof (flat_map_quiet (iso_args E fs s) (enumerate_from 0 (isos s))
                (iso_args_quiet fs s)) as Hi.
  pose proof (flat_map_quiet (disk_args E fs s) (enumerate_from 0 (disks s))
                (disk_args_quiet fs s)) as Hd.
  rewrite !virtio_blk_devices_app by (repeat apply quiet_head_app; assumption).
  rewrite preamble_devices, disks_devices.
  rewrite (flat_map_no_devices _ _ (iso_args_quiet fs s) (iso_args_devices fs s)).
  rewrite (flat_map_no_devices _ _ (transient_args_quiet fs)
             (transient_args_devices fs)).
  cbn [app]. change (virtio_blk_devices (shared_args E s)) with (@nil string).
  rewrite app_nil_r. reflexivity.
Qed.

(** C1. The virtio-blk device entries of the synthesized argument vector
    are, in order, those of the disks whose resolved file exists, one per
    such disk, and the entry of the disk at 0-based position [i] of the
    full disk list is [blk_device i], which carries [bootindex=i+1]; so
    there are as many entries as existing files, and with disks
    [A; B; C] of which only [A] is missing, [B] gets bootindex 2, [C]
    gets bootindex 3 and [A] gets no entry. *)
Theorem build_command_virtio_blk :
  (forall fs ovmf s,
      virtio_blk_devices (build_command E fs ovmf s)
      = map blk_device (present_disks E fs s)
      /\ length (virtio_blk_devices (build_command E fs ovmf s))
         = length (filter (fun d => Os.exists_ fs (Path.join (disk_dir E s) d) = true)
                          (disks s)))
  /\ (forall fs ovmf s A B C,
        disks s = [A; B; C] ->
        Os.exists_ fs (Path.join (disk_dir E s) A) = false ->
        Os.exists_ fs (Path.join (disk_dir E s) B) = true ->
        Os.exists_ fs (Path.join (disk_dir E s) C) = true ->
        virtio_blk_devices (build_command E fs ovmf s)
        = [ "virtio-blk-pci,drive=drive_disk_1,serial=DISK_1,bootindex=2,iothread=io0";
            "virtio-blk-pci,drive=drive_disk_2,serial=DISK_2,bootindex=3,iothread=io0" ]).
Proof.
  split.
  - intros fs ovmf s. rewrite build_command_devices. split; [reflexivity|].
    rewrite length_map. apply present_length.
  - intros fs ovmf s A B C Hd HA HB HC.
    rewrite build_command_devices. unfold present_disks, enumerate.
    rewrite Hd. cbn [enumerate_from].
    rewrite (filter_cons _ (0, A)), (filter_cons _ (1, B)),
      (filter_cons _ (2, C)), filter_nil.
    cbn [snd]. rewrite HA, HB, HC. reflexivity.
Qed.

End BuildCommand.

(** ** Loading *)

Section Loading.

Context (E : Env).

Lemma le_NoDup_lt (l : list Z) :
  StronglySorted Z.le l -> NoDup l -> StronglySorted Z.lt l.
Proof.
  induction 1 as [|x l Hs IH Hall]; intros Hnd; [constructor|].
  apply NoDup_cons in Hnd as [Hx Hnd]. constructor; [auto|].
  rewrite Forall_forall in Hall |- *. intros y Hy.
  assert (x <> y) by (intros ->; apply Hx; exact Hy).
  specialize (Hall y Hy). lia.
Qed.

Lemma sorted_keys_elem (m : gmap Z string) (i : Z) :
  i ∈ sorted_keys m <-> is_Some (m !! i).
Proof.
  unfold sorted_keys. rewrite merge_sort_Permutation, list_elem_of_fmap.
  split.
  - intros ([j v] & -> & Hjv). apply elem_of_map_to_list in Hjv. eauto.
  - intros [v Hv]. exists (i, v). split; [reflexivity|].
    apply elem_of_map_to_list. exact Hv.
Qed.

Lemma sorted_keys_increasing (m : gmap Z string) :
  StronglySorted Z.lt (sorted_keys m).
Proof.
  apply le_NoDup_lt.
  - apply StronglySorted_merge_sort; apply _.
  - unfold sorted_keys. rewrite merge_sort_Permutation.
    apply NoDup_fst_map_to_list.
Qed.

Lemma omap_lookup_all (m : gmap Z string) (l : list Z) :
  (forall i, i ∈ l -> is_Some (m !! i)) ->
  Forall2 (fun i v => m !! i = Some v) l (omap (fun i => m !! i) l).
Proof.
  induction l as [|i l IH]; intros Hl; [constructor|].
  destruct (Hl i) as [v Hv]; [left|].
  cbn. rewrite Hv. constructor; [exact Hv|].
  apply IH. intros j Hj. apply Hl. right. exact Hj.
Qed.

Lemma values_by_index_spec (m : gmap Z string) :
  Forall2 (fun i v => m !! i = Some v) (sorted_keys m) (values_by_index m).
Proof.
  apply omap_lookup_all. intros i. apply sorted_keys_elem.
Qed.

Lemma load_of_file fs s text :
  fs !! config_file E s = Some (File text) ->
  load E fs s =
  (mkSession (name s) (load_lines (Py.readlines text)).1.1
             (values_by_index (load_lines (Py.readlines text)).1.2)
             (values_by_index (load_lines (Py.readlines text)).2)
             (transient_mounts s), true).
Proof.
  intros H. unfold load. rewrite H.
  destruct (load_lines _) as [[cfg dm] im]. reflexivity.
Qed.

(** C10. [load] touches the scalar config, the disks and the isos only:
    whatever its outcome, the session keeps its name and its transient
    mounts, so mounts added before a re-load are still there after it. *)
Theorem load_keeps_transient_mounts (fs : Fs) (s : Session) :
  transient_mounts (fst (load E fs s)) = transient_mounts s
  /\ name (fst (load E fs s)) = name s.
Proof.
  unfold load.
  destruct (fs !! config_file E s) as [[|text]|]; [split; reflexivity| |split; reflexivity].
  destruct (load_lines (Py.readlines text)) as [[cfg dm] im].
  split; reflexivity.
Qed.

End Loading.

(** ** The backing-chain manager *)

Section BackingChain.

Context (E : Env).

Implicit Types (fs : Fs) (s : Session) (d : gmap string string).

Lemma exists_makedirs fs p q :
  Os.exists_ fs q = true -> Os.exists_ (Os.makedirs fs p) q = true.
Proof.
  unfold Os.makedirs, Os.exists_. intros H.
  destruct (fs !! p) eqn:Hp; [exact H|].
  destruct (decide (p = q)) as [->|Hne].
  - rewrite lookup_insert_eq. reflexivity.
  - rewrite lookup_insert_ne by exact Hne. exact H.
Qed.

Lemma exists_insert fs p n q :
  Os.exists_ fs q = true -> Os.exists_ (<[p := n]> fs) q = true.
Proof.
  unfold Os.exists_. intros H.
  destruct (decide (p = q)) as [->|Hne].
  - rewrite lookup_insert_eq. reflexivity.
  - rewrite lookup_insert_ne by exact Hne. exact H.
Qed.

Lemma exists_insert_eq fs p n : Os.exists_ (<[p := n]> fs) p = true.
Proof. unfold Os.exists_. rewrite lookup_insert_eq. reflexivity. Qed.

Lemma exists_save fs s q :
  Os.exists_ fs q = true -> Os.exists_ (save E fs s) q = true.
Proof.
  intros H. unfold save, Os.write_text, create_structure.
  apply exists_insert. repeat apply exists_makedirs. exact H.
Qed.

Lemma save_config_file fs s :
  save E fs s !! config_file E s = Some (File (config_text s)).
Proof. unfold save, Os.write_text. apply lookup_insert_eq. Qed.

Lemma lookup_Some_nonempty d k v : d !! k = Some v -> d <> ∅.
Proof. intros H ->. rewrite lookup_empty in H. discriminate. Qed.


Lemma snapshot_ops_base fs s idx disk_name d typed_op typed_confirm :
  d <> ∅ ->
  d !! "backing-filename" = None ->
  snapshot_ops E fs s idx disk_name (Some d) typed_op typed_confirm =
  if String.eqb (Py.lower (Py.strip typed_op)) "c"
  then create_overlay E fs s idx disk_name
  else unchanged fs s.
Proof.
  intros Hne Hb. unfold snapshot_ops.
  rewrite bool_decide_eq_false_2 by exact Hne.
  rewrite Hb. reflexivity.
Qed.

Lemma list_assign_Some (l : list string) idx old v :
  l !! idx = Some old -> list_assign l idx v = Some (<[idx := v]> l).
Proof.
  intros H. unfold list_assign.
  apply lookup_lt_Some in H. apply Nat.ltb_lt in H. rewrite H. reflexivity.
Qed.

(** C8. When the inspector fails (the disk file is missing, [qemu-img
    info] fails, or its output does not parse) [get_disk_info] yields
    [None], which is not the outcome of any base image; on [None] every
    operation of [snapshot_ops] refuses, leaving the file system and the
    session as they were and performing no effect, whereas on a base
    image the create operation goes ahead. *)
Theorem unknown_info_is_refused :
  (forall fs s disk_name,
      Os.exists_ fs (Path.join (disk_dir E s) disk_name) = false ->
      get_disk_info E fs s disk_name = None)
  /\ (forall fs s disk_name,
        qemu_img_info E fs (Path.join (disk_dir E s) disk_name) = None ->
        get_disk_info E fs s disk_name = None)
  /\ (forall fs s disk_name stdout,
        qemu_img_info E fs (Path.join (disk_dir E s) disk_name) = Some stdout ->
        json_loads E stdout = None ->
        get_disk_info E fs s disk_name = None)
  /\ (forall fs s idx disk_name typed_op typed_confirm,
        snapshot_ops E fs s idx disk_name None typed_op typed_confirm
        = mkRun fs s [] false)
  /\ (forall fs s idx disk_name d typed_confirm image,
        d <> ∅ ->
        d !! "backing-filename" = None ->
        Os.exists_ fs (Path.join (disk_dir E s)
                         (fst (Path.splitext disk_name) +:+ ".snap.qcow2")) = false ->
        qemu_img_create E fs (disk_dir E s)
          ["-f"; "qcow2"; "-b"; disk_name; "-F"; "qcow2";
           fst (Path.splitext disk_name) +:+ ".snap.qcow2"] = Some image ->
        (None : option (gmap string string)) <> Some d
        /\ run_events (snapshot_ops E fs s idx disk_name (Some d) "c" typed_confirm)
           <> []).
Proof.
  repeat split.
  - intros fs s n H. unfold get_disk_info. rewrite H. reflexivity.
  - intros fs s n H. unfold get_disk_info. rewrite H.
    destruct (negb _); reflexivity.
  - intros fs s n out H1 H2. unfold get_disk_info. rewrite H1, H2.
    destruct (negb _); reflexivity.
  - discriminate.
  - rewrite snapshot_ops_base by assumption.
    change (String.eqb (Py.lower (Py.strip "c")) "c") with true.
    cbv beta iota. unfold create_overlay.
    rewrite H1, H2. destruct (list_assign _ _ _); discriminate.
Qed.

(** C5. On a base image, choosing to create an overlay while a file
    already sits at the overlay's name (the disk name without its
    extension, plus [.snap.qcow2]) fails: nothing is created or saved
    and the disk list is the one from before. *)
Theorem create_overlay_refuses_taken_name
        fs s idx disk_name d typed_op typed_confirm :
  d <> ∅ ->
  d !! "backing-filename" = None ->
  Py.lower (Py.strip typed_op) = "c" ->
  Os.exists_ fs (Path.join (disk_dir E s)
                   (fst (Path.splitext disk_name) +:+ ".snap.qcow2")) = true ->
  let r := snapshot_ops E fs s idx disk_name (Some d) typed_op typed_confirm in
  disks (run_session r) = disks s
  /\ run_session r = s /\ run_fs r = fs /\ run_events r = [].
Proof.
  intros Hne Hb Hop Hex r. subst r.
  rewrite snapshot_ops_base by assumption.
  rewrite Hop. change (String.eqb "c" "c") with true. cbv beta iota.
  unfold create_overlay. rewrite Hex. repeat split; reflexivity.
Qed.




Lemma create_overlay_run fs s idx disk_name :
  disks s !! idx = Some disk_name ->
  let overlay_name := fst (Path.splitext disk_name) +:+ ".snap.qcow2" in
  let s' := with_disks s (<[idx := overlay_name]> (disks s)) in
  create_overlay E fs s idx disk_name = unchanged fs s
  \/ exists image args,
      create_overlay E fs s idx disk_name
      = mkRun (save E (<[Path.join (disk_dir E s) overlay_name := File image]> fs) s')
              s'
              [EvCreate (disk_dir E s) args;
               EvSave (config_file E s') (config_text s')] false.
Proof.
  intros Hidx overlay_name s'. unfold create_overlay. fold overlay_name.
  destruct (Os.exists_ _ _); [left; reflexivity|].
  destruct (qemu_img_create _ _ _ _) as [image|]; [|left; reflexivity].
  rewrite (list_assign_Some _ _ _ _ Hidx). right. eauto.
Qed.

Lemma discard_overlay_run fs s idx disk_name backing :
  disks s !! idx = Some disk_name ->
  let s' := with_disks s (<[idx := backing]> (disks s)) in
  let disk_path := Path.join (disk_dir E s) disk_name in
  discard_overlay E fs s idx disk_name backing = unchanged fs s
  \/ (Os.exists_ fs (Path.join (disk_dir E s) backing) = true
      /\ exists fs2 rest,
          discard_overlay E fs s idx disk_name backing
          = mkRun fs2 s' (EvSave (config_file E s') (config_text s') :: rest) false
          /\ ((rest = [] /\ fs2 = save E fs s')
              \/ (rest = [EvRemove disk_path]
                  /\ Os.remove (save E fs s') disk_path = Some fs2))).
Proof.
  intros Hidx s' disk_path. unfold discard_overlay.
  destruct (Os.exists_ _ _) eqn:Hex; [|left; reflexivity].
  cbn [negb]. rewrite (list_assign_Some _ _ _ _ Hidx). fold s' disk_path.
  right. split; [reflexivity|].
  destruct (Os.remove _ _) as [fs2|] eqn:Hrm; eauto 10.
Qed.

End BackingChain.


(** ** Importing resources *)

Section ImportResource.

Context (E : Env).

Implicit Types (fs : Fs) (s : Session).

Lemma copy2_destination_exists fs src dst fs1 :
  copy2 fs src dst = Some fs1 -> Os.exists_ fs1 dst = true.
Proof.
  unfold copy2. destruct (fs !! src) as [[|content]|]; try discriminate.
  destruct (Os.isdir fs dst) eqn:Hdir.
  - destruct (_ || _); [discriminate|]. intros [= <-].
    apply exists_insert. unfold Os.isdir in Hdir. unfold Os.exists_.
    destruct (fs !! dst); [reflexivity|discriminate].
  - destruct (_ || _); [discriminate|]. intros [= <-].
    apply exists_insert_eq.
Qed.

(** The three ways [import_resource] can end. *)
Lemma import_resource_cases fs path target typed_confirm :
  let src := expand_path E path in
  let filename := Path.basename src in
  let dest := Path.join target filename in
  import_resource E fs path target typed_confirm = (fs, [], None)
  \/ (Os.exists_ fs dest = true /\ confirmed typed_confirm = false
      /\ import_resource E fs path target typed_confirm = (fs, [], Some filename))
  \/ (exists fs1,
        copy2 fs src dest = Some fs1
        /\ import_resource E fs path target typed_confirm
           = (fs1, [EvCopy src dest], Some filename)).
Proof.
  intros src filename dest. unfold import_resource.
  destruct (String.eqb path EmptyString); [left; reflexivity|].
  fold src. destruct (Os.exists_ fs src); [|left; reflexivity].
  cbn [negb]. fold filename. fold dest.
  destruct (Os.exists_ fs dest) eqn:Hd, (confirmed typed_confirm) eqn:Hc;
    cbn [andb negb]; try (right; left; repeat split; reflexivity);
    (destruct (copy2 fs src dest) as [fs1|] eqn:Hcp;
     [right; right; eauto | left; reflexivity]).
Qed.

Lemma events_without_save (r : Run) :
  run_events r = [] \/ (exists a b, run_events r = [EvCopy a b]) ->
  never_saves r.
Proof.
  intros [H|(a & b & H)] p t Hin; rewrite H in Hin.
  - by apply elem_of_nil in Hin.
  - apply elem_of_cons in Hin as [Hin|Hin]; [discriminate|].
    by apply elem_of_nil in Hin.
Qed.

Lemma manage_disk_import_run fs s typed_path typed_confirm :
  let r := manage_disk_import E fs s typed_path typed_confirm in
  let src := expand_path E (get_input typed_path EmptyString) in
  let n := Path.basename src in
  let dest := Path.join (disk_dir E s) n in
  let s' := with_disks s (disks s ++ [n]) in
  let saved := EvSave (config_file E s') (config_text s') in
  (run_session r = s /\ never_saves r)
  \/ (n <> EmptyString
      /\ run_session r = s'
      /\ Os.exists_ (run_fs r) dest = true
      /\ ((exists fs1, copy2 fs src dest = Some fs1
                       /\ run_events r = [EvCopy src dest; saved])
          \/ (Os.exists_ fs dest = true /\ confirmed typed_confirm = false
              /\ run_events r = [saved]))).
Proof.
  intros r src n dest s' saved. subst r. unfold manage_disk_import.
  pose proof (import_resource_cases fs (get_input typed_path EmptyString)
                (disk_dir E s) typed_confirm) as Hcases.
  cbv zeta in Hcases. fold src in Hcases. fold n in Hcases. fold dest in Hcases.
  destruct Hcases as [Hr|[(Hd & Hc & Hr)|(fs1 & Hcp & Hr)]]; rewrite Hr;
    cbn [truthy].
  - left. split; [reflexivity|apply events_without_save; left; reflexivity].
  - destruct (String.eqb_spec n EmptyString) as [Hn|Hn].
    + left. split; [reflexivity|apply events_without_save; left; reflexivity].
    + right. split; [exact Hn|]. cbn [run_session run_fs run_events app].
      split; [reflexivity|]. split; [apply exists_save; exact Hd|].
      right. auto.
  - destruct (String.eqb_spec n EmptyString) as [Hn|Hn].
    + left. split; [reflexivity|apply events_without_save; right; eauto].
    + right. split; [exact Hn|]. cbn [run_session run_fs run_events app].
      split; [reflexivity|].
      split; [apply exists_save; eapply copy2_destination_exists; exact Hcp|].
      left. eauto.
Qed.

Lemma manage_cdrom_import_run fs s typed_path typed_confirm :
  let r := manage_cdrom_import E fs s typed_path typed_confirm in
  let src := expand_path E (get_input typed_path EmptyString) in
  let n := Path.basename src in
  let dest := Path.join (iso_dir E s) n in
  let s' := with_isos s (isos s ++ [n]) in
  let saved := EvSave (config_file E s') (config_text s') in
  (run_session r = s /\ never_saves r)
  \/ (n <> EmptyString
      /\ run_session r = s'
      /\ Os.exists_ (run_fs r) dest = true
      /\ ((exists fs1, copy2 fs src dest = Some fs1
                       /\ run_events r = [EvCopy src dest; saved])
          \/ (Os.exists_ fs dest = true /\ confirmed typed_confirm = false
              /\ run_events r = [saved]))).
Proof.
  intros r src n dest s' saved. subst r. unfold manage_cdrom_import.
  pose proof (import_resource_cases fs (get_input typed_path EmptyString)
                (iso_dir E s) typed_confirm) as Hcases.
  cbv zeta in Hcases. fold src in Hcases. fold n in Hcases. fold dest in Hcases.
  destruct Hcases as [Hr|[(Hd & Hc & Hr)|(fs1 & Hcp & Hr)]]; rewrite Hr;
    cbn [truthy].
  - left. split; [reflexivity|apply events_without_save; left; reflexivity].
  - destruct (String.eqb_spec n EmptyString) as [Hn|Hn].
    + left. split; [reflexivity|apply events_without_save; left; reflexivity].
    + right. split; [exact Hn|]. cbn [run_session run_fs run_events app].
      split; [reflexivity|]. split; [apply exists_save; exact Hd|].
      right. auto.
  - destruct (String.eqb_spec n EmptyString) as [Hn|Hn].
    + left. split; [reflexivity|apply events_without_save; right; eauto].
    + right. split; [exact Hn|]. cbn [run_session run_fs run_events app].
      split; [reflexivity|].
      split; [apply exists_save; eapply copy2_destination_exists; exact Hcp|].
      left. eauto.
Qed.

Lemma failed_copy_imports_nothing fs path target typed_confirm :
  let src := expand_path E path in
  let dest := Path.join target (Path.basename src) in
  copy2 fs src dest = None ->
  Os.exists_ fs dest && negb (confirmed typed_confirm) = false ->
  import_resource E fs path target typed_confirm = (fs, [], None).
Proof.
  intros src dest Hcp Hskip.
  destruct (import_resource_cases fs path target typed_confirm)
    as [Hr|[(Hd & Hc & Hr)|(fs1 & Hcp' & Hr)]]; [exact Hr| |].
  - fold src in Hd. fold dest in Hd. rewrite Hd, Hc in Hskip. discriminate.
  - fold src in Hcp'. fold dest in Hcp'. congruence.
Qed.

(** C6 as amended.  An import (disk or ISO) adds the file's name to the
    resource list only when a file of that name is in the resource
    directory, and then saves: either the copy has just succeeded, or no
    copy was made because a file of that name was already there and the
    operator declined to overwrite it.  In every other case the session is
    the one from before and the config file is not written; in
    particular a failed copy, an empty source path and a source path that
    does not exist leave file system and session as they were, whatever
    is in the resource directory and whatever the operator answers. *)
Theorem import_adds_only_stored_names fs s typed_path typed_confirm :
  let src := expand_path E (get_input typed_path EmptyString) in
  let n := Path.basename src in
  let rd := manage_disk_import E fs s typed_path typed_confirm in
  let rc := manage_cdrom_import E fs s typed_path typed_confirm in
  let sd := with_disks s (disks s ++ [n]) in
  let sc := with_isos s (isos s ++ [n]) in
  ((run_session rd = s /\ never_saves rd)
   \/ (n <> EmptyString /\ run_session rd = sd
       /\ Os.exists_ (run_fs rd) (Path.join (disk_dir E s) n) = true
       /\ ((exists fs1,
              copy2 fs src (Path.join (disk_dir E s) n) = Some fs1
              /\ run_events rd = [EvCopy src (Path.join (disk_dir E s) n);
                                  EvSave (config_file E sd) (config_text sd)])
           \/ (Os.exists_ fs (Path.join (disk_dir E s) n) = true
               /\ confirmed typed_confirm = false
               /\ run_events rd = [EvSave (config_file E sd) (config_text sd)]))))
  /\ ((run_session rc = s /\ never_saves rc)
      \/ (n <> EmptyString /\ run_session rc = sc
          /\ Os.exists_ (run_fs rc) (Path.join (iso_dir E s) n) = true
          /\ ((exists fs1,
                 copy2 fs src (Path.join (iso_dir E s) n) = Some fs1
                 /\ run_events rc = [EvCopy src (Path.join (iso_dir E s) n);
                                     EvSave (config_file E sc) (config_text sc)])
              \/ (Os.exists_ fs (Path.join (iso_dir E s) n) = true
                  /\ confirmed typed_confirm = false
                  /\ run_events rc = [EvSave (config_file E sc) (config_text sc)]))))
  /\ (copy2 fs src (Path.join (disk_dir E s) n) = None ->
      Os.exists_ fs (Path.join (disk_dir E s) n) && negb (confirmed typed_confirm) = false ->
      rd = mkRun fs s [] false)
  /\ (copy2 fs src (Path.join (iso_dir E s) n) = None ->
      Os.exists_ fs (Path.join (iso_dir E s) n) && negb (confirmed typed_confirm) = false ->
      rc = mkRun fs s [] false)
  /\ (get_input typed_path EmptyString = EmptyString
      \/ Os.exists_ fs src = false ->
      rd = mkRun fs s [] false /\ rc = mkRun fs s [] false).
Proof.
  intros src n rd rc sd sc.
  split; [apply manage_disk_import_run|].
  split; [apply manage_cdrom_import_run|].
  split; [|split].
  - intros Hcp Hskip. subst rd. unfold manage_disk_import.
    rewrite (failed_copy_imports_nothing _ _ _ _ Hcp Hskip). reflexivity.
  - intros Hcp Hskip. subst rc. unfold manage_cdrom_import.
    rewrite (failed_copy_imports_nothing _ _ _ _ Hcp Hskip). reflexivity.
  - intros Hsrc. subst rd rc.
    assert (Hnone : forall target,
              import_resource E fs (get_input typed_path EmptyString) target
                              typed_confirm = (fs, [], None)).
    { intros target. unfold import_resource.
      destruct (String.eqb_spec (get_input typed_path EmptyString) EmptyString)
        as [_|Hne]; [reflexivity|].
      destruct Hsrc as [Hsrc|Hsrc]; [contradiction|].
      fold src. rewrite Hsrc. reflexivity. }
    unfold manage_disk_import, manage_cdrom_import. rewrite !Hnone.
    split; reflexivity.
Qed.

End ImportResource.

(** C6 as stated fails when no copy is made.  [data.qcow2] is already in
    the disk directory of [Demo.win]; the operator imports a file of that
    name and answers [N] to the overwrite question.  Nothing is copied,
    yet the name is appended to the disk list and saved. *)
Lemma declined_overwrite_still_appends :
  let r := manage_disk_import Demo.env Demo.media Demo.win
             "/home/op/data.qcow2" "N" in
  (forall src dst, EvCopy src dst ∉ run_events r)
  /\ run_fs r !! "/opt/vm/qemu_save/win/disks/data.qcow2" = Some (File "old")
  /\ disks Demo.win = ["sys.snap.qcow2"]
  /\ disks (run_session r) = ["sys.snap.qcow2"; "data.qcow2"].
Proof.
  cbv zeta. split; [|split; [|split]].
  - intros src dst H. vm_compute in H.
    apply elem_of_cons in H as [H|H]; [discriminate|].
    by apply elem_of_nil in H.
  - vm_compute. reflexivity.
  - reflexivity.
  - vm_compute. reflexivity.
Qed.

(** ** The order and the multiplicity of [DISK_]/[ISO_] lines *)

Section LoadIndex.

Context (E : Env).

Implicit Types (st : Dict.t * gmap Z string * gmap Z string).

Lemma load_line_act st line : load_line st line = act (line_action line) st.
Proof.
  destruct st as [[cfg dm] im]. unfold load_line, line_action.
  destruct (Py.contains _ _); [|reflexivity].
  destruct (Py.split1 _ _) as [[key val]|]; [|reflexivity].
  cbv zeta. unfold key_action. fold (unquote val).
  destruct (Py.startswith key "DISK_").
  { destruct (_ ≫= _); reflexivity. }
  destruct (Py.startswith key "ISO_"); [|reflexivity].
  destruct (_ ≫= _); reflexivity.
Qed.

Lemma fold_load_line_app st (l1 l2 : list string) :
  fold_left load_line (l1 ++ l2) st
  = fold_left load_line l2 (fold_left load_line l1 st).
Proof. apply fold_left_app. Qed.

Lemma act_same_but_disk i a st st' :
  same_but_disk i st st' -> same_but_disk i (act a st) (act a st').
Proof.
  destruct st as [[cfg dm] im], st' as [[cfg' dm'] im'].
  intros (Hc & Hi & Hd). cbn [fst snd] in Hc, Hi, Hd. subst cfg' im'.
  destruct a; unfold same_but_disk, act; cbn [fst snd]; repeat split; auto.
  intros j Hj. destruct (decide (i0 = j)) as [->|Hne].
  - rewrite !lookup_insert_eq. reflexivity.
  - rewrite !lookup_insert_ne by exact Hne. auto.
Qed.

Lemma act_same_but_iso i a st st' :
  same_but_iso i st st' -> same_but_iso i (act a st) (act a st').
Proof.
  destruct st as [[cfg dm] im], st' as [[cfg' dm'] im'].
  intros (Hc & Hd & Hi). cbn [fst snd] in Hc, Hi, Hd. subst cfg' dm'.
  destruct a; unfold same_but_iso, act; cbn [fst snd]; repeat split; auto.
  intros j Hj. destruct (decide (i0 = j)) as [->|Hne].
  - rewrite !lookup_insert_eq. reflexivity.
  - rewrite !lookup_insert_ne by exact Hne. auto.
Qed.

Lemma fold_same_but_disk i (lines : list string) st st' :
  same_but_disk i st st' ->
  same_but_disk i (fold_left load_line lines st) (fold_left load_line lines st').
Proof.
  revert st st'. induction lines as [|l lines IH]; intros st st' H; [exact H|].
  cbn [fold_left]. apply IH. rewrite !load_line_act.
  apply act_same_but_disk, H.
Qed.

Lemma fold_same_but_iso i (lines : list string) st st' :
  same_but_iso i st st' ->
  same_but_iso i (fold_left load_line lines st) (fold_left load_line lines st').
Proof.
  revert st st'. induction lines as [|l lines IH]; intros st st' H; [exact H|].
  cbn [fold_left]. apply IH. rewrite !load_line_act.
  apply act_same_but_iso, H.
Qed.

Lemma overwritten_disk_line st l1 (mid : list string) l2 post i v1 v2 :
  sets_disk l1 i v1 -> sets_disk l2 i v2 ->
  fold_left load_line (l1 :: mid ++ l2 :: post) st
  = fold_left load_line (mid ++ l2 :: post) st.
Proof.
  intros H1 H2. cbn [fold_left]. rewrite !fold_load_line_app.
  cbn [fold_left]. f_equal.
  assert (Hs : same_but_disk i (load_line st l1) st).
  { destruct st as [[cfg dm] im]. rewrite H1. repeat split.
    intros j Hj. cbn [fst snd]. apply lookup_insert_ne. congruence. }
  apply (fold_same_but_disk i mid) in Hs.
  destruct (fold_left load_line mid (load_line st l1)) as [[cfg dm] im].
  destruct (fold_left load_line mid st) as [[cfg' dm'] im'].
  destruct Hs as (Hc & Hi & Hd). cbn [fst snd] in Hc, Hi, Hd. subst cfg' im'.
  rewrite !H2. f_equal. f_equal. apply map_eq. intros j.
  destruct (decide (i = j)) as [->|Hne].
  - rewrite !lookup_insert_eq. reflexivity.
  - rewrite !lookup_insert_ne by exact Hne. apply Hd. congruence.
Qed.

Lemma overwritten_iso_line st l1 (mid : list string) l2 post i v1 v2 :
  sets_iso l1 i v1 -> sets_iso l2 i v2 ->
  fold_left load_line (l1 :: mid ++ l2 :: post) st
  = fold_left load_line (mid ++ l2 :: post) st.
Proof.
  intros H1 H2. cbn [fold_left]. rewrite !fold_load_line_app.
  cbn [fold_left]. f_equal.
  assert (Hs : same_but_iso i (load_line st l1) st).
  { destruct st as [[cfg dm] im]. rewrite H1. repeat split.
    intros j Hj. cbn [fst snd]. apply lookup_insert_ne. congruence. }
  apply (fold_same_but_iso i mid) in Hs.
  destruct (fold_left load_line mid (load_line st l1)) as [[cfg dm] im].
  destruct (fold_left load_line mid st) as [[cfg' dm'] im'].
  destruct Hs as (Hc & Hd & Hi). cbn [fst snd] in Hc, Hi, Hd. subst cfg' dm'.
  rewrite !H2. f_equal. apply map_eq. intros j.
  destruct (decide (i = j)) as [->|Hne].
  - rewrite !lookup_insert_eq. reflexivity.
  - rewrite !lookup_insert_ne by exact Hne. apply Hi. congruence.
Qed.

Lemma kept_disk_lines (post : list string) st i :
  Forall (fun l => keeps_disk l i) post ->
  (fold_left load_line post st).1.2 !! i = st.1.2 !! i.
Proof.
  revert st. induction post as [|l post IH]; intros st H; [reflexivity|].
  apply Forall_cons in H as [Hl Hpost]. cbn [fold_left].
  rewrite IH by exact Hpost. destruct st as [[cfg dm] im]. apply Hl.
Qed.

Lemma kept_iso_lines (post : list string) st i :
  Forall (fun l => keeps_iso l i) post ->
  (fold_left load_line post st).2 !! i = st.2 !! i.
Proof.
  revert st. induction post as [|l post IH]; intros st H; [reflexivity|].
  apply Forall_cons in H as [Hl Hpost]. cbn [fold_left].
  rewrite IH by exact Hpost. destruct st as [[cfg dm] im]. apply Hl.
Qed.

Lemma last_disk_line_value pre l1 (mid : list string) l2 post i v2 :
  sets_disk l2 i v2 ->
  Forall (fun l => keeps_disk l i) post ->
  (load_lines (pre ++ l1 :: mid ++ l2 :: post)).1.2 !! i = Some v2.
Proof.
  intros H2 Hpost. unfold load_lines.
  rewrite fold_load_line_app. cbn [fold_left].
  rewrite fold_load_line_app. cbn [fold_left].
  rewrite kept_disk_lines by exact Hpost.
  destruct (fold_left load_line mid _) as [[cfg dm] im].
  rewrite H2. cbn [fst snd]. apply lookup_insert_eq.
Qed.

Lemma last_iso_line_value pre l1 (mid : list string) l2 post i v2 :
  sets_iso l2 i v2 ->
  Forall (fun l => keeps_iso l i) post ->
  (load_lines (pre ++ l1 :: mid ++ l2 :: post)).2 !! i = Some v2.
Proof.
  intros H2 Hpost. unfold load_lines.
  rewrite fold_load_line_app. cbn [fold_left].
  rewrite fold_load_line_app. cbn [fold_left].
  rewrite kept_iso_lines by exact Hpost.
  destruct (fold_left load_line mid _) as [[cfg dm] im].
  rewrite H2. cbn [fst snd]. apply lookup_insert_eq.
Qed.

Lemma value_at_index (m : gmap Z string) i v :
  m !! i = Some v ->
  exists k, sorted_keys m !! k = Some i /\ values_by_index m !! k = Some v.
Proof.
  intros Hv.
  assert (Hin : i ∈ sorted_keys m) by (apply sorted_keys_elem; eauto).
  apply list_elem_of_lookup in Hin as [k Hk]. exists k. split; [exact Hk|].
  destruct (Forall2_lookup_l _ _ _ _ _ (values_by_index_spec m) Hk)
    as (w & Hw & Hiw).
  congruence.
Qed.

(** C7. [load] lists the disks by increasing numeric index of their
    [DISK_] keys, whatever the order of the lines: the indices in the
    final [disk_map], sorted strictly increasing, pair off with the disk
    list entry by entry; and a file with the line for [DISK_1] before
    the line for [DISK_0] gives the disk of index 0 first. *)
Theorem load_orders_disks_by_index :
  (forall fs s text,
      let loaded := fst (load E (<[config_file E s := File text]> fs) s) in
      let disk_map := (load_lines (Py.readlines text)).1.2 in
      StronglySorted Z.lt (sorted_keys disk_map)
      /\ (forall i, i ∈ sorted_keys disk_map <-> is_Some (disk_map !! i))
      /\ Forall2 (fun i v => disk_map !! i = Some v)
                 (sorted_keys disk_map) (disks loaded))
  /\ (forall fs s,
        disks (fst (load E (<[config_file E s :=
                               File (assignment "DISK_1" "b.qcow2"
                                       +:+ assignment "DISK_0" "a.qcow2")]> fs) s))
        = ["a.qcow2"; "b.qcow2"]).
Proof.
  split.
  - intros fs s text loaded disk_map. subst loaded.
    rewrite (load_of_file E _ s text) by apply lookup_insert_eq.
    cbn [fst disks]. fold disk_map.
    split; [apply sorted_keys_increasing|].
    split; [apply sorted_keys_elem|apply values_by_index_spec].
  - intros fs s.
    rewrite (load_of_file E _ s _) by apply lookup_insert_eq.
    cbn [fst disks]. vm_compute. reflexivity.
Qed.

End LoadIndex.

(** ** Facts about the string primitives *)

Section Strings.

Implicit Types (a b s t : string) (c : ascii) (p : ascii -> bool).

Lemma app_nil_l s : EmptyString +:+ s = s.
Proof. reflexivity. Qed.

Lemma app_cons c a b : String c a +:+ b = String c (a +:+ b).
Proof. reflexivity. Qed.

Lemma app_assoc a b s : (a +:+ b) +:+ s = a +:+ (b +:+ s).
Proof.
  induction a as [|c a IH]; [reflexivity|].
  rewrite !app_cons, IH. reflexivity.
Qed.

Lemma contains_app c a b :
  Py.contains c (a +:+ b) = Py.contains c a || Py.contains c b.
Proof.
  induction a as [|d a IH]; [reflexivity|].
  rewrite app_cons. cbn [Py.contains]. rewrite IH, orb_assoc. reflexivity.
Qed.

Lemma one_line_app a b : one_line (a +:+ b) = one_line a && one_line b.
Proof.
  unfold one_line. rewrite !contains_app.
  destruct (Py.contains Py.LF a), (Py.contains Py.LF b),
    (Py.contains Py.CR a), (Py.contains Py.CR b); reflexivity.
Qed.

Lemma readlines_one_line body rest :
  one_line body = true ->
  Py.readlines (body +:+ String Py.LF rest)
  = (body +:+ Py.chr Py.LF) :: Py.readlines rest.
Proof.
  induction body as [|c body IH]; intros H; [reflexivity|].
  unfold one_line in H. cbn [Py.contains] in H.
  rewrite !negb_orb in H.
  apply andb_prop in H as [H1 H2].
  apply andb_prop in H1 as [Hlf H1]. apply andb_prop in H2 as [Hcr H2].
  rewrite !app_cons. cbn [Py.readlines].
  rewrite Ascii.eqb_sym in Hlf. rewrite Ascii.eqb_sym in Hcr.
  apply negb_true_iff in Hlf, Hcr. rewrite Hlf, Hcr.
  rewrite IH by (unfold one_line; rewrite H1, H2; reflexivity).
  reflexivity.
Qed.

Lemma lstrip_by_start p s :
  starts_by p s = false -> Py.lstrip_by p s = s.
Proof. destruct s as [|c s]; [reflexivity|]. cbn. intros ->. reflexivity. Qed.

Lemma rstrip_by_end p s :
  ends_by p s = false -> Py.rstrip_by p s = s.
Proof.
  induction s as [|c s IH]; [reflexivity|].
  destruct s as [|d s].
  - cbn. intros ->. reflexivity.
  - intros H. change (ends_by p (String c (String d s)))
      with (ends_by p (String d s)) in H.
    change (Py.rstrip_by p (String c (String d s)))
      with (match Py.rstrip_by p (String d s) with
            | EmptyString => if p c then EmptyString else Py.chr c
            | r' => String c r'
            end).
    rewrite IH by exact H. reflexivity.
Qed.

Lemma rstrip_by_snoc p s c :
  p c = true -> Py.rstrip_by p (s +:+ Py.chr c) = Py.rstrip_by p s.
Proof.
  intros Hc. induction s as [|d s IH].
  - rewrite app_nil_l. unfold Py.chr. cbn [Py.rstrip_by]. rewrite Hc.
    reflexivity.
  - rewrite app_cons. cbn [Py.rstrip_by]. rewrite IH. reflexivity.
Qed.

(** Stripping stops at the first character that is to stay. *)
Lemma rstrip_by_stop p s c t :
  p c = false -> Py.rstrip_by p t = EmptyString ->
  Py.rstrip_by p (s +:+ String c t) = s +:+ Py.chr c.
Proof.
  intros Hc Ht. induction s as [|d s IH].
  - rewrite !app_nil_l. cbn [Py.rstrip_by]. rewrite Ht, Hc. reflexivity.
  - rewrite !app_cons. cbn [Py.rstrip_by]. rewrite IH.
    destruct s; reflexivity.
Qed.

Lemma split1_app c k rest :
  Py.contains c k = false ->
  Py.split1 c (k +:+ String c rest) = Some (k, rest).
Proof.
  induction k as [|d k IH]; intros H.
  - rewrite app_nil_l. cbn. rewrite Ascii.eqb_refl. reflexivity.
  - cbn [Py.contains] in H. apply orb_false_elim in H as [Hd Hk].
    rewrite app_cons. cbn [Py.split1]. rewrite Hd, IH by exact Hk.
    reflexivity.
Qed.

Lemma split1_cons c d s :
  Ascii.eqb c d = false ->
  Py.split1 c (String d s)
  = match Py.split1 c s with
    | Some (k, v) => Some (String d k, v)
    | None => None
    end.
Proof. intros H. cbn [Py.split1]. rewrite H. reflexivity. Qed.

(** A value written between two quote characters comes back when it
    begins and ends with neither kind of quote. *)
Lemma strip_chr_quoted q v :
  starts_by (Ascii.eqb q) v = false -> ends_by (Ascii.eqb q) v = false ->
  Py.strip_chr q (Py.chr q +:+ v +:+ Py.chr q) = v.
Proof.
  intros Hs He. unfold Py.strip_chr, Py.strip_by.
  change (Py.chr q +:+ v +:+ Py.chr q) with (String q (v +:+ Py.chr q)).
  cbn [Py.rstrip_by].
  rewrite rstrip_by_snoc by apply Ascii.eqb_refl.
  rewrite rstrip_by_end by exact He.
  destruct v as [|c v].
  - rewrite Ascii.eqb_refl. reflexivity.
  - cbn [Py.lstrip_by]. rewrite Ascii.eqb_refl.
    cbn [starts_by] in Hs. rewrite Hs. reflexivity.
Qed.

Lemma str_of_nat_one_line n : one_line (Py.str_of_nat n) = true.
Proof.
  unfold Py.str_of_nat. generalize (Nat.to_uint n). intros u.
  induction u; [reflexivity|..];
    cbn [NilEmpty.string_of_uint]; unfold one_line in *;
    cbn [Py.contains]; exact IHu.
Qed.

End Strings.

(** ** Saving, then loading *)

Section RoundTrip.

Context (E : Env).

Implicit Types (st : Dict.t * gmap Z string * gmap Z string).

Lemma assignment_shape k v :
  assignment k v
  = (k +:+ "=" +:+ Py.chr Py.dquote +:+ v) +:+ String Py.dquote (Py.chr Py.LF).
Proof. unfold assignment. rewrite !app_assoc. reflexivity. Qed.

Lemma strip_assignment k v :
  starts_by Py.isspace k = false ->
  Py.strip (assignment k v)
  = k +:+ String "=" (Py.chr Py.dquote +:+ v +:+ Py.chr Py.dquote).
Proof.
  intros Hk. unfold Py.strip, Py.strip_by. rewrite assignment_shape.
  rewrite rstrip_by_stop by reflexivity.
  rewrite !app_assoc.
  change ("=" +:+ Py.chr Py.dquote +:+ v +:+ Py.chr Py.dquote)
    with (String "=" (Py.chr Py.dquote +:+ v +:+ Py.chr Py.dquote)).
  apply lstrip_by_start.
  destruct k as [|c k]; [reflexivity|exact Hk].
Qed.

Lemma assignment_has_equals k v : Py.contains "=" (assignment k v) = true.
Proof.
  unfold assignment. rewrite contains_app.
  change ("=" +:+ ?r) with (String "=" r).
  cbn [Py.contains]. rewrite orb_true_r. reflexivity.
Qed.

Lemma key_ok_parts k :
  key_ok k = true ->
  one_line k = true /\ Py.contains "=" k = false
  /\ starts_by Py.isspace k = false.
Proof.
  unfold key_ok. intros H.
  apply andb_prop in H as [H H3]. apply andb_prop in H as [H1 H2].
  apply negb_true_iff in H2. repeat split; [exact H1|exact H2|].
  destruct k; [reflexivity|]. apply negb_true_iff in H3. exact H3.
Qed.

(** What [load] makes of a line that [save] wrote for a good key. *)
Lemma line_action_assignment k v :
  key_ok k = true ->
  line_action (assignment k v)
  = key_action k (unquote (Py.chr Py.dquote +:+ v +:+ Py.chr Py.dquote)).
Proof.
  intros H. apply key_ok_parts in H as (_ & Heq & Hsp).
  unfold line_action. rewrite assignment_has_equals.
  rewrite strip_assignment by exact Hsp.
  rewrite split1_app by exact Heq. reflexivity.
Qed.

Lemma unquote_plain v :
  plain_value v = true ->
  unquote (Py.chr Py.dquote +:+ v +:+ Py.chr Py.dquote) = v.
Proof.
  unfold plain_value, unquote. intros H.
  apply andb_prop in H as [Hs He]. apply negb_true_iff in Hs, He.
  assert (Hs2 : forall q, is_quote q = true -> starts_by (Ascii.eqb q) v = false).
  { intros q Hq. destruct v as [|c v]; [reflexivity|]. cbn in Hs |- *.
    destruct (Ascii.eqb_spec q c) as [->|]; [congruence|reflexivity]. }
  assert (He2 : forall q, is_quote q = true -> ends_by (Ascii.eqb q) v = false).
  { intros q Hq. clear Hs Hs2. induction v as [|c v IH]; [reflexivity|].
    destruct v as [|d v].
    - cbn in He |- *.
      destruct (Ascii.eqb_spec q c) as [->|]; [congruence|reflexivity].
    - apply IH. exact He. }
  rewrite strip_chr_quoted by (first [apply Hs2|apply He2]; reflexivity).
  unfold Py.strip_chr, Py.strip_by.
  rewrite rstrip_by_end by (apply He2; reflexivity).
  apply lstrip_by_start. apply Hs2. reflexivity.
Qed.

Lemma get_set_eq (d : Dict.t) k v : Dict.get (Dict.set d k v) k = Some v.
Proof.
  induction d as [|[k' v'] d IH]; cbn.
  - rewrite String.eqb_refl. reflexivity.
  - destruct (String.eqb_spec k' k) as [->|Hne]; cbn.
    + rewrite String.eqb_refl. reflexivity.
    + apply String.eqb_neq in Hne. rewrite Hne. exact IH.
Qed.

Lemma get_set_ne (d : Dict.t) k k' v :
  k' <> k -> Dict.get (Dict.set d k' v) k = Dict.get d k.
Proof.
  intros Hne. induction d as [|[k2 v2] d IH]; cbn.
  - apply String.eqb_neq in Hne. rewrite Hne. reflexivity.
  - destruct (String.eqb_spec k2 k') as [->|Hne2]; cbn.
    + apply String.eqb_neq in Hne. rewrite Hne. reflexivity.
    + destruct (String.eqb k2 k); [reflexivity|exact IH].
Qed.

Lemma get_elem (d : Dict.t) k v : Dict.get d k = Some v -> (k, v) ∈ d.
Proof.
  induction d as [|[k' v'] d IH]; cbn; [discriminate|].
  destruct (String.eqb_spec k' k) as [->|Hne].
  - intros [= ->]. left.
  - intros H. right. apply IH, H.
Qed.

Lemma key_action_other k k' val st :
  k' <> k ->
  Dict.get (act (key_action k' val) st).1.1 k = Dict.get st.1.1 k.
Proof.
  intros Hne. destruct st as [[cfg dm] im]. unfold key_action.
  destruct (Py.startswith k' "DISK_"); [destruct (_ ≫= _); reflexivity|].
  destruct (Py.startswith k' "ISO_"); [destruct (_ ≫= _); reflexivity|].
  cbn [act fst snd]. apply get_set_ne, Hne.
Qed.

Lemma key_action_same k val st :
  Py.startswith k "DISK_" = false -> Py.startswith k "ISO_" = false ->
  Dict.get (act (key_action k val) st).1.1 k = Some val.
Proof.
  intros H1 H2. destruct st as [[cfg dm] im]. unfold key_action.
  rewrite H1, H2. cbn [act fst snd]. apply get_set_eq.
Qed.

(** A line whose key starts with [DISK_] or [ISO_] never reaches the
    scalar config, whatever follows the prefix. *)
Lemma prefixed_key_keeps_config key val st :
  Py.startswith key "DISK_" || Py.startswith key "ISO_" = true ->
  (act (key_action key val) st).1.1 = st.1.1.
Proof.
  intros H. destruct st as [[cfg dm] im]. unfold key_action.
  destruct (Py.startswith key "DISK_"); [destruct (_ ≫= _); reflexivity|].
  cbn [orb] in H. rewrite H. destruct (_ ≫= _); reflexivity.
Qed.

Lemma disk_line_keeps_config x d st :
  (load_line st (assignment ("DISK_" +:+ x) d)).1.1 = st.1.1.
Proof.
  rewrite load_line_act. unfold line_action.
  rewrite assignment_has_equals, strip_assignment by reflexivity.
  rewrite app_assoc.
  change ("DISK_" +:+ ?r)
    with (String "D" (String "I" (String "S" (String "K" (String "_" r))))).
  rewrite !split1_cons by reflexivity.
  destruct (Py.split1 _ _) as [[k v]|]; [|destruct st as [[? ?] ?]; reflexivity].
  apply prefixed_key_keeps_config. destruct k; reflexivity.
Qed.

Lemma iso_line_keeps_config x d st :
  (load_line st (assignment ("ISO_" +:+ x) d)).1.1 = st.1.1.
Proof.
  rewrite load_line_act. unfold line_action.
  rewrite assignment_has_equals, strip_assignment by reflexivity.
  rewrite app_assoc.
  change ("ISO_" +:+ ?r)
    with (String "I" (String "S" (String "O" (String "_" r)))).
  rewrite !split1_cons by reflexivity.
  destruct (Py.split1 _ _) as [[k v]|]; [|destruct st as [[? ?] ?]; reflexivity].
  apply prefixed_key_keeps_config. destruct k; reflexivity.
Qed.

Lemma readlines_written (l : list (string * string)) :
  Forall (fun kv => one_line kv.1 = true /\ one_line kv.2 = true) l ->
  Py.readlines (fold_right String.append EmptyString (map written l))
  = map written l.
Proof.
  induction 1 as [|[k v] l [Hk Hv] _ IH]; [reflexivity|].
  cbn [map fold_right]. unfold written at 1 3. cbn [fst snd].
  unfold assignment. rewrite !app_assoc.
  change (Py.chr Py.LF +:+ ?r) with (String Py.LF r).
  rewrite <- !app_assoc.
  rewrite readlines_one_line.
  - rewrite IH. f_equal; rewrite ?app_assoc; reflexivity.
  - rewrite !one_line_app. cbn [fst snd] in Hk, Hv. rewrite Hk, Hv.
    reflexivity.
Qed.

Lemma Forall_enumerate_from {A} (P : A -> Prop) (l : list A) i :
  Forall P l -> Forall (fun e => P e.2) (enumerate_from i l).
Proof.
  intros H. revert i. induction H as [|x l Hx _ IH]; intros i; constructor; auto.
Qed.

Lemma fold_other_keys (l : list (string * string)) k st :
  Forall (fun kv => key_ok kv.1 = true) l ->
  k ∉ l.*1 ->
  Dict.get (fold_left load_line (map written l) st).1.1 k = Dict.get st.1.1 k.
Proof.
  intros Hok. revert st. induction Hok as [|[k' v'] l Hk' _ IH]; intros st Hnot;
    [reflexivity|].
  cbn [map fold_left]. rewrite IH.
  - unfold written. cbn [fst snd] in *.
    rewrite load_line_act, line_action_assignment by exact Hk'.
    apply key_action_other. intros ->. apply Hnot. left.
  - intros Hin. apply Hnot. right. exact Hin.
Qed.

Lemma fold_sets_key (l : list (string * string)) k v st :
  NoDup l.*1 ->
  Forall (fun kv => key_ok kv.1 = true) l ->
  (k, v) ∈ l ->
  plain_value v = true ->
  Py.startswith k "DISK_" = false -> Py.startswith k "ISO_" = false ->
  Dict.get (fold_left load_line (map written l) st).1.1 k = Some v.
Proof.
  intros Hnd Hok Hin Hv Hd Hi. revert st.
  induction l as [|[k' v'] l IH]; intros st; [by apply elem_of_nil in Hin|].
  cbn [fmap list_fmap fst] in Hnd. apply NoDup_cons in Hnd as [Hfresh Hnd].
  apply Forall_cons in Hok as [Hk' Hok]. cbn [fst] in Hk'.
  cbn [map fold_left].
  apply elem_of_cons in Hin as [[= <- <-]|Hin].
  - rewrite fold_other_keys by assumption.
    unfold written. cbn [fst snd].
    rewrite load_line_act, line_action_assignment by exact Hk'.
    rewrite unquote_plain by exact Hv. apply key_action_same; assumption.
  - apply IH; assumption.
Qed.

Lemma fold_prefixed_lines (l : list (nat * string)) st :
  (fold_left load_line
     (map (fun e => assignment ("DISK_" +:+ Py.str_of_nat e.1) e.2) l) st).1.1
  = st.1.1
  /\ (fold_left load_line
        (map (fun e => assignment ("ISO_" +:+ Py.str_of_nat e.1) e.2) l) st).1.1
     = st.1.1.
Proof.
  revert st. induction l as [|[i d] l IH]; intros st; [split; reflexivity|].
  cbn [map fold_left fst snd]. split.
  - rewrite (proj1 (IH _)). apply disk_line_keeps_config.
  - rewrite (proj2 (IH _)). apply iso_line_keeps_config.
Qed.

Lemma config_lines_written s :
  config_lines s
  = map written
      (config s
         ++ map (fun e => ("DISK_" +:+ Py.str_of_nat e.1, e.2)) (enumerate (disks s))
         ++ map (fun e => ("ISO_" +:+ Py.str_of_nat e.1, e.2)) (enumerate (isos s))).
Proof.
  unfold config_lines. rewrite !map_app, !map_map. reflexivity.
Qed.

Lemma readlines_config_text s :
  storable s -> Py.readlines (config_text s) = config_lines s.
Proof.
  intros (_ & Hcfg & Hnames). apply Forall_app in Hnames as [Hd Hi].
  unfold config_text. rewrite config_lines_written.
  apply readlines_written. repeat apply Forall_app_2.
  - eapply Forall_impl; [exact Hcfg|].
    intros [k v] [Hk Hv]. apply key_ok_parts in Hk as (Hk & _). auto.
  - apply Forall_map. unfold enumerate.
    eapply Forall_impl; [apply Forall_enumerate_from, Hd|].
    intros [i d] H. cbn [fst snd] in *. split; [|exact H].
    rewrite one_line_app, str_of_nat_one_line. reflexivity.
  - apply Forall_map. unfold enumerate.
    eapply Forall_impl; [apply Forall_enumerate_from, Hi|].
    intros [i d] H. cbn [fst snd] in *. split; [|exact H].
    rewrite one_line_app, str_of_nat_one_line. reflexivity.
Qed.

(** Every plain value of a storable session is read back under its key,
    unless the key looks like a disk or ISO entry. *)
Lemma save_load_entry fs s s0 k v :
  storable s ->
  name s0 = name s ->
  Dict.get (config s) k = Some v ->
  plain_value v = true ->
  Py.startswith k "DISK_" = false -> Py.startswith k "ISO_" = false ->
  snd (load E (save E fs s) s0) = true
  /\ Dict.get (config (fst (load E (save E fs s) s0))) k = Some v.
Proof.
  intros Hst Hname Hget Hv Hd Hi.
  assert (Hfile : save E fs s !! config_file E s0 = Some (File (config_text s))).
  { unfold config_file, dir. rewrite Hname. apply save_config_file. }
  rewrite (load_of_file E _ s0 _ Hfile). split; [reflexivity|].
  cbn [fst config]. rewrite readlines_config_text by exact Hst.
  unfold load_lines, config_lines. rewrite !fold_left_app.
  rewrite (proj2 (fold_prefixed_lines _ _)), (proj1 (fold_prefixed_lines _ _)).
  destruct Hst as (Hnd & Hcfg & _).
  apply fold_sets_key; try assumption.
  - eapply Forall_impl; [exact Hcfg|]. intros kv [H _]. exact H.
  - apply get_elem, Hget.
Qed.

(** C2 as amended.  For a storable session (distinct keys without [=],
    line break or leading white space; no line break in any value, disk
    or ISO name) whose config maps [CPU_CORES] to [c] and [MEM_SIZE] to
    [m], where [c] and [m] neither begin nor end with a single or double
    quote, saving and then loading succeeds and yields a config that
    maps [CPU_CORES] to [c] and [MEM_SIZE] to [m] again. *)
Theorem save_then_load_keeps_cpu_and_memory fs s s0 c m :
  storable s ->
  name s0 = name s ->
  Dict.get (config s) "CPU_CORES" = Some c ->
  Dict.get (config s) "MEM_SIZE" = Some m ->
  plain_value c = true ->
  plain_value m = true ->
  let loaded := load E (save E fs s) s0 in
  snd loaded = true
  /\ Dict.get (config (fst loaded)) "CPU_CORES" = Some c
  /\ Dict.get (config (fst loaded)) "MEM_SIZE" = Some m.
Proof.
  intros Hst Hname Hc Hm Hpc Hpm loaded. subst loaded.
  destruct (save_load_entry fs s s0 _ _ Hst Hname Hc Hpc eq_refl eq_refl)
    as [Hok Hc'].
  destruct (save_load_entry fs s s0 _ _ Hst Hname Hm Hpm eq_refl eq_refl)
    as [_ Hm'].
  auto.
Qed.

End RoundTrip.

(** ** The properties on the concrete installation *)

(** C2 as stated fails for a value between single quotes: it contains no
    double quote, yet [load] strips the single quotes as well. *)
Lemma quoted_core_count_loses_its_quotes :
  let s := Demo.quoted in
  let loaded := fst (load Demo.env (save Demo.env Demo.win_dir s) s) in
  Dict.get (config s) "CPU_CORES" = Some "'4'"
  /\ Dict.get (config s) "MEM_SIZE" = Some "8G"
  /\ Py.contains Py.dquote "'4'" = false
  /\ Py.contains Py.dquote "8G" = false
  /\ Dict.get (config loaded) "CPU_CORES" = Some "4"
  /\ Dict.get (config loaded) "CPU_CORES" <> Some "'4'".
Proof.
  cbv zeta.
  split; [reflexivity|]. split; [reflexivity|]. split; [reflexivity|].
  split; [reflexivity|]. split.
  - vm_compute. reflexivity.
  - vm_compute. discriminate.
Qed.

Lemma build_command_virtio_blk_witness :
  virtio_blk_devices
    (build_command Demo.env Demo.two_of_three "/usr/share/OVMF/OVMF_CODE.fd"
                   Demo.three)
  = [ "virtio-blk-pci,drive=drive_disk_1,serial=DISK_1,bootindex=2,iothread=io0";
      "virtio-blk-pci,drive=drive_disk_2,serial=DISK_2,bootindex=3,iothread=io0" ].
Proof.
  apply (proj2 (build_command_virtio_blk Demo.env)
           Demo.two_of_three "/usr/share/OVMF/OVMF_CODE.fd" Demo.three
           "a.qcow2" "b.qcow2" "c.qcow2");
    vm_compute; reflexivity.
Defined.

Lemma demo_win_storable : storable Demo.win.
Proof.
  split; [|split].
  - apply (bool_decide_unpack _). vm_compute. exact I.
  - repeat constructor.
  - repeat constructor.
Defined.

Lemma save_then_load_keeps_cpu_and_memory_witness :
  let loaded := load Demo.env (save Demo.env Demo.win_dir Demo.win)
                     (new_session "win") in
  snd loaded = true
  /\ Dict.get (config (fst loaded)) "CPU_CORES" = Some "4"
  /\ Dict.get (config (fst loaded)) "MEM_SIZE" = Some "8G".
Proof.
  apply (save_then_load_keeps_cpu_and_memory Demo.env Demo.win_dir Demo.win
           (new_session "win") "4" "8G" demo_win_storable);
    reflexivity.
Defined.

Lemma create_overlay_refuses_taken_name_witness :
  let r := snapshot_ops Demo.env Demo.healthy Demo.win 0 "sys.qcow2"
                        (Some Demo.base_info) "C" EmptyString in
  disks (run_session r) = disks Demo.win
  /\ run_session r = Demo.win /\ run_fs r = Demo.healthy /\ run_events r = [].
Proof.
  apply (create_overlay_refuses_taken_name Demo.env Demo.healthy Demo.win 0
           "sys.qcow2" Demo.base_info "C" EmptyString);
    [ intros H; apply (f_equal (fun m => m !! "format")) in H;
      vm_compute in H; discriminate
    | vm_compute; reflexivity | reflexivity | vm_compute; reflexivity ].
Defined.

Lemma import_adds_only_stored_names_witness :
  manage_disk_import Demo.env Demo.media Demo.win "/home/op" "y"
  = mkRun Demo.media Demo.win [] false.
Proof.
  apply (proj1 (proj2 (proj2 (import_adds_only_stored_names Demo.env Demo.media
                                Demo.win "/home/op" "y"))));
    vm_compute; reflexivity.
Defined.

Lemma unknown_info_is_refused_witness :
  get_disk_info Demo.env Demo.orphaned Demo.win "sys.qcow2" = None.
Proof.
  apply (proj1 (unknown_info_is_refused Demo.env)).
  vm_compute. reflexivity.
Defined.

(** * Further properties *)

(** ** Numbers in keys *)

Section Numbers.

Implicit Types (s : string) (c : ascii) (u : Decimal.uint).

Lemma string_of_uint_digits u :
  all_by Py.isdigit (NilEmpty.string_of_uint u) = true.
Proof. induction u; [reflexivity|..]; cbn [NilEmpty.string_of_uint all_by]; exact IHu. Qed.

Lemma all_by_contains p s c :
  all_by p s = true -> p c = false -> Py.contains c s = false.
Proof.
  intros Hs Hc. induction s as [|d s IH]; [reflexivity|].
  cbn [all_by] in Hs. apply andb_prop in Hs as [Hd Hs].
  cbn [Py.contains]. rewrite IH by exact Hs.
  destruct (Ascii.eqb_spec c d) as [->|]; [congruence|reflexivity].
Qed.

Lemma str_of_nat_free n c :
  Py.isdigit c = false -> Py.contains c (Py.str_of_nat n) = false.
Proof. apply all_by_contains, string_of_uint_digits. Qed.

Lemma digits_of_uint u acc b :
  u <> Decimal.Nil \/ b = true ->
  Py.digits (Z.of_nat acc) b (NilEmpty.string_of_uint u)
  = Some (Z.of_nat (Nat.of_uint_acc u acc)).
Proof.
  revert acc b. induction u; intros acc b Hb;
    [ destruct Hb as [Hb| ->]; [congruence|reflexivity] | .. ];
    cbn [NilEmpty.string_of_uint Py.digits Nat.of_uint_acc];
    match goal with
    | |- context [Py.isdigit ?c] => change (Py.isdigit c) with true
    end;
    cbv iota; (etransitivity; [|apply (IHu _ true); right; reflexivity]);
    f_equal; rewrite ?Nat.tail_mul_spec;
    match goal with
    | |- context [nat_of_ascii ?c] =>
        let v := eval vm_compute in (nat_of_ascii c) in
        change (nat_of_ascii c) with v
    end; lia.
Qed.

Lemma digit_not_space c : Py.isdigit c = true -> Py.isspace c = false.
Proof.
  destruct c as [[] [] [] [] [] [] [] []]; vm_compute; congruence.
Qed.

Lemma strip_digits s : all_by Py.isdigit s = true -> Py.strip s = s.
Proof.
  intros H. unfold Py.strip, Py.strip_by.
  assert (He : ends_by Py.isspace s = false).
  { induction s as [|c s IH]; [reflexivity|].
    cbn [all_by] in H. apply andb_prop in H as [Hc Hs].
    destruct s as [|d s]; [apply digit_not_space, Hc|]. apply IH, Hs. }
  rewrite rstrip_by_end by exact He. apply lstrip_by_start.
  destruct s as [|c s]; [reflexivity|].
  cbn [all_by] in H. apply andb_prop in H as [Hc _].
  apply digit_not_space, Hc.
Qed.

Lemma to_uint_nonnil n : Nat.to_uint n <> Decimal.Nil.
Proof.
  pose proof (DecimalNat.Unsigned.to_of (Nat.to_uint n)) as H.
  rewrite DecimalNat.Unsigned.of_to in H. rewrite H.
  unfold Decimal.unorm. destruct (Decimal.nzhead _); discriminate.
Qed.

(** [int] reads back what [str] printed. *)
Lemma int_str_of_nat n : Py.int (Py.str_of_nat n) = Some (Z.of_nat n).
Proof.
  unfold Py.int, Py.str_of_nat.
  rewrite strip_digits by apply string_of_uint_digits.
  rewrite <- (DecimalNat.Unsigned.of_to n) at 2.
  pose proof (to_uint_nonnil n) as Hnil.
  unfold Nat.of_uint.
  destruct (Nat.to_uint n) as [|u|u|u|u|u|u|u|u|u|u]; [congruence|..];
    match goal with
    | |- _ = Some (Z.of_nat (Nat.of_uint_acc ?U 0)) =>
        exact (digits_of_uint U 0 false (or_introl Hnil))
    end.
Qed.

Lemma split_without c s : Py.contains c s = false -> Py.split c s = [s].
Proof.
  induction s as [|d s IH]; [reflexivity|].
  cbn [Py.contains Py.split]. intros H.
  apply orb_false_elim in H as [Hd Hs]. rewrite Hd, IH by exact Hs.
  reflexivity.
Qed.

Lemma disk_key_action n val :
  key_action ("DISK_" +:+ Py.str_of_nat n) val = SetDisk (Z.of_nat n) val.
Proof.
  unfold key_action.
  assert (Hp : Py.startswith ("DISK_" +:+ Py.str_of_nat n) "DISK_" = true)
    by (destruct (Py.str_of_nat n); reflexivity).
  rewrite Hp.
  change ("DISK_" +:+ ?r)
    with (String "D" (String "I" (String "S" (String "K" (String "_" r))))).
  cbn [Py.split Ascii.eqb Bool.eqb].
  rewrite split_without by (apply str_of_nat_free; reflexivity).
  cbn [lookup list_lookup mbind option_bind]. rewrite int_str_of_nat.
  reflexivity.
Qed.

Lemma iso_key_action n val :
  key_action ("ISO_" +:+ Py.str_of_nat n) val = SetIso (Z.of_nat n) val.
Proof.
  unfold key_action.
  assert (Hd : Py.startswith ("ISO_" +:+ Py.str_of_nat n) "DISK_" = false)
    by reflexivity.
  assert (Hp : Py.startswith ("ISO_" +:+ Py.str_of_nat n) "ISO_" = true)
    by (destruct (Py.str_of_nat n); reflexivity).
  rewrite Hd, Hp.
  change ("ISO_" +:+ ?r)
    with (String "I" (String "S" (String "O" (String "_" r)))).
  cbn [Py.split Ascii.eqb Bool.eqb].
  rewrite split_without by (apply str_of_nat_free; reflexivity).
  cbn [lookup list_lookup mbind option_bind]. rewrite int_str_of_nat.
  reflexivity.
Qed.

Lemma numbered_key_ok prefix n :
  key_ok prefix = true -> prefix <> EmptyString ->
  key_ok (prefix +:+ Py.str_of_nat n) = true.
Proof.
  intros H Hne. apply key_ok_parts in H as (H1 & H2 & H3).
  unfold key_ok. rewrite one_line_app, H1, str_of_nat_one_line.
  rewrite contains_app, H2, str_of_nat_free by reflexivity.
  destruct prefix as [|c prefix]; [congruence|].
  rewrite app_cons. cbn [starts_by] in H3. rewrite H3. reflexivity.
Qed.

End Numbers.

(** ** The whole session, saved and loaded *)

Section WholeRoundTrip.

Context (E : Env).

Lemma indexed_from_cons i x (l : list string) m :
  indexed_from i (x :: l) m = indexed_from (S i) l (<[Z.of_nat i := x]> m).
Proof. reflexivity. Qed.

Lemma indexed_from_outside (l : list string) i m z :
  (z < Z.of_nat i \/ Z.of_nat (i + length l) <= z)%Z ->
  indexed_from i l m !! z = m !! z.
Proof.
  revert i m. induction l as [|x l IH]; intros i m Hz; [reflexivity|].
  rewrite indexed_from_cons, IH by (cbn [length] in Hz; lia).
  apply lookup_insert_ne. cbn [length] in Hz. lia.
Qed.

Lemma indexed_from_inside (l : list string) i m j :
  indexed_from i l m !! Z.of_nat (i + j) = match l !! j with
                                           | Some x => Some x
                                           | None => m !! Z.of_nat (i + j)
                                           end.
Proof.
  revert i m j. induction l as [|x l IH]; intros i m j; [reflexivity|].
  rewrite indexed_from_cons. destruct j as [|j].
  - rewrite indexed_from_outside by lia.
    rewrite Nat.add_0_r, lookup_insert_eq. reflexivity.
  - replace (i + S j) with (S i + j) by lia. rewrite IH.
    cbn [lookup list_lookup]. destruct (l !! j); [reflexivity|].
    apply lookup_insert_ne. lia.
Qed.

Lemma increasing_naturals i n :
  StronglySorted Z.lt (Z.of_nat <$> seq i n).
Proof.
  revert i. induction n as [|n IH]; intros i; [constructor|].
  cbn [seq fmap list_fmap]. constructor; [apply IH|].
  apply Forall_forall. intros z Hz.
  apply list_elem_of_fmap in Hz as (k & -> & Hk).
  apply elem_of_seq in Hk. lia.
Qed.

Lemma sorted_keys_indexed (l : list string) :
  sorted_keys (indexed_from 0 l ∅) = Z.of_nat <$> seq 0 (length l).
Proof.
  apply (StronglySorted_unique_strong Z.lt).
  - intros. lia.
  - apply sorted_keys_increasing.
  - apply increasing_naturals.
  - apply NoDup_Permutation.
    + unfold sorted_keys. rewrite merge_sort_Permutation.
      apply NoDup_fst_map_to_list.
    + apply NoDup_fmap_2; [intros ? ? ?; lia|apply NoDup_seq].
    + intros z. rewrite sorted_keys_elem, list_elem_of_fmap. split.
      * intros [v Hv].
        destruct (decide (0 <= z < Z.of_nat (length l))%Z) as [Hz|Hz].
        -- exists (Z.to_nat z). split; [lia|]. apply elem_of_seq. lia.
        -- rewrite indexed_from_outside, lookup_empty in Hv by lia.
           discriminate.
      * intros (k & -> & Hk). apply elem_of_seq in Hk.
        pose proof (indexed_from_inside l 0 ∅ k) as H. cbn [Nat.add] in H.
        rewrite H. destruct (lookup_lt_is_Some_2 l k) as [x Hx]; [lia|].
        rewrite Hx. eauto.
Qed.

(** Listing by index the map built from a list gives the list back. *)
Lemma values_by_index_indexed (l : list string) :
  values_by_index (indexed_from 0 l ∅) = l.
Proof.
  pose proof (values_by_index_spec (indexed_from 0 l ∅)) as H.
  rewrite sorted_keys_indexed in H.
  assert (Hlen : length (values_by_index (indexed_from 0 l ∅)) = length l).
  { apply Forall2_length in H. rewrite length_fmap, length_seq in H. lia. }
  apply list_eq. intros j.
  destruct (decide (j < length l)) as [Hj|Hj].
  - assert (Hk : (Z.of_nat <$> seq 0 (length l)) !! j = Some (Z.of_nat j)).
    { rewrite list_lookup_fmap.
      rewrite (proj2 (lookup_seq 0 (length l) j j)) by lia. reflexivity. }
    destruct (Forall2_lookup_l _ _ _ _ _ H Hk) as (v & Hv & Hm).
    rewrite Hv. pose proof (indexed_from_inside l 0 ∅ j) as Hin.
    cbn [Nat.add] in Hin. rewrite Hm in Hin.
    destruct (l !! j); [congruence|].
    rewrite lookup_empty in Hin. discriminate.
  - rewrite !lookup_ge_None_2 by lia. reflexivity.
Qed.

Lemma dict_set_fresh (c : Dict.t) k v :
  k ∉ c.*1 -> Dict.set c k v = c ++ [(k, v)].
Proof.
  induction c as [|[k' v'] c IH]; intros H; [reflexivity|].
  cbn [Dict.set]. cbn [fmap list_fmap fst] in H.
  apply not_elem_of_cons in H as [Hne Hc].
  destruct (String.eqb_spec k' k) as [->|_]; [congruence|].
  rewrite IH by exact Hc. reflexivity.
Qed.

Lemma fold_config_lines (l : list (string * string)) c0 dm im :
  NoDup (c0 ++ l).*1 ->
  Forall (fun kv => key_ok kv.1 = true) l ->
  Forall (fun kv => Py.startswith kv.1 "DISK_" = false
                    /\ Py.startswith kv.1 "ISO_" = false
                    /\ plain_value kv.2 = true) l ->
  fold_left load_line (map written l) (c0, dm, im) = (c0 ++ l, dm, im).
Proof.
  revert c0. induction l as [|[k v] l IH]; intros c0 Hnd Hok Hgood.
  { rewrite app_nil_r. reflexivity. }
  apply Forall_cons in Hok as [Hk Hok].
  apply Forall_cons in Hgood as [(Hd & Hi & Hv) Hgood].
  cbn [fst snd] in Hk, Hd, Hi, Hv. cbn [map fold_left].
  unfold written at 2. cbn [fst snd].
  rewrite load_line_act, line_action_assignment by exact Hk.
  rewrite unquote_plain by exact Hv. unfold key_action. rewrite Hd, Hi.
  cbn [act]. rewrite dict_set_fresh.
  - rewrite IH; [|rewrite <- List.app_assoc; exact Hnd|exact Hok|exact Hgood].
    rewrite <- List.app_assoc. reflexivity.
  - rewrite fmap_app in Hnd. apply NoDup_app in Hnd as (_ & Hdisj & _).
    intros Hin. apply (Hdisj k Hin). left.
Qed.

Lemma fold_disk_lines (l : list string) i cfg dm im :
  Forall (fun n => plain_value n = true) l ->
  fold_left load_line
    (map (fun e => assignment ("DISK_" +:+ Py.str_of_nat e.1) e.2)
         (enumerate_from i l)) (cfg, dm, im)
  = (cfg, indexed_from i l dm, im).
Proof.
  intros H. revert i dm. induction H as [|x l Hx _ IH]; intros i dm;
    [reflexivity|].
  cbn [enumerate_from map fold_left fst snd].
  rewrite load_line_act, line_action_assignment
    by (apply numbered_key_ok; [reflexivity|discriminate]).
  rewrite unquote_plain by exact Hx. rewrite disk_key_action. cbn [act].
  rewrite IH. reflexivity.
Qed.

Lemma fold_iso_lines (l : list string) i cfg dm im :
  Forall (fun n => plain_value n = true) l ->
  fold_left load_line
    (map (fun e => assignment ("ISO_" +:+ Py.str_of_nat e.1) e.2)
         (enumerate_from i l)) (cfg, dm, im)
  = (cfg, dm, indexed_from i l im).
Proof.
  intros H. revert i im. induction H as [|x l Hx _ IH]; intros i im;
    [reflexivity|].
  cbn [enumerate_from map fold_left fst snd].
  rewrite load_line_act, line_action_assignment
    by (apply numbered_key_ok; [reflexivity|discriminate]).
  rewrite unquote_plain by exact Hx. rewrite iso_key_action. cbn [act].
  rewrite IH. reflexivity.
Qed.

Lemma load_of_saved fs s s0 :
  reloadable s ->
  name s0 = name s ->
  load E (save E fs s) s0
  = (mkSession (name s0) (config s) (disks s) (isos s) (transient_mounts s0),
     true).
Proof.
  intros (Hst & Hcfg & Hnames) Hname.
  assert (Hfile : save E fs s !! config_file E s0 = Some (File (config_text s))).
  { unfold config_file, dir. rewrite Hname. apply save_config_file. }
  rewrite (load_of_file E _ s0 _ Hfile).
  rewrite readlines_config_text by exact Hst.
  destruct Hst as (Hnd & Hkeys & _).
  apply Forall_app in Hnames as [Hd Hi].
  unfold load_lines, config_lines, enumerate. rewrite !fold_left_app.
  change (map (fun kv => assignment kv.1 kv.2) (config s))
    with (map written (config s)).
  rewrite (fold_config_lines (config s) [] ∅ ∅).
  - rewrite fold_disk_lines by exact Hd. rewrite fold_iso_lines by exact Hi.
    cbn [fst snd app]. rewrite !values_by_index_indexed. reflexivity.
  - exact Hnd.
  - eapply Forall_impl; [exact Hkeys|]. intros kv [H _]. exact H.
  - exact Hcfg.
Qed.

(** X1. Saving a reloadable session and loading the file back gives the
    scalar config, the disk list and the ISO list exactly as they were
    saved, in the same order; the name and the transient mounts are those
    of the session object that loads. *)
Theorem save_then_load_restores_session fs s s0 :
  reloadable s ->
  name s0 = name s ->
  load E (save E fs s) s0
  = (mkSession (name s0) (config s) (disks s) (isos s) (transient_mounts s0),
     true).
Proof. apply load_of_saved. Qed.

End WholeRoundTrip.

(** ** Firmware detection *)

Section Firmware.

Lemma find_first {A} (f : A -> bool) (l : list A) :
  match find f l with
  | Some x => exists before after,
      l = before ++ x :: after /\ f x = true
      /\ Forall (fun y => f y = false) before
  | None => Forall (fun y => f y = false) l
  end.
Proof.
  induction l as [|a l IH]; cbn [find]; [constructor|].
  destruct (f a) eqn:Ha.
  - exists [], l. repeat split; [exact Ha|constructor].
  - destruct (find f l) as [x|].
    + destruct IH as (before & after & -> & Hx & Hb).
      exists (a :: before), after. repeat split; [exact Hx|].
      constructor; assumption.
    + constructor; assumption.
Qed.

(** X2. [detect_ovmf] returns the first firmware path of the list that
    exists, every path before it being absent, together with the first
    variable template that exists in the directory of that path, the
    candidates before it being absent there; it returns no template when
    none of the candidates exists in that directory, whatever lies in
    other directories, and nothing at all when no firmware path exists. *)
Theorem detect_ovmf_takes_first_match (fs : Fs) :
  match detect_ovmf fs with
  | (Some code, vars) =>
      (exists before after,
          OVMF_CODE_PATHS = before ++ code :: after
          /\ Os.exists_ fs code = true
          /\ Forall (fun p => Os.exists_ fs p = false) before)
      /\ match vars with
         | Some v =>
             exists before c after,
               OVMF_VARS_CANDIDATES = before ++ c :: after
               /\ v = Path.join (dirname code) c
               /\ Os.exists_ fs v = true
               /\ Forall (fun c' => Os.exists_ fs (Path.join (dirname code) c')
                                    = false) before
         | None =>
             Forall (fun c => Os.exists_ fs (Path.join (dirname code) c) = false)
                    OVMF_VARS_CANDIDATES
         end
  | (None, vars) =>
      vars = None
      /\ Forall (fun p => Os.exists_ fs p = false) OVMF_CODE_PATHS
  end.
Proof.
  unfold detect_ovmf.
  pose proof (find_first (Os.exists_ fs) OVMF_CODE_PATHS) as Hcode.
  destruct (find (Os.exists_ fs) OVMF_CODE_PATHS) as [code|];
    [|split; [reflexivity|exact Hcode]].
  split; [exact Hcode|].
  pose proof (find_first (Os.exists_ fs)
                (map (Path.join (dirname code)) OVMF_VARS_CANDIDATES)) as Hv.
  destruct (find _ (map _ _)) as [v|].
  - destruct Hv as (before & after & Heq & Hex & Hb).
    apply map_eq_app in Heq as (cb & rest & -> & <- & Hrest).
    destruct rest as [|c ca]; [discriminate|].
    cbn [map] in Hrest. injection Hrest as <- <-.
    exists cb, c, ca. repeat split; [exact Hex|].
    apply Forall_map in Hb. exact Hb.
  - apply Forall_map in Hv. exact Hv.
Qed.

End Firmware.

(** ** USB mass-storage devices *)

Section UsbStorage.

Context (E : Env).

Lemma usb_storage_devices_app (X Y : list string) :
  calm_head Y ->
  usb_storage_devices (X ++ Y) = usb_storage_devices X ++ usb_storage_devices Y.
Proof.
  intros HY. induction X as [|x X IH]; [reflexivity|].
  destruct X as [|x' X].
  - destruct Y as [|y Y]; [reflexivity|].
    cbn [app usb_storage_devices]. cbn in HY. rewrite HY, andb_false_r.
    reflexivity.
  - change ((x :: x' :: X) ++ Y) with (x :: (x' :: X) ++ Y).
    cbn [usb_storage_devices]. rewrite IH.
    change ((x' :: X) ++ Y) with (x' :: X ++ Y).
    cbn beta iota.
    destruct (String.eqb x "-device" && Py.startswith x' "usb-storage,");
      reflexivity.
Qed.

Lemma calm_head_app (X Y : list string) :
  calm_head X -> calm_head Y -> calm_head (X ++ Y).
Proof. destruct X; simpl; auto. Qed.

Lemma flat_map_calm {A} (f : A -> list string) (l : list A) :
  (forall a, calm_head (f a)) -> calm_head (flat_map f l).
Proof.
  intros Hf. induction l as [|a l IH]; simpl; [exact I|].
  apply calm_head_app; auto.
Qed.

Lemma flat_map_no_usb {A} (f : A -> list string) (l : list A) :
  (forall a, calm_head (f a)) ->
  (forall a, usb_storage_devices (f a) = []) ->
  usb_storage_devices (flat_map f l) = [].
Proof.
  intros Hq Hf. induction l as [|a l IH]; [reflexivity|].
  cbn [flat_map]. rewrite usb_storage_devices_app, Hf, IH; [reflexivity|].
  now apply flat_map_calm.
Qed.

Lemma usb_storage_devices_skip (a b : string) (rest : list string) :
  String.eqb a "-device" && Py.startswith b "usb-storage," = false ->
  usb_storage_devices (a :: b :: rest) = usb_storage_devices (b :: rest).
Proof. intros H. cbn [usb_storage_devices]. rewrite H. reflexivity. Qed.

Lemma preamble_no_usb ovmf s : usb_storage_devices (preamble E ovmf s) = [].
Proof.
  unfold preamble.
  repeat (etransitivity;
          [ apply usb_storage_devices_skip;
            first [ reflexivity | apply andb_false_intro2; reflexivity ]
          | ]).
  reflexivity.
Qed.

Lemma disk_args_calm fs s e :
  calm_head (disk_args E fs s e) /\ usb_storage_devices (disk_args E fs s e) = [].
Proof.
  destruct e as [i d]. unfold disk_args.
  destruct (Os.exists_ _ _); split; reflexivity.
Qed.

Lemma iso_args_calm fs s e :
  calm_head (iso_args E fs s e) /\ usb_storage_devices (iso_args E fs s e) = [].
Proof.
  destruct e as [i d]. unfold iso_args.
  destruct (Os.exists_ _ _); split; reflexivity.
Qed.

Lemma transient_args_calm fs e : calm_head (transient_args fs e).
Proof.
  destruct e as [i d]. unfold transient_args.
  destruct (Os.isdir _ _); [reflexivity|].
  destruct (Os.isfile _ _); simpl; reflexivity.
Qed.

Lemma transient_args_usb fs i path :
  usb_storage_devices (transient_args fs (i, path))
  = if mountable fs path then [transient_device i] else [].
Proof.
  unfold transient_args, mountable, transient_device.
  destruct (Os.isdir _ _); [reflexivity|].
  destruct (Os.isfile _ _); reflexivity.
Qed.

Lemma transient_usb fs (l : list string) (i : nat) :
  usb_storage_devices (flat_map (transient_args fs) (enumerate_from i l))
  = map transient_device
      (map fst (filter (fun e => mountable fs e.2 = true) (enumerate_from i l))).
Proof.
  revert i. induction l as [|d l IH]; intros i; [reflexivity|].
  cbn [enumerate_from flat_map].
  rewrite usb_storage_devices_app by (apply flat_map_calm, transient_args_calm).
  rewrite transient_args_usb, IH, (filter_cons _ (i, d)). cbn [snd].
  destruct (decide _) as [Hx|Hx].
  - rewrite Hx. reflexivity.
  - apply not_true_is_false in Hx. rewrite Hx. reflexivity.
Qed.

Lemma usb_storage_of_command fs ovmf s :
  usb_storage_devices (build_command E fs ovmf s)
  = "usb-storage,drive=drive_shared,serial=SHARED_AUTO,removable=on"
    :: map transient_device (mounted fs s).
Proof.
  unfold build_command, mounted, enumerate.
  assert (Hs : calm_head (shared_args E s)) by reflexivity.
  pose proof (flat_map_calm (transient_args fs)
                (enumerate_from 0 (transient_mounts s))
                (transient_args_calm fs)) as Ht.
  pose proof (flat_map_calm (iso_args E fs s) (enumerate_from 0 (isos s))
                (fun e => proj1 (iso_args_calm fs s e))) as Hi.
  pose proof (flat_map_calm (disk_args E fs s) (enumerate_from 0 (disks s))
                (fun e => proj1 (disk_args_calm fs s e))) as Hd.
  rewrite !usb_storage_devices_app by (repeat apply calm_head_app; assumption).
  rewrite preamble_no_usb.
  rewrite (flat_map_no_usb _ _ (fun e => proj1 (disk_args_calm fs s e))
             (fun e => proj2 (disk_args_calm fs s e))).
  rewrite (flat_map_no_usb _ _ (fun e => proj1 (iso_args_calm fs s e))
             (fun e => proj2 (iso_args_calm fs s e))).
  rewrite transient_usb. reflexivity.
Qed.

(** X3. The USB mass-storage entries of the argument vector are the one of
    the default shared folder, always there and first, followed by one
    per transient mount that is a directory or a regular file, numbered by
    its position among all transient mounts; disks and ISOs add none.  So
    there is one such device more than there are attachable mounts, and
    exactly one for a session without transient mounts. *)
Theorem build_command_usb_storage fs ovmf s :
  usb_storage_devices (build_command E fs ovmf s)
  = "usb-storage,drive=drive_shared,serial=SHARED_AUTO,removable=on"
    :: map transient_device (mounted fs s)
  /\ length (usb_storage_devices (build_command E fs ovmf s))
     = 1 + length (filter (fun p => mountable fs p = true) (transient_mounts s)).
Proof.
  split; [apply usb_storage_of_command|].
  rewrite usb_storage_of_command. cbn [length]. f_equal. rewrite length_map.
  unfold mounted, enumerate. generalize 0.
  induction (transient_mounts s) as [|d l IH]; intros i; [reflexivity|].
  cbn [enumerate_from].
  rewrite (filter_cons _ (i, d)), (filter_cons _ d l). cbn [snd].
  destruct (decide _); cbn [map length]; rewrite IH; reflexivity.
Qed.



End UsbStorage.

(** ** Confirmation prompts *)

Section Confirmation.

Context (E : Env).

Lemma lower_chr_y c :
  Py.lower_chr c = "y"%char <-> c = "y"%char \/ c = "Y"%char.
Proof.
  destruct c as [[] [] [] [] [] [] [] []]; vm_compute;
    (split; [intros H|intros [H|H]]);
    first [discriminate H | reflexivity | left; reflexivity | right; reflexivity].
Qed.

Lemma lower_y s : Py.lower s = "y" <-> s = "y" \/ s = "Y".
Proof.
  destruct s as [|c [|d r]].
  - split; [discriminate|intros [H|H]; discriminate].
  - cbn [Py.lower]. split.
    + intros [= H]. apply lower_chr_y in H as [-> | ->]; auto.
    + intros [[= ->]|[= ->]]; reflexivity.
  - cbn [Py.lower]. split; [discriminate|intros [H|H]; discriminate].
Qed.

Lemma confirmed_iff typed :
  confirmed typed = true <-> Py.strip typed = "y" \/ Py.strip typed = "Y".
Proof.
  unfold confirmed, get_input. rewrite String.eqb_eq.
  destruct (String.eqb_spec (Py.strip typed) EmptyString) as [Hs|Hs].
  - rewrite Hs. split; [discriminate|intros [H|H]; discriminate].
  - apply lower_y.
Qed.

(** X5. Only the answers [y] and [Y], white space around them aside,
    confirm; every other answer, the empty one included, leaves the file
    system and the session as they are and performs no effect: for reset,
    commit and discard of an overlay, for detaching a disk and for
    deleting the session. *)
Theorem only_y_confirms :
  (forall typed,
      confirmed typed = true <-> Py.strip typed = "y" \/ Py.strip typed = "Y")
  /\ (forall fs s idx disk_name d backing typed_op typed,
        d !! "backing-filename" = Some backing ->
        confirmed typed = false ->
        snapshot_ops E fs s idx disk_name (Some d) typed_op typed
        = mkRun fs s [] false)
  /\ (forall fs s typed_idx typed,
        confirmed typed = false ->
        let r := manage_disk_detach E fs s typed_idx typed in
        run_fs r = fs /\ run_session r = s /\ run_events r = [])
  /\ (forall fs s typed,
        confirmed typed = false -> session_loop_delete E fs s typed = Some fs).
Proof.
  split; [exact confirmed_iff|]. split; [|split].
  - intros fs s idx disk_name d backing typed_op typed Hb Hc.
    unfold snapshot_ops.
    rewrite bool_decide_eq_false_2 by (eapply lookup_Some_nonempty; eassumption).
    rewrite Hb, Hc. repeat destruct (String.eqb _ _); reflexivity.
  - intros fs s typed_idx typed Hc r. subst r. unfold manage_disk_detach.
    rewrite Hc. destruct (chosen_index _ _) as [[idx|]|]; auto.
  - intros fs s typed Hc. unfold session_loop_delete. rewrite Hc. reflexivity.
Qed.

End Confirmation.

(** ** What [save] leaves alone *)

Section SaveFrame.

Context (E : Env).

Lemma makedirs_present (fs : Fs) p q n :
  fs !! q = Some n -> Os.makedirs fs p !! q = Some n.
Proof.
  intros H. unfold Os.makedirs. destruct (fs !! p) eqn:Hp; [exact H|].
  rewrite lookup_insert_ne; [exact H|]. intros ->. congruence.
Qed.

Lemma makedirs_other (fs : Fs) p q : p <> q -> Os.makedirs fs p !! q = fs !! q.
Proof.
  intros H. unfold Os.makedirs. destruct (fs !! p); [reflexivity|].
  apply lookup_insert_ne, H.
Qed.

Lemma makedirs_made (fs : Fs) p : is_Some (Os.makedirs fs p !! p).
Proof.
  unfold Os.makedirs. destruct (fs !! p) eqn:Hp; [eauto|].
  rewrite lookup_insert_eq. eauto.
Qed.

Lemma makedirs_again (fs : Fs) p : is_Some (fs !! p) -> Os.makedirs fs p = fs.
Proof. intros [n H]. unfold Os.makedirs. rewrite H. reflexivity. Qed.

Lemma create_structure_present (fs : Fs) s q n :
  fs !! q = Some n -> create_structure E fs s !! q = Some n.
Proof. intros H. unfold create_structure. repeat apply makedirs_present. exact H. Qed.

Lemma is_Some_makedirs (fs : Fs) p q :
  is_Some (fs !! q) -> is_Some (Os.makedirs fs p !! q).
Proof. intros [n H]. exists n. apply makedirs_present, H. Qed.

Lemma create_structure_again (fs : Fs) s :
  is_Some (fs !! dir E s) -> is_Some (fs !! shared_dir E s) ->
  is_Some (fs !! iso_dir E s) -> is_Some (fs !! disk_dir E s) ->
  create_structure E fs s = fs.
Proof.
  intros H1 H2 H3 H4. unfold create_structure.
  rewrite (makedirs_again fs (dir E s)) by exact H1.
  rewrite (makedirs_again fs (shared_dir E s)) by exact H2.
  rewrite (makedirs_again fs (iso_dir E s)) by exact H3.
  apply makedirs_again, H4.
Qed.

Lemma save_keeps_node (fs : Fs) s p n :
  p <> config_file E s -> fs !! p = Some n -> save E fs s !! p = Some n.
Proof.
  intros Hne H. unfold save, Os.write_text.
  rewrite lookup_insert_ne by congruence. apply create_structure_present, H.
Qed.

Lemma is_Some_insert (fs : Fs) p n q :
  is_Some (fs !! q) -> is_Some (<[p := n]> fs !! q).
Proof.
  intros H. destruct (decide (p = q)) as [->|Hne].
  - rewrite lookup_insert_eq. eauto.
  - rewrite lookup_insert_ne by exact Hne. exact H.
Qed.

End SaveFrame.

(** ** Hardware configuration *)

Section Configure.

Context (E : Env).

Lemma get_absent (d : Dict.t) k : k ∉ d.*1 -> Dict.get d k = None.
Proof.
  induction d as [|[k' v'] d IH]; intros H; [reflexivity|].
  cbn [fmap list_fmap fst] in H. apply not_elem_of_cons in H as [Hne Hd].
  cbn [Dict.get]. destruct (String.eqb_spec k' k) as [->|_]; [congruence|].
  apply IH, Hd.
Qed.

Lemma get_dict_update (d other : Dict.t) k :
  NoDup other.*1 ->
  Dict.get (dict_update d other) k
  = match Dict.get other k with
    | Some v => Some v
    | None => Dict.get d k
    end.
Proof.
  unfold dict_update. revert d.
  induction other as [|[k' v'] other IH]; intros d Hnd; [reflexivity|].
  cbn [fmap list_fmap fst] in Hnd. apply NoDup_cons in Hnd as [Hfresh Hnd].
  cbn [fold_left fst snd Dict.get]. rewrite IH by exact Hnd.
  destruct (String.eqb_spec k' k) as [->|Hne].
  - rewrite get_absent by exact Hfresh. apply get_set_eq.
  - destruct (Dict.get other k); [reflexivity|]. apply get_set_ne, Hne.
Qed.

Lemma keys_of_set (c : Dict.t) k v :
  (Dict.set c k v).*1 = if bool_decide (k ∈ c.*1) then c.*1 else c.*1 ++ [k].
Proof.
  induction c as [|[k' v'] c IH]; [reflexivity|].
  cbn [Dict.set]. destruct (String.eqb_spec k' k) as [->|Hne].
  - rewrite bool_decide_eq_true_2 by left. reflexivity.
  - cbn [fmap list_fmap fst]. change (list_fmap _ _ fst ?l) with (l.*1).
    rewrite IH. destruct (decide (k ∈ c.*1)) as [Hin|Hin].
    + rewrite !bool_decide_eq_true_2; [reflexivity|right; exact Hin|exact Hin].
    + rewrite !bool_decide_eq_false_2; [reflexivity| |exact Hin].
      intros H. apply elem_of_cons in H as [->|H]; [congruence|auto].
Qed.

Lemma NoDup_set (c : Dict.t) k v : NoDup c.*1 -> NoDup (Dict.set c k v).*1.
Proof.
  intros H. rewrite keys_of_set. case_bool_decide as Hin; [exact H|].
  apply NoDup_app. split; [exact H|]. split.
  - intros x Hx Hk. apply list_elem_of_singleton in Hk as ->. auto.
  - apply NoDup_singleton.
Qed.

Lemma Forall_set (P : string * string -> Prop) (c : Dict.t) k v :
  Forall P c -> P (k, v) -> Forall P (Dict.set c k v).
Proof.
  intros Hc Hkv. induction Hc as [|[k' v'] c Hx Hc IH]; cbn [Dict.set].
  - repeat constructor. exact Hkv.
  - destruct (String.eqb_spec k' k) as [->|_]; constructor; assumption.
Qed.

(** X7. After [configure_basic] the config maps [VM_NAME] to the name of
    the session and [MEM_SIZE] and [CPU_CORES] to the trimmed answers; a
    blank answer stands for the value stored so far, or for [8G] and [4]
    when the session is new or has no such value.  Every other key keeps
    its value, the disks, ISOs and mounts are as before, and the config
    file holds the new session. *)
Theorem configure_basic_settings fs s is_new typed_mem typed_cpu :
  NoDup (config s).*1 ->
  let r := configure_basic E fs s is_new typed_mem typed_cpu in
  let cfg := config (run_session r) in
  let stored k fallback :=
    if is_new then fallback else Dict.get_default (config s) k fallback in
  Dict.get cfg "VM_NAME" = Some (name s)
  /\ Dict.get cfg "MEM_SIZE" = Some (get_input typed_mem (stored "MEM_SIZE" "8G"))
  /\ Dict.get cfg "CPU_CORES" = Some (get_input typed_cpu (stored "CPU_CORES" "4"))
  /\ (forall k, k ∉ ["VM_NAME"; "MEM_SIZE"; "CPU_CORES"] ->
                Dict.get cfg k = Dict.get (config s) k)
  /\ run_session r = with_config s cfg
  /\ run_fs r !! config_file E s = Some (File (config_text (run_session r))).
Proof.
  intros Hnd r cfg stored. subst r cfg. unfold configure_basic.
  cbv zeta. cbn [run_session run_fs config with_config].
  set (defaults := if is_new then _ else _).
  assert (Hdef : forall k fallback,
             Dict.get [("MEM_SIZE", "8G"); ("CPU_CORES", "4")] k = Some fallback ->
             Dict.get_default defaults k EmptyString = stored k fallback).
  { intros k fallback Hk. unfold stored, Dict.get_default, defaults.
    destruct is_new; [rewrite Hk; reflexivity|].
    rewrite get_dict_update by exact Hnd.
    destruct (Dict.get (config s) k); [reflexivity|]. rewrite Hk. reflexivity. }
  rewrite (Hdef "MEM_SIZE" "8G" eq_refl), (Hdef "CPU_CORES" "4" eq_refl).
  split; [|split; [|split; [|split; [|split]]]].
  - rewrite !get_set_ne by discriminate. apply get_set_eq.
  - rewrite get_set_ne by discriminate. apply get_set_eq.
  - apply get_set_eq.
  - intros k Hk. rewrite !not_elem_of_cons in Hk. destruct Hk as (H1 & H2 & H3 & _).
    rewrite !get_set_ne by congruence. reflexivity.
  - reflexivity.
  - apply (save_config_file E fs (with_config s _)).
Qed.

Lemma Forall_dict_update (P : string * string -> Prop) (d other : Dict.t) :
  Forall P d -> Forall P other -> Forall P (dict_update d other).
Proof.
  intros Hd Ho. unfold dict_update. revert d Hd.
  induction Ho as [|[k v] o Hx _ IH]; intros d Hd; [exact Hd|].
  cbn [fold_left fst snd]. apply IH. apply Forall_set; assumption.
Qed.

Lemma stored_value_good (c : Dict.t) k fallback (P : string -> Prop) :
  Forall (fun kv => P kv.2) c -> P fallback ->
  P (Dict.get_default c k fallback).
Proof.
  intros Hc Hf. unfold Dict.get_default.
  destruct (Dict.get c k) as [v|] eqn:Hv; [|exact Hf].
  apply get_elem in Hv. rewrite Forall_forall in Hc. apply (Hc (k, v)), Hv.
Qed.

Lemma reloadable_with_config s k v :
  reloadable s ->
  key_ok k = true -> Py.startswith k "DISK_" = false ->
  Py.startswith k "ISO_" = false ->
  one_line v = true -> plain_value v = true ->
  reloadable (with_config s (Dict.set (config s) k v)).
Proof.
  intros ((Hnd & Hkeys & Hnames) & Hcfg & Hplain) Hk Hd Hi Hv Hp.
  unfold reloadable, storable. cbn [config disks isos with_config].
  repeat split; try assumption.
  - apply NoDup_set, Hnd.
  - apply Forall_set; [exact Hkeys|]. split; assumption.
  - apply Forall_set; [exact Hcfg|]. repeat split; assumption.
Qed.

(** X8. Configuring a reloadable session whose name and trimmed answers
    are plain one-line text gives a session that reads back exactly: a
    [load] of the file that [configure_basic] wrote returns the session it
    left in memory. *)
Theorem configured_session_reads_back fs s is_new typed_mem typed_cpu :
  reloadable s ->
  one_line (name s) = true -> plain_value (name s) = true ->
  one_line (Py.strip typed_mem) = true ->
  plain_value (Py.strip typed_mem) = true ->
  one_line (Py.strip typed_cpu) = true ->
  plain_value (Py.strip typed_cpu) = true ->
  let r := configure_basic E fs s is_new typed_mem typed_cpu in
  load E (run_fs r) s = (run_session r, true).
Proof.
  intros Hs Hn1 Hn2 Hm1 Hm2 Hc1 Hc2 r. subst r. unfold configure_basic.
  cbv zeta. cbn [run_session run_fs].
  set (defaults := if is_new then _ else _).
  assert (Hgood : forall typed k,
             one_line (Py.strip typed) = true ->
             plain_value (Py.strip typed) = true ->
             Dict.get [("MEM_SIZE", "8G"); ("CPU_CORES", "4")] k <> None ->
             let v := get_input typed (Dict.get_default defaults k EmptyString) in
             one_line v = true /\ plain_value v = true).
  { intros typed k H1 H2 Hk v. subst v. unfold get_input.
    destruct (String.eqb _ EmptyString); [|auto].
    assert (Hdefs : Forall (fun kv => one_line kv.2 = true /\ plain_value kv.2 = true)
                      defaults).
    { unfold defaults. destruct is_new; [repeat constructor|].
      apply Forall_dict_update; [repeat constructor|].
      destruct Hs as ((_ & Hkeys & _) & Hcfg & _).
      rewrite Forall_forall in Hkeys, Hcfg |- *. intros kv Hkv.
      split; [apply Hkeys, Hkv|apply Hcfg, Hkv]. }
    unfold Dict.get_default.
    destruct (Dict.get defaults k) as [v|] eqn:Hv.
    - apply get_elem in Hv. rewrite Forall_forall in Hdefs.
      apply (Hdefs (k, v)), Hv.
    - split; reflexivity. }
  destruct (Hgood typed_mem "MEM_SIZE" Hm1 Hm2 ltac:(discriminate)) as [Hmv1 Hmv2].
  destruct (Hgood typed_cpu "CPU_CORES" Hc1 Hc2 ltac:(discriminate)) as [Hcv1 Hcv2].
  cbv zeta in Hmv1, Hmv2, Hcv1, Hcv2.
  set (mem := get_input typed_mem _) in *.
  set (cpu := get_input typed_cpu _) in *.
  pose proof (reloadable_with_config s "VM_NAME" (name s) Hs
                eq_refl eq_refl eq_refl Hn1 Hn2) as H1.
  pose proof (reloadable_with_config _ "MEM_SIZE" mem H1
                eq_refl eq_refl eq_refl Hmv1 Hmv2) as H2.
  pose proof (reloadable_with_config _ "CPU_CORES" cpu H2
                eq_refl eq_refl eq_refl Hcv1 Hcv2) as H3.
  rewrite load_of_saved; [reflexivity|exact H3|reflexivity].
Qed.

End Configure.

(** ** Detaching an entry by its number *)

Section Detach.

Context (E : Env).

Lemma str_of_nat_nonempty n : Py.str_of_nat n <> EmptyString.
Proof.
  unfold Py.str_of_nat. pose proof (to_uint_nonnil n) as H.
  destruct (Nat.to_uint n); [congruence|..]; discriminate.
Qed.

Lemma all_by_impl (p q : ascii -> bool) s :
  (forall c, p c = true -> q c = true) ->
  all_by p s = true -> all_by q s = true.
Proof.
  intros Hpq. induction s as [|c s IH]; [reflexivity|].
  cbn [all_by]. intros H. apply andb_prop in H as [Hc Hs].
  rewrite (Hpq c Hc), (IH Hs). reflexivity.
Qed.

Lemma str_of_nat_isdigit n : str_isdigit (Py.str_of_nat n) = true.
Proof.
  unfold str_isdigit. apply andb_true_intro. split.
  - apply negb_true_iff, String.eqb_neq, str_of_nat_nonempty.
  - apply (all_by_impl Py.isdigit); [|apply string_of_uint_digits].
    intros c Hc. unfold unicode_isdigit. rewrite Hc. reflexivity.
Qed.

Lemma typed_number n default :
  get_input (Py.str_of_nat n) default = Py.str_of_nat n.
Proof.
  unfold get_input. cbv zeta.
  rewrite (strip_digits (Py.str_of_nat n)) by apply string_of_uint_digits.
  destruct (String.eqb_spec (Py.str_of_nat n) EmptyString) as [H|_];
    [destruct (str_of_nat_nonempty n H)|reflexivity].
Qed.

Lemma chosen_index_number k len :
  chosen_index (Py.str_of_nat k) len
  = if ((1 <=? k) && (k <=? len))%nat then Some (Some (k - 1)%nat) else None.
Proof.
  unfold chosen_index. rewrite str_of_nat_isdigit, int_str_of_nat. cbv zeta.
  destruct (Nat.leb_spec 1 k) as [H1|H1]; cbn [andb].
  - destruct (Nat.leb_spec k len) as [H2|H2].
    + replace (0 <=? Z.of_nat k - 1)%Z with true by (symmetry; apply Z.leb_le; lia).
      replace (Z.of_nat k - 1 <? Z.of_nat len)%Z with true
        by (symmetry; apply Z.ltb_lt; lia).
      cbn [andb]. do 2 f_equal. lia.
    + replace (Z.of_nat k - 1 <? Z.of_nat len)%Z with false
        by (symmetry; apply Z.ltb_ge; lia).
      rewrite andb_false_r. reflexivity.
  - replace (0 <=? Z.of_nat k - 1)%Z with false by (symmetry; apply Z.leb_gt; lia).
    reflexivity.
Qed.

Lemma reloadable_lists s ds cs :
  reloadable s ->
  Forall (fun n => one_line n = true /\ plain_value n = true) (ds ++ cs) ->
  reloadable (mkSession (name s) (config s) ds cs (transient_mounts s)).
Proof.
  intros ((Hnd & Hkeys & _) & Hcfg & _) Hall.
  unfold reloadable, storable. cbn [config disks isos].
  repeat split; try assumption.
  - eapply Forall_impl; [exact Hall|]. intros n [H _]. exact H.
  - eapply Forall_impl; [exact Hall|]. intros n [_ H]. exact H.
Qed.

Lemma reloadable_names s :
  reloadable s ->
  Forall (fun n => one_line n = true /\ plain_value n = true) (disks s)
  /\ Forall (fun n => one_line n = true /\ plain_value n = true) (isos s).
Proof.
  intros ((_ & _ & H1) & _ & H2).
  apply Forall_app in H1 as [H1d H1i]. apply Forall_app in H2 as [H2d H2i].
  split; apply Forall_and; split; assumption.
Qed.

(** X9. Detaching disk number [k] of the list: once confirmed, exactly
    that entry leaves the list, the rest keeps its order, the config file is
    rewritten, and every other path keeps its node, the image of the
    detached disk included; unconfirmed, nothing happens.  A reloadable
    session reads back from the file as it is in memory afterwards. *)
Theorem detach_disk_by_number fs s k typed_confirm :
  1 <= k <= length (disks s) ->
  let r := manage_disk_detach E fs s (Py.str_of_nat k) typed_confirm in
  run_raised r = false
  /\ if confirmed typed_confirm then
       run_session r = with_disks s (delete (k - 1) (disks s))
       /\ run_events r
          = [EvSave (config_file E s) (config_text (run_session r))]
       /\ (forall p n, p <> config_file E s -> fs !! p = Some n ->
                       run_fs r !! p = Some n)
       /\ (reloadable s -> load E (run_fs r) s = (run_session r, true))
     else r = unchanged fs s.
Proof.
  intros Hk r. subst r. unfold manage_disk_detach.
  rewrite typed_number, chosen_index_number.
  replace ((1 <=? k) && (k <=? length (disks s)))%nat with true
    by (symmetry; apply andb_true_intro; split; apply Nat.leb_le; lia).
  destruct (confirmed typed_confirm); [|split; reflexivity].
  cbn [run_raised run_session run_events run_fs].
  split; [reflexivity|]. split; [reflexivity|]. split; [reflexivity|].
  split.
  - intros p n Hp Hn. apply save_keeps_node; assumption.
  - intros Hs. rewrite load_of_saved; [reflexivity| |reflexivity].
    apply reloadable_names in Hs as Hn. destruct Hn as [Hd Hi].
    apply (reloadable_lists s); [exact Hs|].
    apply Forall_app. split; [apply Forall_delete, Hd|exact Hi].
Qed.

(** X10. Removing ISO number [k] of the list asks for no confirmation:
    exactly that entry leaves the list, the config file is rewritten, and
    every other path keeps its node, the ISO file included.  A reloadable
    session reads back from the file as it is in memory afterwards. *)
Theorem detach_iso_by_number fs s k :
  1 <= k <= length (isos s) ->
  let r := manage_cdrom_detach E fs s (Py.str_of_nat k) in
  run_raised r = false
  /\ run_session r = with_isos s (delete (k - 1) (isos s))
  /\ run_events r = [EvSave (config_file E s) (config_text (run_session r))]
  /\ (forall p n, p <> config_file E s -> fs !! p = Some n ->
                  run_fs r !! p = Some n)
  /\ (reloadable s -> load E (run_fs r) s = (run_session r, true)).
Proof.
  intros Hk r. subst r. unfold manage_cdrom_detach.
  rewrite typed_number, chosen_index_number.
  replace ((1 <=? k) && (k <=? length (isos s)))%nat with true
    by (symmetry; apply andb_true_intro; split; apply Nat.leb_le; lia).
  cbn [run_raised run_session run_events run_fs].
  split; [reflexivity|]. split; [reflexivity|]. split; [reflexivity|].
  split.
  - intros p n Hp Hn. apply save_keeps_node; assumption.
  - intros Hs. rewrite load_of_saved; [reflexivity| |reflexivity].
    apply reloadable_names in Hs as Hn. destruct Hn as [Hd Hi].
    apply (reloadable_lists s); [exact Hs|].
    apply Forall_app. split; [exact Hd|apply Forall_delete, Hi].
Qed.

End Detach.

(** ** Deleting a session and seeding its firmware variables *)

Section Lifecycle.

Context (E : Env).

Lemma startswith_app a b : Py.startswith (a +:+ b) a = true.
Proof.
  unfold Py.startswith. induction a as [|c a IH].
  - rewrite app_nil_l. destruct b; reflexivity.
  - rewrite app_cons. cbn [String.prefix]. rewrite IH.
    destruct (ascii_dec c c); [reflexivity|congruence].
Qed.

Lemma under_join d x :
  Py.startswith x "/" = false -> under d (Path.join d x) = true.
Proof.
  intros Hx. unfold under, Path.join. rewrite Hx.
  destruct (String.eqb d EmptyString || Path.endswith_chr d "/").
  - rewrite startswith_app. apply orb_true_r.
  - rewrite <- app_assoc, startswith_app. apply orb_true_r.
Qed.

Lemma rmtree_lookup (fs : Fs) d p :
  filter (fun kv : string * node => under d kv.1 = false) fs !! p
  = if under d p then None else fs !! p.
Proof.
  destruct (under d p) eqn:Hu.
  - apply map_lookup_filter_None_2. right. intros n _. cbn [fst]. congruence.
  - destruct (fs !! p) as [n|] eqn:Hp.
    + apply map_lookup_filter_Some_2; [exact Hp|exact Hu].
    + apply map_lookup_filter_None_2. left. exact Hp.
Qed.

(** X11. [Session.delete] does nothing when the session directory is
    absent and raises when a regular file stands in its place.  Otherwise
    the directory and every path inside it are gone and every other path
    keeps its node; the session no longer exists, and loading it fails
    leaving the session object untouched. *)
Theorem delete_removes_the_session_tree (fs : Fs) (s : Session) :
  match fs !! dir E s with
  | None => session_delete E fs s = Some fs
  | Some (File _) => session_delete E fs s = None
  | Some Dir =>
      exists fs',
        session_delete E fs s = Some fs'
        /\ (forall p, fs' !! p = if under (dir E s) p then None else fs !! p)
        /\ session_exists E fs' s = false
        /\ load E fs' s = (s, false)
  end.
Proof.
  unfold session_delete, rmtree, Os.exists_.
  destruct (fs !! dir E s) as [[|c]|] eqn:Hd; try reflexivity.
  eexists. split; [reflexivity|].
  assert (Hgone : filter (fun kv : string * node => under (dir E s) kv.1 = false) fs
                    !! config_file E s = None).
  { rewrite rmtree_lookup. unfold config_file.
    rewrite under_join by reflexivity. reflexivity. }
  split; [intros p; apply rmtree_lookup|]. split.
  - unfold session_exists, Os.exists_. rewrite Hgone. reflexivity.
  - unfold load. rewrite Hgone. reflexivity.
Qed.

Lemma copy2_fresh (fs : Fs) src dst :
  fs !! dst = None ->
  copy2 fs src dst
  = match fs !! src with
    | Some (File content) =>
        if parent_there fs dst then Some (<[dst := File content]> fs) else None
    | _ => None
    end.
Proof.
  intros Hdst. unfold copy2.
  assert (Hd : Os.isdir fs dst = false) by (unfold Os.isdir; rewrite Hdst; reflexivity).
  rewrite Hd. cbv zeta. rewrite Hd.
  destruct (fs !! src) as [[|c]|] eqn:Hsrc; try reflexivity.
  destruct (String.eqb_spec src dst) as [->|_]; [congruence|].
  cbn [orb]. destruct (parent_there fs dst); reflexivity.
Qed.

(** X12. [ensure_vars] never overwrites: with a variable store in place
    the file system stays as it is, whatever the template.  Without one,
    the call raises exactly when the template is not a regular file or the
    directory of the variable store is not there; otherwise the content of
    the template is copied to the variable store and every other path
    keeps its node.  A second call after a successful one changes
    nothing, whatever its template. *)
Theorem ensure_vars_seeds_once (fs : Fs) (s : Session) (template : string) :
  match fs !! vars_file E s with
  | Some _ => ensure_vars E fs s template = Some fs
  | None =>
      match fs !! template with
      | Some (File content) =>
          if parent_there fs (vars_file E s) then
            exists fs',
              ensure_vars E fs s template = Some fs'
              /\ fs' !! vars_file E s = Some (File content)
              /\ (forall p, p <> vars_file E s -> fs' !! p = fs !! p)
              /\ forall template', ensure_vars E fs' s template' = Some fs'
          else ensure_vars E fs s template = None
      | _ => ensure_vars E fs s template = None
      end
  end.
Proof.
  unfold ensure_vars, Os.exists_.
  destruct (fs !! vars_file E s) as [n|] eqn:Hv; [reflexivity|].
  cbn [negb]. rewrite copy2_fresh by exact Hv.
  destruct (fs !! template) as [[|content]|]; try reflexivity.
  destruct (parent_there fs (vars_file E s)); [|reflexivity].
  eexists. split; [reflexivity|].
  split; [apply lookup_insert_eq|].
  split; [intros p Hp; apply lookup_insert_ne; congruence|].
  intros template'. rewrite lookup_insert_eq. reflexivity.
Qed.

End Lifecycle.

(** ** Lines that assign *)

Section Unpack.

Lemma contains_lstrip_by p c s :
  p c = false -> Py.contains c (Py.lstrip_by p s) = Py.contains c s.
Proof.
  intros Hc. induction s as [|d s IH]; [reflexivity|].
  cbn [Py.lstrip_by]. destruct (p d) eqn:Hd; [|reflexivity].
  rewrite IH. cbn [Py.contains].
  destruct (Ascii.eqb_spec c d) as [->|_]; [congruence|reflexivity].
Qed.

Lemma contains_rstrip_by p c s :
  p c = false -> Py.contains c (Py.rstrip_by p s) = Py.contains c s.
Proof.
  intros Hc. induction s as [|d s IH]; [reflexivity|].
  cbn [Py.rstrip_by Py.contains]. rewrite <- IH.
  destruct (Py.rstrip_by p s) as [|e r].
  - destruct (p d) eqn:Hd.
    + destruct (Ascii.eqb_spec c d) as [->|_]; [congruence|reflexivity].
    + reflexivity.
  - reflexivity.
Qed.

Lemma contains_strip c s :
  Py.isspace c = false -> Py.contains c (Py.strip s) = Py.contains c s.
Proof.
  intros Hc. unfold Py.strip, Py.strip_by.
  rewrite contains_lstrip_by, contains_rstrip_by by exact Hc. reflexivity.
Qed.

Lemma split1_contains c s :
  Py.contains c s = true ->
  exists key val,
    Py.split1 c s = Some (key, val)
    /\ s = key +:+ String c val
    /\ Py.contains c key = false.
Proof.
  induction s as [|d s IH]; [discriminate|].
  cbn [Py.contains Py.split1]. intros H.
  destruct (Ascii.eqb_spec c d) as [->|Hne].
  - exists EmptyString, s. repeat split.
  - cbn [orb] in H. destruct (IH H) as (key & val & Hs & Heq & Hk).
    exists (String d key), val. rewrite Hs. repeat split.
    + rewrite app_cons, <- Heq. reflexivity.
    + cbn [Py.contains]. rewrite Hk.
      destruct (Ascii.eqb_spec c d); [congruence|reflexivity].
Qed.

(** X13. Every line that holds an equals sign unpacks: trimmed, it is a
    key without equals sign, the sign, and a value, so the two-name
    assignment of [load] cannot fail, and the line acts on the three
    mappings as its key and its unquoted value say.  A line without the
    sign changes nothing. *)
Theorem assignment_line_always_unpacks line st :
  if Py.contains "=" line then
    exists key val,
      Py.split1 "=" (Py.strip line) = Some (key, val)
      /\ Py.strip line = key +:+ "=" +:+ val
      /\ Py.contains "=" key = false
      /\ load_line st line = act (key_action key (unquote val)) st
  else load_line st line = st.
Proof.
  destruct (Py.contains "=" line) eqn:Hc.
  - assert (Hs : Py.contains "=" (Py.strip line) = true)
      by (rewrite contains_strip; [exact Hc|reflexivity]).
    destruct (split1_contains _ _ Hs) as (key & val & Hsplit & Heq & Hk).
    exists key, val. repeat split; try assumption.
    rewrite load_line_act. unfold line_action. rewrite Hc, Hsplit.
    reflexivity.
  - destruct st as [[cfg dm] im]. unfold load_line. rewrite Hc. reflexivity.
Qed.

End Unpack.

(** ** Picking a disk and cycling its overlay *)

Section OverlayCycle.

Context (E : Env).

Lemma digit_lower c : Py.isdigit c = true -> Py.lower_chr c = c.
Proof.
  destruct c as [[] [] [] [] [] [] [] []]; vm_compute; congruence.
Qed.

Lemma lower_digits s : all_by Py.isdigit s = true -> Py.lower s = s.
Proof.
  induction s as [|c s IH]; [reflexivity|].
  cbn [all_by Py.lower]. intros H. apply andb_prop in H as [Hc Hs].
  rewrite (digit_lower c Hc), (IH Hs). reflexivity.
Qed.

Lemma typed_choice_number k :
  Py.lower (Py.strip (Py.str_of_nat k)) = Py.str_of_nat k.
Proof.
  rewrite (strip_digits (Py.str_of_nat k)) by apply string_of_uint_digits.
  apply lower_digits, string_of_uint_digits.
Qed.

Lemma number_is_not_b k : String.eqb (Py.str_of_nat k) "b" = false.
Proof.
  apply String.eqb_neq. intros H.
  pose proof (string_of_uint_digits (Nat.to_uint k)) as Hd.
  fold (Py.str_of_nat k) in Hd. rewrite H in Hd. discriminate.
Qed.

(** X14. Typing the number [k] in the snapshot menu operates on the
    [k]-th disk of the list, counted from one, with the information
    [qemu-img] gives about that very disk; when the image file of that
    disk is missing nothing happens, whatever operation is typed next. *)
Theorem snapshot_menu_picks_listed_disk fs s k disk_name typed_op typed_confirm :
  1 <= k ->
  disks s !! (k - 1) = Some disk_name ->
  manage_snapshots E fs s (Py.str_of_nat k) typed_op typed_confirm
  = snapshot_ops E fs s (k - 1) disk_name (get_disk_info E fs s disk_name)
                 typed_op typed_confirm
  /\ (Os.exists_ fs (Path.join (disk_dir E s) disk_name) = false ->
      manage_snapshots E fs s (Py.str_of_nat k) typed_op typed_confirm
      = unchanged fs s).
Proof.
  intros Hk Hd.
  assert (Heq : manage_snapshots E fs s (Py.str_of_nat k) typed_op typed_confirm
                = snapshot_ops E fs s (k - 1) disk_name
                    (get_disk_info E fs s disk_name) typed_op typed_confirm).
  { unfold manage_snapshots.
    destruct (disks s) as [|d0 ds] eqn:Hds; [rewrite lookup_nil in Hd; discriminate|].
    cbv zeta. rewrite typed_choice_number, number_is_not_b, chosen_index_number.
    pose proof (lookup_lt_Some _ _ _ Hd) as Hlt.
    replace ((1 <=? k) && (k <=? length (d0 :: ds)))%nat with true
      by (symmetry; apply andb_true_intro; split; apply Nat.leb_le; lia).
    rewrite Hd. reflexivity. }
  split; [exact Heq|].
  intros Hmiss. rewrite Heq. unfold get_disk_info. rewrite Hmiss. reflexivity.
Qed.

Lemma endswith_chr_app a b c :
  b <> EmptyString -> Path.endswith_chr (a +:+ b) c = Path.endswith_chr b c.
Proof.
  intros Hb. induction a as [|d a IH]; [reflexivity|].
  rewrite app_cons. cbn [Path.endswith_chr].
  destruct (a +:+ b) as [|e r] eqn:Hab; [|exact IH].
  destruct a; [rewrite app_nil_l in Hab; congruence|discriminate].
Qed.

Lemma endswith_chr_join a b c :
  b <> EmptyString -> Path.endswith_chr (Path.join a b) c = Path.endswith_chr b c.
Proof.
  intros Hb. unfold Path.join.
  destruct (Py.startswith b "/"); [reflexivity|].
  destruct (String.eqb a EmptyString || Path.endswith_chr a "/").
  - apply endswith_chr_app, Hb.
  - rewrite endswith_chr_app by (destruct b; [congruence|discriminate]).
    destruct b as [|e b]; [congruence|]. reflexivity.
Qed.

Lemma overlay_is_not_config_file s disk_name :
  Path.join (disk_dir E s) (overlay_name disk_name) <> config_file E s.
Proof.
  intros H.
  assert (H2 : Path.endswith_chr (Path.join (disk_dir E s) (overlay_name disk_name))
                 "2" = true).
  { rewrite endswith_chr_join.
    - unfold overlay_name. rewrite endswith_chr_app by discriminate. reflexivity.
    - unfold overlay_name. destruct (Path.splitext disk_name).1; discriminate. }
  rewrite H in H2. unfold config_file in H2.
  rewrite endswith_chr_join in H2 by discriminate. discriminate.
Qed.

Lemma with_disks_same s : with_disks s (disks s) = s.
Proof. destruct s. reflexivity. Qed.

(** X15. Creating an overlay on a listed base image and then discarding
    it, the base image being the backing file it records, leads back: the
    slot first names the overlay, the discard finds the base image and
    repoints the slot to it, the session is the one from before, the config
    file holds its text, the overlay file is gone, and every path other
    than these two keeps the node it had at the start. *)
Theorem create_then_discard_leads_back fs s idx disk_name image :
  disks s !! idx = Some disk_name ->
  Os.exists_ fs (Path.join (disk_dir E s) disk_name) = true ->
  Os.exists_ fs (Path.join (disk_dir E s) (overlay_name disk_name)) = false ->
  qemu_img_create E fs (disk_dir E s)
    ["-f"; "qcow2"; "-b"; disk_name; "-F"; "qcow2"; overlay_name disk_name]
  = Some image ->
  let r1 := create_overlay E fs s idx disk_name in
  let r2 := discard_overlay E (run_fs r1) (run_session r1) idx
              (overlay_name disk_name) disk_name in
  disks (run_session r1) = <[idx := overlay_name disk_name]> (disks s)
  /\ run_session r2 = s
  /\ run_raised r2 = false
  /\ run_fs r2 !! Path.join (disk_dir E s) (overlay_name disk_name) = None
  /\ run_fs r2 !! config_file E s = Some (File (config_text s))
  /\ (forall p n, p <> config_file E s ->
                  p <> Path.join (disk_dir E s) (overlay_name disk_name) ->
                  fs !! p = Some n -> run_fs r2 !! p = Some n).
Proof.
  intros Hidx Hbase Hfree Hcreate r1 r2.
  pose proof (overlay_is_not_config_file s disk_name) as Hne.
  set (ov := overlay_name disk_name) in *.
  set (s1 := with_disks s (<[idx := ov]> (disks s))).
  set (fs1 := save E (<[Path.join (disk_dir E s) ov := File image]> fs) s1).
  assert (Hr1 : r1 = mkRun fs1 s1
                  [EvCreate (disk_dir E s)
                     ["-f"; "qcow2"; "-b"; disk_name; "-F"; "qcow2"; ov];
                   EvSave (config_file E s1) (config_text s1)] false).
  { subst r1. unfold create_overlay. fold (overlay_name disk_name). fold ov.
    cbv zeta. rewrite Hfree, Hcreate, (list_assign_Some _ _ _ _ Hidx).
    reflexivity. }
  assert (Hback : list_assign (disks s1) idx disk_name = Some (disks s)).
  { unfold list_assign. cbn [s1 disks with_disks].
    rewrite length_insert.
    pose proof (lookup_lt_Some _ _ _ Hidx) as Hlt.
    apply Nat.ltb_lt in Hlt. rewrite Hlt.
    rewrite list_insert_insert_eq, (list_insert_id _ _ _ Hidx). reflexivity. }
  assert (Hov : save E fs1 s !! Path.join (disk_dir E s) ov = Some (File image)).
  { apply save_keeps_node; [exact Hne|]. apply save_keeps_node; [exact Hne|].
    apply lookup_insert_eq. }
  assert (Hr2 : r2 = mkRun (delete (Path.join (disk_dir E s) ov) (save E fs1 s)) s
                  [EvSave (config_file E s) (config_text s);
                   EvRemove (Path.join (disk_dir E s) ov)] false).
  { subst r2. rewrite Hr1. cbn [run_fs run_session]. unfold discard_overlay.
    change (disk_dir E s1) with (disk_dir E s).
    replace (Os.exists_ fs1 (Path.join (disk_dir E s) disk_name)) with true
      by (symmetry; apply exists_save, exists_insert, Hbase).
    cbn [negb]. rewrite Hback. cbv zeta.
    change (with_disks s1 (disks s)) with (with_disks s (disks s)).
    rewrite with_disks_same. unfold Os.remove. rewrite Hov. reflexivity. }
  rewrite Hr1, Hr2. cbn [run_fs run_session run_raised].
  split; [reflexivity|]. split; [reflexivity|]. split; [reflexivity|].
  split; [apply lookup_delete_eq|]. split.
  - rewrite lookup_delete_ne by exact Hne. apply save_config_file.
  - intros p n Hp Hpo Hn. rewrite lookup_delete_ne by congruence.
    apply save_keeps_node; [exact Hp|]. apply save_keeps_node; [exact Hp|].
    rewrite lookup_insert_ne by congruence. exact Hn.
Qed.

End OverlayCycle.

(** ** The file manager *)

Section FileManager.

Context (E : Env).

Lemma startswith_cancel a b c :
  Py.startswith (a +:+ b) (a +:+ c) = Py.startswith b c.
Proof.
  unfold Py.startswith. induction a as [|d a IH]; [reflexivity|].
  rewrite !app_cons. cbn [String.prefix].
  destruct (ascii_dec d d); [exact IH|congruence].
Qed.

Lemma startswith_slash d f :
  Py.startswith d (f +:+ "/") = true -> Py.contains "/" d = true.
Proof.
  unfold Py.startswith. revert d. induction f as [|c f IH]; intros d H.
  - rewrite app_nil_l in H. destruct d as [|e d]; [discriminate|].
    cbn [String.prefix] in H. destruct (ascii_dec "/" e) as [<-|]; [|discriminate].
    reflexivity.
  - rewrite app_cons in H. destruct d as [|e d]; [discriminate|].
    cbn [String.prefix] in H. destruct (ascii_dec c e); [|discriminate].
    cbn [Py.contains]. rewrite (IH d H). apply orb_true_r.
Qed.

Lemma string_app_inv_head a b c : a +:+ b = a +:+ c -> b = c.
Proof.
  induction a as [|d a IH]; [rewrite !app_nil_l; auto|].
  rewrite !app_cons. intros H. injection H as H. auto.
Qed.

Lemma bare_parts n :
  bare n = true -> n <> EmptyString /\ Py.contains "/" n = false.
Proof.
  unfold bare. intros H. apply andb_prop in H as [H1 H2].
  apply negb_true_iff in H1, H2. split; [|exact H2].
  intros ->. discriminate.
Qed.

Lemma join_bare d n : Py.contains "/" n = false -> Path.join d n = dir_prefix d +:+ n.
Proof.
  intros Hn. unfold Path.join, dir_prefix.
  assert (Hs : Py.startswith n "/" = false).
  { destruct n as [|c n]; [reflexivity|]. cbn [Py.contains] in Hn.
    apply orb_false_elim in Hn as [Hc _]. unfold Py.startswith.
    cbn [String.prefix]. destruct (ascii_dec "/" c) as [<-|]; [discriminate|].
    reflexivity. }
  rewrite Hs.
  destruct (String.eqb d EmptyString || Path.endswith_chr d "/"); [reflexivity|].
  rewrite app_assoc. reflexivity.
Qed.

Lemma contains_endswith n c :
  Py.contains c n = false -> Path.endswith_chr n c = false.
Proof.
  induction n as [|d n IH]; [reflexivity|].
  cbn [Py.contains]. intros H. apply orb_false_elim in H as [Hd Hn].
  destruct n as [|e n].
  - cbn. rewrite Ascii.eqb_sym. exact Hd.
  - apply IH, Hn.
Qed.

Lemma dir_prefix_bare d n :
  bare n = true -> dir_prefix (dir_prefix d +:+ n) = (dir_prefix d +:+ n) +:+ "/".
Proof.
  intros Hn. apply bare_parts in Hn as [Hne Hs]. unfold dir_prefix at 1.
  rewrite endswith_chr_app, (contains_endswith _ _ Hs) by exact Hne.
  destruct (String.eqb_spec (dir_prefix d +:+ n) EmptyString) as [H|_];
    [|reflexivity].
  destruct (dir_prefix d); [rewrite app_nil_l in H; congruence|discriminate].
Qed.

Lemma not_under_sibling d fname n :
  bare fname = true -> Py.contains "/" n = false -> n <> fname ->
  under (Path.join d fname) (Path.join d n) = false.
Proof.
  intros Hf Hn Hne. pose proof (bare_parts _ Hf) as [_ Hfs].
  rewrite !join_bare by assumption. unfold under.
  fold (dir_prefix (dir_prefix d +:+ fname)).
  rewrite (dir_prefix_bare d fname Hf), app_assoc, startswith_cancel.
  apply orb_false_intro.
  - apply String.eqb_neq. intros H. apply string_app_inv_head in H. auto.
  - destruct (Py.startswith n (fname +:+ "/")) eqn:H; [|reflexivity].
    apply startswith_slash in H. congruence.
Qed.

Lemma join_bare_inj d a b :
  Py.contains "/" a = false -> Py.contains "/" b = false ->
  Path.join d a = Path.join d b -> a = b.
Proof.
  intros Ha Hb. rewrite !join_bare by assumption. apply string_app_inv_head.
Qed.

Lemma disk_dir_is_not_iso_dir s : disk_dir E s <> iso_dir E s.
Proof.
  unfold disk_dir, iso_dir. intros H.
  apply join_bare_inj in H; [discriminate|reflexivity|reflexivity].
Qed.

Lemma entry_ok_bare n : entry_ok n = true -> bare n = true.
Proof.
  unfold entry_ok. intros H. apply andb_prop in H as [H _].
  apply andb_prop in H as [H _]. exact H.
Qed.

Lemma entry_name_ok d p n : entry_name d p = Some n -> entry_ok n = true.
Proof.
  unfold entry_name, entry_ok, bare. cbv zeta.
  destruct (Py.startswith p (dir_prefix d)); [|discriminate].
  destruct (String.eqb _ EmptyString) eqn:H1; [discriminate|].
  destruct (Py.contains "/" _) eqn:H2; [discriminate|].
  destruct (String.eqb _ ".") eqn:H3; [discriminate|].
  destruct (String.eqb _ "..") eqn:H4; [discriminate|].
  intros [= <-]. rewrite H1, H2, H3, H4. reflexivity.
Qed.

Lemma entry_name_bare d p n : entry_name d p = Some n -> bare n = true.
Proof. intros H. apply entry_ok_bare. exact (entry_name_ok _ _ _ H). Qed.

Lemma listdir_bare fs d l n : listdir fs d = Some l -> n ∈ l -> bare n = true.
Proof.
  unfold listdir. destruct (fs !! d) as [[|c]|]; try discriminate.
  intros [= <-] Hn. apply list_elem_of_omap in Hn as (p & _ & Hp).
  exact (entry_name_bare _ _ _ Hp).
Qed.

Lemma sorted_elem l n : n ∈ sorted l <-> n ∈ l.
Proof. unfold sorted. rewrite merge_sort_Permutation. reflexivity. Qed.

Lemma listing_bare fs d files idx n :
  file_manager_listing fs d = Some files -> files !! idx = Some n ->
  bare n = true.
Proof.
  unfold file_manager_listing. intros Hl Hn.
  apply list_elem_of_lookup_2 in Hn.
  destruct (negb (Os.exists_ fs d)).
  - injection Hl as <-. apply elem_of_nil in Hn. destruct Hn.
  - destruct (listdir fs d) as [l|] eqn:Hd; [|discriminate].
    injection Hl as <-. apply (proj1 (sorted_elem _ _)) in Hn.
    exact (listdir_bare _ _ _ _ Hd Hn).
Qed.

Lemma isfile_save fs s p :
  Os.isfile fs p = true -> Os.isfile (save E fs s) p = true.
Proof.
  unfold Os.isfile. intros H.
  destruct (decide (p = config_file E s)) as [->|Hne].
  - rewrite save_config_file. reflexivity.
  - destruct (fs !! p) as [n|] eqn:Hp; [|discriminate].
    rewrite (save_keeps_node E fs s p n Hne Hp). exact H.
Qed.

Lemma save_other_path (fs : Fs) s p :
  p <> config_file E s -> p <> dir E s -> p <> shared_dir E s ->
  p <> iso_dir E s -> p <> disk_dir E s ->
  save E fs s !! p = fs !! p.
Proof.
  intros H1 H2 H3 H4 H5. unfold save, Os.write_text, create_structure.
  rewrite lookup_insert_ne by congruence.
  rewrite !makedirs_other by congruence. reflexivity.
Qed.

Lemma string_app_nil_r a : a +:+ EmptyString = a.
Proof. induction a as [|c a IH]; [reflexivity|]. rewrite app_cons, IH. reflexivity. Qed.

Lemma dir_prefix_app d : exists t, dir_prefix d = d +:+ t.
Proof.
  unfold dir_prefix. destruct (_ || _); [exists EmptyString|exists "/"];
    [rewrite string_app_nil_r|]; reflexivity.
Qed.

Lemma disk_image_path s n :
  Py.contains "/" n = false ->
  Path.join (disk_dir E s) n = dir_prefix (dir E s) +:+ "disks/" +:+ n.
Proof.
  intros Hn. rewrite (join_bare _ n Hn). unfold disk_dir.
  rewrite (join_bare _ "disks") by reflexivity.
  rewrite (dir_prefix_bare (dir E s) "disks") by reflexivity.
  rewrite !app_assoc. reflexivity.
Qed.

Lemma disk_image_is_no_session_path s n :
  Py.contains "/" n = false ->
  Path.join (disk_dir E s) n <> config_file E s
  /\ Path.join (disk_dir E s) n <> dir E s
  /\ Path.join (disk_dir E s) n <> shared_dir E s
  /\ Path.join (disk_dir E s) n <> iso_dir E s
  /\ Path.join (disk_dir E s) n <> disk_dir E s.
Proof.
  intros Hn. rewrite (disk_image_path s n Hn).
  unfold config_file, shared_dir, iso_dir, disk_dir.
  rewrite !(join_bare (dir E s)) by reflexivity.
  repeat split; intros H.
  - apply string_app_inv_head in H. discriminate.
  - destruct (dir_prefix_app (dir E s)) as [t Ht]. rewrite Ht in H.
    rewrite app_assoc in H. rewrite <- (string_app_nil_r (dir E s)) in H at 2.
    apply string_app_inv_head in H. destruct t; discriminate.
  - apply string_app_inv_head in H. discriminate.
  - apply string_app_inv_head in H. discriminate.
  - apply string_app_inv_head in H. discriminate.
Qed.

Lemma list_remove_spec x l l' :
  list_remove x l = Some l' ->
  (forall y, y ∈ l' -> y ∈ l) /\ (NoDup l -> (x ∉ l') /\ NoDup l').
Proof.
  revert l'. induction l as [|y r IH]; intros l' H; [discriminate|].
  cbn [list_remove] in H. destruct (String.eqb_spec y x) as [->|Hne].
  - injection H as <-. split.
    + intros z Hz. apply elem_of_cons. right. exact Hz.
    + intros Hnd. apply NoDup_cons in Hnd. exact Hnd.
  - destruct (list_remove x r) as [r'|]; [|discriminate].
    injection H as <-. destruct (IH r' eq_refl) as [Hsub Hnd]. split.
    + intros z Hz. apply elem_of_cons in Hz as [->|Hz];
        apply elem_of_cons; [left; reflexivity|right; auto].
    + intros Hl. apply NoDup_cons in Hl as [Hy Hr].
      destruct (Hnd Hr) as [Hx Hr']. split.
      * intros Hin. apply elem_of_cons in Hin as [->|Hin]; [congruence|auto].
      * apply NoDup_cons. split; [|exact Hr']. intros Hin. auto.
Qed.

Lemma list_remove_elem x l : x ∈ l -> is_Some (list_remove x l).
Proof.
  induction l as [|y r IH]; intros H; [apply elem_of_nil in H; destruct H|].
  cbn [list_remove]. destruct (String.eqb_spec y x) as [->|Hne]; [eauto|].
  apply elem_of_cons in H as [->|H]; [congruence|].
  destruct (IH H) as [r' ->]. eauto.
Qed.

(** X16. The file manager of the disk directory keeps a tidy session
    tidy: when the listed disks are distinct plain file names and each is
    a regular file of the disk directory, they still are after a round of
    the manager, whatever is typed.  A listed disk whose file is deleted
    leaves the list, no other disk does, and nothing is added. *)
Theorem file_manager_keeps_disks_present fs s typed_idx typed_confirm :
  NoDup (disks s) ->
  Forall (fun d => bare d = true) (disks s) ->
  disks_present E fs s ->
  let r := file_manager_delete E fs s (disk_dir E s) typed_idx typed_confirm in
  NoDup (disks (run_session r))
  /\ Forall (fun d => bare d = true) (disks (run_session r))
  /\ disks_present E (run_fs r) (run_session r)
  /\ (forall d, d ∈ disks (run_session r) -> d ∈ disks s)
  /\ (forall d, d ∈ disks s -> d ∉ disks (run_session r) ->
                 Os.exists_ (run_fs r) (Path.join (disk_dir E s) d) = false).
Proof.
  intros Hnd Hbare Hpres r.
  assert (Hsame : forall fs', (forall d, d ∈ disks s ->
                                 Os.isfile fs' (Path.join (disk_dir E s) d) = true) ->
            forall evs raised,
            let r := mkRun fs' s evs raised in
            NoDup (disks (run_session r))
            /\ Forall (fun d => bare d = true) (disks (run_session r))
            /\ disks_present E (run_fs r) (run_session r)
            /\ (forall d, d ∈ disks (run_session r) -> d ∈ disks s)
            /\ (forall d, d ∈ disks s -> d ∉ disks (run_session r) ->
                   Os.exists_ (run_fs r) (Path.join (disk_dir E s) d) = false)).
  { intros fs' H evs raised r0. subst r0. cbn [run_session run_fs].
    repeat split; try assumption; [|auto|intros d Hd Hn; contradiction].
    unfold disks_present. apply Forall_forall. exact H. }
  assert (Hold : forall d, d ∈ disks s ->
                   Os.isfile fs (Path.join (disk_dir E s) d) = true).
  { unfold disks_present in Hpres. rewrite Forall_forall in Hpres. exact Hpres. }
  assert (Hslash : forall d, d ∈ disks s -> Py.contains "/" d = false).
  { rewrite Forall_forall in Hbare. intros d Hd.
    exact (proj2 (bare_parts d (Hbare d Hd))). }
  subst r. unfold file_manager_delete.
  destruct (file_manager_listing fs (disk_dir E s)) as [files|] eqn:Hl;
    [|apply Hsame, Hold].
  destruct (chosen_index _ _) as [[idx|]|]; try (apply Hsame, Hold).
  destruct (files !! idx) as [fname|] eqn:Hf; [|apply Hsame, Hold].
  pose proof (listing_bare _ _ _ _ _ Hl Hf) as Hfb.
  pose proof (bare_parts _ Hfb) as [_ Hfs].
  cbv zeta. destruct (confirmed typed_confirm); [|apply Hsame, Hold].
  rewrite String.eqb_refl.
  replace (String.eqb (disk_dir E s) (iso_dir E s)) with false
    by (symmetry; apply String.eqb_neq, disk_dir_is_not_iso_dir).
  cbn [andb]. rewrite orb_false_r.
  destruct (Os.isdir fs (Path.join (disk_dir E s) fname)) eqn:Hdir.
  - (* a directory goes, with all that is inside *)
    assert (Hout : fname ∉ disks s).
    { intros Hin. apply Hold in Hin. unfold Os.isdir in Hdir.
      unfold Os.isfile in Hin.
      destruct (fs !! Path.join (disk_dir E s) fname) as [[|c]|]; discriminate. }
    unfold rmtree. unfold Os.isdir in Hdir.
    destruct (fs !! Path.join (disk_dir E s) fname) as [[|c]|]; try discriminate.
    rewrite bool_decide_eq_false_2 by exact Hout.
    apply Hsame. intros d Hd. unfold Os.isfile. rewrite rmtree_lookup.
    rewrite not_under_sibling; [apply Hold, Hd|exact Hfb|apply Hslash, Hd|].
    intros ->. contradiction.
  - (* a regular file goes *)
    unfold Os.remove.
    destruct (fs !! Path.join (disk_dir E s) fname) as [[|c]|] eqn:Hnode;
      try (apply Hsame, Hold).
    assert (Hkept : forall d, d ∈ disks s -> d <> fname ->
              Os.isfile (delete (Path.join (disk_dir E s) fname) fs)
                        (Path.join (disk_dir E s) d) = true).
    { intros d Hd Hne. unfold Os.isfile. rewrite lookup_delete_ne; [apply Hold, Hd|].
      intros H. apply join_bare_inj in H; [congruence|exact Hfs|apply Hslash, Hd]. }
    destruct (bool_decide (fname ∈ disks s)) eqn:Hused.
    + apply bool_decide_eq_true in Hused.
      destruct (list_remove_elem _ _ Hused) as [l Hrm]. rewrite Hrm.
      cbn [fmap option_fmap option_map run_session run_fs disks with_disks].
      destruct (list_remove_spec _ _ _ Hrm) as [Hsub Hl2].
      destruct (Hl2 Hnd) as [Hgone Hnd'].
      split; [exact Hnd'|]. split.
      { rewrite Forall_forall in Hbare |- *. intros d Hd. apply Hbare, Hsub, Hd. }
      split.
      { unfold disks_present. cbn [disks]. apply Forall_forall. intros d Hd.
        change (disk_dir E (with_disks s l)) with (disk_dir E s).
        apply isfile_save, Hkept; [apply Hsub, Hd|]. intros ->. contradiction. }
      split; [exact Hsub|].
      intros d Hd Hnot.
      assert (d = fname) as ->.
      { destruct (decide (d = fname)) as [->|Hne]; [reflexivity|].
        exfalso. apply Hnot.
        clear -Hrm Hd Hne. revert l Hrm.
        induction (disks s) as [|y r IH]; intros l Hrm;
          [apply elem_of_nil in Hd; destruct Hd|].
        cbn [list_remove] in Hrm. destruct (String.eqb_spec y fname) as [->|Hy].
        - injection Hrm as <-. apply elem_of_cons in Hd as [->|Hd];
            [congruence|exact Hd].
        - destruct (list_remove fname r) as [r'|] eqn:Hr; [|discriminate].
          injection Hrm as <-. apply elem_of_cons in Hd as [->|Hd];
            apply elem_of_cons; [left; reflexivity|right].
          exact (IH Hd r' eq_refl). }
      unfold Os.exists_. cbn [run_fs].
      destruct (disk_image_is_no_session_path s fname Hfs)
        as (H1 & H2 & H3 & H4 & H5).
      rewrite save_other_path by assumption.
      rewrite lookup_delete_eq. reflexivity.
    + apply bool_decide_eq_false in Hused.
      apply Hsame. intros d Hd. apply Hkept; [exact Hd|]. intros ->. contradiction.
Qed.

End FileManager.

(** ** New sessions *)

Section NewSession.

Context (E : Env).

Lemma string_length_app a b :
  String.length (a +:+ b) = String.length a + String.length b.
Proof.
  induction a as [|c a IH]; [reflexivity|].
  rewrite app_cons. cbn [String.length]. rewrite IH. reflexivity.
Qed.

Lemma substring_all b : String.substring 0 (String.length b) b = b.
Proof.
  induction b as [|c b IH]; [reflexivity|].
  cbn [String.length String.substring]. rewrite IH. reflexivity.
Qed.

Lemma slice_from_app a b :
  Path.slice_from (Z.of_nat (String.length a)) (a +:+ b) = b.
Proof.
  unfold Path.slice_from, Path.slice. rewrite Nat2Z.id, string_length_app.
  replace (Z.to_nat (Z.of_nat (String.length a + String.length b)
                     - Z.of_nat (String.length a)))
    with (String.length b) by lia.
  induction a as [|c a IH]; [apply substring_all|].
  rewrite app_cons. cbn [String.length String.substring]. exact IH.
Qed.

Lemma entry_name_join d n :
  entry_ok n = true -> entry_name d (Path.join d n) = Some n.
Proof.
  intros Hok. pose proof (entry_ok_bare n Hok) as Hn.
  pose proof (bare_parts n Hn) as [Hne Hs].
  unfold entry_ok in Hok. rewrite Hn in Hok. cbn [andb] in Hok.
  apply andb_prop in Hok as [H1 H2]. apply negb_true_iff in H1, H2.
  rewrite (join_bare d n Hs). unfold entry_name. cbv zeta.
  rewrite startswith_app, slice_from_app, Hs, H1, H2.
  destruct (String.eqb_spec n EmptyString); [congruence|reflexivity].
Qed.

(** The scan lists exactly the entry names whose path under the root is
    a directory. *)
Lemma scan_sessions_spec fs sessions n :
  fs !! SAVE_ROOT E = Some Dir ->
  scan_sessions E fs = Some sessions ->
  n ∈ sessions
  <-> entry_ok n = true /\ fs !! Path.join (SAVE_ROOT E) n = Some Dir.
Proof.
  intros Hroot. unfold scan_sessions, Os.exists_, listdir. rewrite Hroot.
  cbn [fmap option_fmap option_map]. intros [= <-].
  rewrite sorted_elem, list_elem_of_filter, list_elem_of_omap.
  unfold Os.isdir. split.
  - intros [Hdir (p & _ & Hp)]. split; [exact (entry_name_ok _ _ _ Hp)|].
    destruct (fs !! Path.join (SAVE_ROOT E) n) as [[|c]|]; congruence.
  - intros [Hb Hdir]. rewrite Hdir. split; [reflexivity|].
    exists (Path.join (SAVE_ROOT E) n). split; [|apply entry_name_join, Hb].
    apply list_elem_of_fmap. exists (Path.join (SAVE_ROOT E) n, Dir).
    split; [reflexivity|]. apply elem_of_map_to_list. exact Hdir.
Qed.

(** X17. New Session goes back to the menu, creating and writing
    nothing, exactly when the typed name is blank or the scan lists it.
    The scan lists the names without directory part, other than [.] and
    [..], whose path under the save root is a directory.  So the branch
    refuses such a name when its session directory exists, and it never
    refuses a name written with a slash, whatever exists under the
    root. *)
Theorem new_session_refuses_listed_names
        fs sessions typed_name typed_mem typed_cpu :
  fs !! SAVE_ROOT E = Some Dir ->
  scan_sessions E fs = Some sessions ->
  let typed := get_input typed_name EmptyString in
  (main_new_session E fs sessions typed_name typed_mem typed_cpu = None
   <-> typed = EmptyString \/ typed ∈ sessions)
  /\ (typed ∈ sessions
      <-> entry_ok typed = true
          /\ Os.isdir fs (dir E (new_session typed)) = true)
  /\ (typed <> EmptyString -> Py.contains "/" typed = true ->
      (typed ∉ sessions)
      /\ main_new_session E fs sessions typed_name typed_mem typed_cpu <> None).
Proof.
  intros Hroot Hscan typed.
  assert (Hlisted : typed ∈ sessions
            <-> entry_ok typed = true
                /\ Os.isdir fs (dir E (new_session typed)) = true).
  { rewrite (scan_sessions_spec fs sessions typed Hroot Hscan).
    unfold Os.isdir, dir. cbn [name new_session].
    destruct (fs !! Path.join (SAVE_ROOT E) typed) as [[|c]|];
      split; intros [H1 H2]; split; congruence. }
  split; [|split; [exact Hlisted|]].
  - unfold main_new_session. cbv zeta. fold typed.
    destruct (String.eqb_spec typed EmptyString) as [Hnil|Hnil].
    { split; [left; exact Hnil|reflexivity]. }
    destruct (decide (typed ∈ sessions)) as [Hin|Hout].
    + rewrite bool_decide_eq_true_2 by exact Hin.
      split; [right; exact Hin|reflexivity].
    + rewrite bool_decide_eq_false_2 by exact Hout.
      split; [discriminate|]. intros [H|H]; contradiction.
  - intros Hnil Hslash.
    assert (Hout : typed ∉ sessions).
    { intros Hin. apply Hlisted in Hin as [Hok _].
      apply entry_ok_bare, bare_parts in Hok as [_ Hok]. congruence. }
    split; [exact Hout|].
    unfold main_new_session. cbv zeta. fold typed.
    destruct (String.eqb_spec typed EmptyString) as [H|_]; [contradiction|].
    rewrite bool_decide_eq_false_2 by exact Hout. discriminate.
Qed.

Lemma session_paths s :
  bare (name s) = true ->
  let root := dir_prefix (SAVE_ROOT E) in
  dir E s = root +:+ name s
  /\ config_file E s = root +:+ name s +:+ "/config.conf"
  /\ shared_dir E s = root +:+ name s +:+ "/shared"
  /\ iso_dir E s = root +:+ name s +:+ "/isos"
  /\ disk_dir E s = root +:+ name s +:+ "/disks".
Proof.
  intros Hb root. pose proof (bare_parts _ Hb) as [_ Hs].
  assert (Hdir : dir E s = root +:+ name s) by (apply join_bare, Hs).
  assert (Hin : forall x, Py.contains "/" x = false ->
                  Path.join (dir E s) x = root +:+ name s +:+ "/" +:+ x).
  { intros x Hx. rewrite (join_bare _ x Hx), Hdir.
    unfold root. rewrite (dir_prefix_bare _ _ Hb), !app_assoc. reflexivity. }
  split; [exact Hdir|].
  unfold config_file, shared_dir, iso_dir, disk_dir.
  rewrite !Hin by reflexivity. repeat split.
Qed.

Lemma app_not_self a b : b <> EmptyString -> a +:+ b <> a.
Proof.
  intros Hb H. rewrite <- (string_app_nil_r a) in H at 2.
  apply string_app_inv_head in H. congruence.
Qed.

Lemma sibling_is_no_session_path s n :
  bare (name s) = true -> Py.contains "/" n = false -> n <> name s ->
  let p := Path.join (SAVE_ROOT E) n in
  p <> config_file E s /\ p <> dir E s /\ p <> shared_dir E s
  /\ p <> iso_dir E s /\ p <> disk_dir E s.
Proof.
  intros Hb Hn Hne p. subst p.
  destruct (session_paths s Hb) as (-> & -> & -> & -> & ->).
  rewrite (join_bare _ n Hn).
  assert (Hsub : forall x, n <> name s +:+ "/" +:+ x).
  { intros x H. rewrite H, contains_app in Hn.
    apply orb_false_elim in Hn as [_ Hn]. discriminate. }
  repeat split; intros H; apply string_app_inv_head in H;
    first [congruence | exact (Hsub _ H)].
Qed.

Lemma under_self d : under d d = true.
Proof. unfold under. rewrite String.eqb_refl. reflexivity. Qed.

Lemma makedirs_dir_or_none (m : Fs) p q :
  m !! q = None \/ m !! q = Some Dir ->
  Os.makedirs m p !! q = None \/ Os.makedirs m p !! q = Some Dir.
Proof.
  intros H. unfold Os.makedirs. destruct (m !! p) eqn:Hp; [exact H|].
  destruct (decide (p = q)) as [->|Hne].
  - right. apply lookup_insert_eq.
  - rewrite lookup_insert_ne by exact Hne. exact H.
Qed.

Lemma makedirs_makes_dir (m : Fs) p :
  m !! p = None \/ m !! p = Some Dir -> Os.makedirs m p !! p = Some Dir.
Proof.
  intros [H|H]; unfold Os.makedirs; rewrite H; [apply lookup_insert_eq|exact H].
Qed.

Lemma create_structure_fresh (fs : Fs) s :
  (forall p, under (dir E s) p = true -> fs !! p = None) ->
  Forall (fun p => create_structure E fs s !! p = Some Dir)
         [dir E s; shared_dir E s; iso_dir E s; disk_dir E s].
Proof.
  intros Hfree.
  assert (H1 : fs !! dir E s = None) by apply Hfree, under_self.
  assert (H2 : fs !! shared_dir E s = None)
    by (apply Hfree, under_join; reflexivity).
  assert (H3 : fs !! iso_dir E s = None)
    by (apply Hfree, under_join; reflexivity).
  assert (H4 : fs !! disk_dir E s = None)
    by (apply Hfree, under_join; reflexivity).
  unfold create_structure. repeat apply Forall_cons_2; [..|apply Forall_nil_2].
  - do 3 apply makedirs_present. apply makedirs_makes_dir. left. exact H1.
  - do 2 apply makedirs_present. apply makedirs_makes_dir.
    apply makedirs_dir_or_none. left. exact H2.
  - apply makedirs_present. apply makedirs_makes_dir.
    do 2 apply makedirs_dir_or_none. left. exact H3.
  - apply makedirs_makes_dir. do 3 apply makedirs_dir_or_none. left. exact H4.
Qed.

(** X18. New Session under a name without directory part, other than
    [.] and [..], with nothing at or inside its directory, creates the
    session: the four directories and the config
    file are there, no node that existed is changed, the session starts
    without disks and ISOs, and the next scan lists the sessions it listed
    before and the new one, nothing else. *)
Theorem new_session_is_listed fs sessions typed_name typed_mem typed_cpu :
  fs !! SAVE_ROOT E = Some Dir ->
  scan_sessions E fs = Some sessions ->
  entry_ok (get_input typed_name EmptyString) = true ->
  (forall p, under (dir E (new_session (get_input typed_name EmptyString))) p = true ->
             fs !! p = None) ->
  exists r,
    main_new_session E fs sessions typed_name typed_mem typed_cpu = Some r
    /\ name (run_session r) = get_input typed_name EmptyString
    /\ disks (run_session r) = [] /\ isos (run_session r) = []
    /\ session_exists E (run_fs r) (run_session r) = true
    /\ Forall (fun p => Os.isdir (run_fs r) p = true)
              [dir E (run_session r); shared_dir E (run_session r);
               iso_dir E (run_session r); disk_dir E (run_session r)]
    /\ (forall p n, fs !! p = Some n -> run_fs r !! p = Some n)
    /\ exists sessions',
         scan_sessions E (run_fs r) = Some sessions'
         /\ forall n, n ∈ sessions'
                      <-> n ∈ sessions \/ n = get_input typed_name EmptyString.
Proof.
  intros Hroot Hscan Hok Hfree.
  set (nm := get_input typed_name EmptyString) in *.
  set (s0 := new_session nm) in *.
  pose proof (entry_ok_bare nm Hok) as Hb.
  assert (Hb0 : bare (name s0) = true) by exact Hb.
  assert (Hnew : nm ∉ sessions).
  { intros Hin. apply (scan_sessions_spec fs sessions nm Hroot Hscan) in Hin
      as [_ Hdir].
    change (Path.join (SAVE_ROOT E) nm) with (dir E s0) in Hdir.
    rewrite (Hfree _ (under_self _)) in Hdir. discriminate. }
  unfold main_new_session. cbv zeta. fold nm. fold s0.
  destruct (String.eqb_spec nm EmptyString) as [Hnil|_].
  { rewrite Hnil in Hb. discriminate. }
  rewrite bool_decide_eq_false_2 by exact Hnew.
  eexists. split; [reflexivity|].
  unfold configure_basic. cbv zeta.
  cbn [run_session run_fs name with_config disks isos].
  set (s' := with_config s0 _).
  assert (Hcfg : fs !! config_file E s0 = None)
    by (apply Hfree, under_join; reflexivity).
  assert (Hpaths : forall p n, fs !! p = Some n ->
                     save E (create_structure E fs s0) s' !! p = Some n).
  { intros p n Hn. apply save_keeps_node; [|apply create_structure_present, Hn].
    intros ->. change (config_file E s') with (config_file E s0) in Hn.
    congruence. }
  destruct (session_paths s0 Hb0) as (Hd & Hc & Hsh & Hi & Hdk).
  assert (Hdirs : Forall (fun p => save E (create_structure E fs s0) s' !! p
                                   = Some Dir)
                    [dir E s0; shared_dir E s0; iso_dir E s0; disk_dir E s0]).
  { eapply Forall_impl; [apply create_structure_fresh, Hfree|].
    intros p Hp. cbv beta in Hp |- *.
    destruct (decide (p = config_file E s0)) as [->|Hne].
    - exfalso. unfold create_structure in Hp.
      assert (Hn1 : dir E s0 <> config_file E s0).
      { rewrite Hd, Hc. intros H. apply string_app_inv_head in H.
        symmetry in H. revert H. apply app_not_self. discriminate. }
      assert (Hn2 : shared_dir E s0 <> config_file E s0).
      { rewrite Hsh, Hc. intros H. do 2 apply string_app_inv_head in H.
        discriminate. }
      assert (Hn3 : iso_dir E s0 <> config_file E s0).
      { rewrite Hi, Hc. intros H. do 2 apply string_app_inv_head in H.
        discriminate. }
      assert (Hn4 : disk_dir E s0 <> config_file E s0).
      { rewrite Hdk, Hc. intros H. do 2 apply string_app_inv_head in H.
        discriminate. }
      rewrite !makedirs_other in Hp by assumption. congruence.
    - apply save_keeps_node; [exact Hne|exact Hp]. }
  split; [reflexivity|]. split; [reflexivity|]. split; [reflexivity|].
  split.
  { unfold session_exists, Os.exists_. rewrite save_config_file. reflexivity. }
  split.
  { eapply Forall_impl; [exact Hdirs|]. intros p Hp. cbv beta in Hp |- *.
    unfold Os.isdir. rewrite Hp. reflexivity. }
  split; [exact Hpaths|].
  assert (Hroot' : save E (create_structure E fs s0) s' !! SAVE_ROOT E = Some Dir)
    by (apply Hpaths, Hroot).
  destruct (scan_sessions E (save E (create_structure E fs s0) s'))
    as [sessions'|] eqn:Hscan'.
  2:{ unfold scan_sessions, Os.exists_, listdir in Hscan'.
      rewrite Hroot' in Hscan'. discriminate. }
  exists sessions'. split; [reflexivity|]. intros n.
  rewrite (scan_sessions_spec _ _ n Hroot' Hscan').
  rewrite (scan_sessions_spec _ _ n Hroot Hscan).
  split.
  - intros [Hn Hdir]. destruct (decide (n = nm)) as [->|Hne]; [right; reflexivity|].
    left. split; [exact Hn|].
    destruct (sibling_is_no_session_path s0 n Hb0
                (proj2 (bare_parts n (entry_ok_bare n Hn))) Hne)
      as (H1 & H2 & H3 & H4 & H5).
    rewrite save_other_path in Hdir by assumption.
    unfold create_structure in Hdir.
    rewrite !makedirs_other in Hdir by congruence. exact Hdir.
  - intros [[Hn Hdir]| ->].
    + split; [exact Hn|]. apply Hpaths, Hdir.
    + split; [exact Hok|]. rewrite Forall_forall in Hdirs.
      apply (Hdirs (dir E s0)). apply elem_of_cons. left. reflexivity.
Qed.

End NewSession.

(** ** Adding a disk *)

Section AddDisk.

Context (E : Env).

(** X19. Adding a disk never overwrites: when the destination exists
    nothing changes.  Otherwise, when [qemu-img] cannot be started the
    exception leaves the handler with nothing appended or written.  When
    it can, the name, one without directory part other than [.] and [..],
    goes to the end of the disk list
    and the config file is rewritten whether [qemu-img] exits with success
    or with an error; the image file is there afterwards exactly when it
    succeeded, so after a failing run the list names a file that does not
    exist. *)
Theorem add_disk_lists_the_name_regardless fs s typed_name typed_size :
  entry_ok (get_input typed_name "system.qcow2") = true ->
  let name := get_input typed_name "system.qcow2" in
  let dest_path := Path.join (disk_dir E s) name in
  let r := manage_disk_add E fs s typed_name typed_size in
  if Os.exists_ fs dest_path then r = unchanged fs s
  else if qemu_img_found E then
    run_session r = with_disks s (disks s ++ [name])
    /\ run_raised r = false
    /\ run_fs r !! config_file E s = Some (File (config_text (run_session r)))
    /\ (forall p n, p <> config_file E s -> fs !! p = Some n ->
                    run_fs r !! p = Some n)
    /\ Os.exists_ (run_fs r) dest_path
       = match qemu_img_create E fs EmptyString
                 ["-f"; "qcow2"; dest_path; get_input typed_size "60G"] with
         | Some _ => true
         | None => false
         end
  else r = mkRun fs s [] true.
Proof.
  intros Hok name dest_path r. subst r. unfold manage_disk_add. cbv zeta.
  fold name. fold dest_path.
  pose proof (proj2 (bare_parts _ (entry_ok_bare _ Hok))) as Hname.
  fold name in Hname.
  destruct (Os.exists_ fs dest_path) eqn:Hex; [reflexivity|].
  destruct (qemu_img_found E); [|reflexivity]. cbn [negb].
  destruct (disk_image_is_no_session_path E s name Hname)
    as (H1 & H2 & H3 & H4 & H5).
  fold dest_path in H1, H2, H3, H4, H5.
  unfold Os.exists_ in Hex.
  destruct (fs !! dest_path) as [n0|] eqn:Hdest; [discriminate|].
  destruct (qemu_img_create E fs EmptyString _) as [image|];
    cbv beta iota zeta; cbn [run_session run_raised run_fs];
    (split; [reflexivity|]); (split; [reflexivity|]);
    (split; [exact (save_config_file E _ (with_disks s (disks s ++ [name])))|]);
    split.
  - intros p n Hp Hn. apply save_keeps_node; [exact Hp|].
    rewrite lookup_insert_ne by congruence. exact Hn.
  - unfold Os.exists_. rewrite save_other_path by assumption.
    rewrite lookup_insert_eq. reflexivity.
  - intros p n Hp Hn. apply save_keeps_node; assumption.
  - unfold Os.exists_. rewrite save_other_path by assumption.
    rewrite Hdest. reflexivity.
Qed.

End AddDisk.

(** ** What [save] touches *)

Section SaveInPlace.

Context (E : Env).

Lemma session_dirs_not_config s :
  bare (name s) = true ->
  Forall (fun p => p <> config_file E s)
         [dir E s; shared_dir E s; iso_dir E s; disk_dir E s].
Proof.
  intros Hb. destruct (session_paths E s Hb) as (Hd & Hc & Hsh & Hi & Hdk).
  rewrite Hd, Hc, Hsh, Hi, Hdk.
  repeat apply Forall_cons_2; [..|apply Forall_nil_2]; intros H;
    apply string_app_inv_head in H;
    first [ symmetry in H; revert H; apply app_not_self; discriminate
          | apply string_app_inv_head in H; discriminate ].
Qed.

Lemma create_structure_dirs (fs : Fs) s :
  Forall (fun p => Os.isfile fs p = false)
         [dir E s; shared_dir E s; iso_dir E s; disk_dir E s] ->
  Forall (fun p => create_structure E fs s !! p = Some Dir)
         [dir E s; shared_dir E s; iso_dir E s; disk_dir E s].
Proof.
  intros Hfiles.
  assert (Hfree : forall p, Os.isfile fs p = false ->
                    fs !! p = None \/ fs !! p = Some Dir).
  { intros p. unfold Os.isfile. destruct (fs !! p) as [[|c]|]; auto.
    discriminate. }
  apply Forall_cons in Hfiles as [H1 Hfiles].
  apply Forall_cons in Hfiles as [H2 Hfiles].
  apply Forall_cons in Hfiles as [H3 Hfiles].
  apply Forall_cons in Hfiles as [H4 _].
  apply Hfree in H1, H2, H3, H4.
  unfold create_structure. repeat apply Forall_cons_2; [..|apply Forall_nil_2].
  - do 3 apply makedirs_present. apply makedirs_makes_dir. exact H1.
  - do 2 apply makedirs_present. apply makedirs_makes_dir.
    apply makedirs_dir_or_none. exact H2.
  - apply makedirs_present. apply makedirs_makes_dir.
    do 2 apply makedirs_dir_or_none. exact H3.
  - apply makedirs_makes_dir. do 3 apply makedirs_dir_or_none. exact H4.
Qed.

(** X6. Where the place of a session is ready (an entry name under a save
    root that is a directory, no regular file in the way of a directory
    and no directory in the way of the config file), [save] rewrites the
    config file with the text of the session and makes the four directories
    of the session; every other path keeps what it had, nothing that
    existed is removed or changed except the config file, and saving the
    same session again changes nothing more. *)
Theorem save_touches_only_its_own_paths (fs : Fs) (s : Session) :
  save_in_place E fs s ->
  save E fs s !! config_file E s = Some (File (config_text s))
  /\ (forall p n, p <> config_file E s -> fs !! p = Some n ->
                  save E fs s !! p = Some n)
  /\ (forall p, p ∉ [config_file E s; dir E s; shared_dir E s; iso_dir E s;
                     disk_dir E s] ->
                save E fs s !! p = fs !! p)
  /\ Forall (fun p => Os.isdir (save E fs s) p = true)
            [dir E s; shared_dir E s; iso_dir E s; disk_dir E s]
  /\ save E (save E fs s) s = save E fs s.
Proof.
  intros (Hok & _ & Hfiles & _).
  assert (Hdirs : Forall (fun p => save E fs s !! p = Some Dir)
                    [dir E s; shared_dir E s; iso_dir E s; disk_dir E s]).
  { pose proof (create_structure_dirs fs s Hfiles) as Hmade.
    pose proof (session_dirs_not_config s (entry_ok_bare _ Hok)) as Hne.
    rewrite Forall_forall in Hmade, Hne |- *. intros p Hp.
    unfold save, Os.write_text.
    rewrite lookup_insert_ne by (intros H; apply (Hne p Hp); congruence).
    apply Hmade, Hp. }
  split; [apply save_config_file|]. split; [apply save_keeps_node|].
  split; [|split].
  - intros p Hp. rewrite !not_elem_of_cons in Hp.
    destruct Hp as (H0 & H1 & H2 & H3 & H4 & _).
    apply save_other_path; assumption.
  - eapply Forall_impl; [exact Hdirs|]. intros p Hp. cbv beta in Hp |- *.
    unfold Os.isdir. rewrite Hp. reflexivity.
  - rewrite Forall_forall in Hdirs.
    unfold save at 1.
    rewrite create_structure_again
      by (eexists; apply Hdirs; set_solver).
    unfold Os.write_text. apply insert_id, save_config_file.
Qed.

End SaveInPlace.

(** ** Two lines for one index *)

Section LaterWins.

Context (E : Env).

Lemma line_parts line key raw :
  Py.strip line = key +:+ "=" +:+ raw ->
  Py.contains "=" key = false ->
  Py.contains "=" line = true
  /\ Py.split1 "=" (Py.strip line) = Some (key, raw).
Proof.
  intros Hs Hk. split.
  - rewrite <- (contains_strip "=" line) by reflexivity.
    rewrite Hs, contains_app. rewrite Hk. reflexivity.
  - rewrite Hs. apply split1_app, Hk.
Qed.

Lemma iso_key_is_no_disk_key key :
  Py.startswith key "ISO_" = true -> Py.startswith key "DISK_" = false.
Proof.
  unfold Py.startswith. destruct key as [|c key]; [discriminate|].
  cbn [String.prefix]. destruct (ascii_dec "I" c) as [<-|]; [|discriminate].
  reflexivity.
Qed.

Lemma disk_line_action line i v :
  disk_line line i v -> line_action line = SetDisk i v.
Proof.
  intros (key & raw & Hs & Hk & Hp & Hi & ->).
  destruct (line_parts line key raw Hs Hk) as [Hc Hsplit].
  unfold line_action. rewrite Hc, Hsplit. unfold key_action.
  rewrite Hp, Hi. reflexivity.
Qed.

Lemma iso_line_action line i v :
  iso_line line i v -> line_action line = SetIso i v.
Proof.
  intros (key & raw & Hs & Hk & Hp & Hi & ->).
  destruct (line_parts line key raw Hs Hk) as [Hc Hsplit].
  unfold line_action. rewrite Hc, Hsplit. unfold key_action.
  rewrite (iso_key_is_no_disk_key key Hp), Hp, Hi. reflexivity.
Qed.

Lemma action_disk_line line i v :
  line_action line = SetDisk i v -> disk_line line i v.
Proof.
  unfold line_action. destruct (Py.contains "=" line) eqn:Hc; [|discriminate].
  assert (Hs : Py.contains "=" (Py.strip line) = true)
    by (rewrite contains_strip; [exact Hc|reflexivity]).
  destruct (split1_contains _ _ Hs) as (key & raw & Hsplit & Heq & Hk).
  rewrite Hsplit. unfold key_action.
  destruct (Py.startswith key "DISK_") eqn:Hp.
  - destruct (Py.split "_" key !! 1%nat ≫= Py.int) as [j|] eqn:Hj;
      [|discriminate].
    intros [= <- <-]. exists key, raw. repeat split; assumption.
  - destruct (Py.startswith key "ISO_"); [|discriminate].
    destruct (_ ≫= _); discriminate.
Qed.

Lemma action_iso_line line i v :
  line_action line = SetIso i v -> iso_line line i v.
Proof.
  unfold line_action. destruct (Py.contains "=" line) eqn:Hc; [|discriminate].
  assert (Hs : Py.contains "=" (Py.strip line) = true)
    by (rewrite contains_strip; [exact Hc|reflexivity]).
  destruct (split1_contains _ _ Hs) as (key & raw & Hsplit & Heq & Hk).
  rewrite Hsplit. unfold key_action.
  destruct (Py.startswith key "DISK_") eqn:Hp.
  - destruct (_ ≫= _); discriminate.
  - destruct (Py.startswith key "ISO_") eqn:Hq; [|discriminate].
    destruct (Py.split "_" key !! 1%nat ≫= Py.int) as [j|] eqn:Hj;
      [|discriminate].
    intros [= <- <-]. exists key, raw. repeat split; assumption.
Qed.

Lemma disk_line_sets line i v : disk_line line i v -> sets_disk line i v.
Proof.
  intros H cfg dm im. rewrite load_line_act, (disk_line_action _ _ _ H).
  reflexivity.
Qed.

Lemma iso_line_sets line i v : iso_line line i v -> sets_iso line i v.
Proof.
  intros H cfg dm im. rewrite load_line_act, (iso_line_action _ _ _ H).
  reflexivity.
Qed.

Lemma other_line_keeps_disk line i :
  (forall v, ~ disk_line line i v) -> keeps_disk line i.
Proof.
  intros H cfg dm im. rewrite load_line_act.
  destruct (line_action line) as [|j w|j w|k w] eqn:Ha; cbn [act fst snd];
    try reflexivity.
  apply lookup_insert_ne. intros ->.
  exact (H w (action_disk_line _ _ _ Ha)).
Qed.

Lemma other_line_keeps_iso line i :
  (forall v, ~ iso_line line i v) -> keeps_iso line i.
Proof.
  intros H cfg dm im. rewrite load_line_act.
  destruct (line_action line) as [|j w|j w|k w] eqn:Ha; cbn [act fst snd];
    try reflexivity.
  apply lookup_insert_ne. intros ->.
  exact (H w (action_iso_line _ _ _ Ha)).
Qed.

Lemma written_disk_line n v :
  disk_line (assignment ("DISK_" +:+ Py.str_of_nat n) v) (Z.of_nat n)
            (unquote (Py.chr Py.dquote +:+ v +:+ Py.chr Py.dquote)).
Proof.
  apply action_disk_line.
  rewrite line_action_assignment by (apply numbered_key_ok; [reflexivity|discriminate]).
  apply disk_key_action.
Qed.

Lemma written_iso_line n v :
  iso_line (assignment ("ISO_" +:+ Py.str_of_nat n) v) (Z.of_nat n)
           (unquote (Py.chr Py.dquote +:+ v +:+ Py.chr Py.dquote)).
Proof.
  apply action_iso_line.
  rewrite line_action_assignment by (apply numbered_key_ok; [reflexivity|discriminate]).
  apply iso_key_action.
Qed.

(** C9. When two lines of a config file assign the same numeric index to
    a disk (each, trimmed, a [DISK_] key whose number [int] reads as that
    index, an equals sign and a value), the earlier one is overwritten
    before the list is built: loading gives what it would give without the
    earlier line, and if no line after the later one assigns that index,
    the entry of the index-sorted disk list for that index is the value of
    the later line.  The same holds for two [ISO_] lines.  The lines
    [save] writes for the entries of its lists are such lines, for every
    position and every name. *)
Theorem later_assignment_wins fs s text pre l1 mid l2 post i v1 v2 :
  fs !! config_file E s = Some (File text) ->
  Py.readlines text = pre ++ l1 :: mid ++ l2 :: post ->
  let loaded := fst (load E fs s) in
  let maps := load_lines (Py.readlines text) in
  (disk_line l1 i v1 -> disk_line l2 i v2 ->
   maps = load_lines (pre ++ mid ++ l2 :: post)
   /\ (Forall (fun l => forall v, ~ disk_line l i v) post ->
       exists k, sorted_keys maps.1.2 !! k = Some i
                 /\ disks loaded !! k = Some v2))
  /\ (iso_line l1 i v1 -> iso_line l2 i v2 ->
      maps = load_lines (pre ++ mid ++ l2 :: post)
      /\ (Forall (fun l => forall v, ~ iso_line l i v) post ->
          exists k, sorted_keys maps.2 !! k = Some i
                    /\ isos loaded !! k = Some v2))
  /\ (forall n v,
        disk_line (assignment ("DISK_" +:+ Py.str_of_nat n) v) (Z.of_nat n)
                  (unquote (Py.chr Py.dquote +:+ v +:+ Py.chr Py.dquote))
        /\ iso_line (assignment ("ISO_" +:+ Py.str_of_nat n) v) (Z.of_nat n)
                    (unquote (Py.chr Py.dquote +:+ v +:+ Py.chr Py.dquote))).
Proof.
  intros Hfile Hlines loaded maps. subst loaded maps.
  rewrite (load_of_file E fs s text Hfile), Hlines. cbn [fst disks isos].
  split; [|split].
  - intros H1 H2. apply disk_line_sets in H1, H2. split.
    + unfold load_lines.
      rewrite (fold_load_line_app _ pre (l1 :: _)),
        (fold_load_line_app _ pre (mid ++ _)).
      eapply overwritten_disk_line; eassumption.
    + intros Hpost. apply value_at_index.
      apply last_disk_line_value; [exact H2|].
      eapply Forall_impl; [exact Hpost|]. intros l. apply other_line_keeps_disk.
  - intros H1 H2. apply iso_line_sets in H1, H2. split.
    + unfold load_lines.
      rewrite (fold_load_line_app _ pre (l1 :: _)),
        (fold_load_line_app _ pre (mid ++ _)).
      eapply overwritten_iso_line; eassumption.
    + intros Hpost. apply value_at_index.
      apply last_iso_line_value; [exact H2|].
      eapply Forall_impl; [exact Hpost|]. intros l. apply other_line_keeps_iso.
  - intros n v. split; [apply written_disk_line|apply written_iso_line].
Qed.

End LaterWins.

(** ** The backing chain and the config file *)

Section ChainPersistence.

Context (E : Env).

Implicit Types (fs : Fs) (s : Session) (d : gmap string string).
















End ChainPersistence.

(** ** The further properties on the concrete installation *)

Lemma demo_win_reloadable : reloadable Demo.win.
Proof.
  split; [exact demo_win_storable|]. split; repeat constructor.
Defined.

Lemma demo_three_reloadable : reloadable Demo.three.
Proof.
  split; [|split; repeat constructor].
  split; [|split; repeat constructor].
  apply (bool_decide_unpack _). vm_compute. exact I.
Defined.

Lemma save_then_load_restores_session_witness :
  load Demo.env (save Demo.env Demo.win_dir Demo.win) (new_session "win")
  = (mkSession "win" (config Demo.win) (disks Demo.win) (isos Demo.win) [],
     true).
Proof.
  apply (save_then_load_restores_session Demo.env Demo.win_dir Demo.win
           (new_session "win") demo_win_reloadable eq_refl).
Defined.

Lemma configure_basic_settings_witness :
  Dict.get (config (run_session (configure_basic Demo.env Demo.win_dir Demo.win
                                                 false "16G" EmptyString)))
           "MEM_SIZE"
  = Some "16G".
Proof.
  apply (proj1 (proj2 (configure_basic_settings Demo.env Demo.win_dir Demo.win
                         false "16G" EmptyString
                         (proj1 demo_win_storable)))).
Defined.

Lemma configured_session_reads_back_witness :
  let r := configure_basic Demo.env Demo.win_dir Demo.win false "16G" EmptyString in
  load Demo.env (run_fs r) Demo.win = (run_session r, true).
Proof.
  apply (configured_session_reads_back Demo.env Demo.win_dir Demo.win false
           "16G" EmptyString demo_win_reloadable);
    reflexivity.
Defined.

Lemma detach_disk_by_number_witness :
  run_raised (manage_disk_detach Demo.env Demo.two_of_three Demo.three
                                 (Py.str_of_nat 2) "y")
  = false.
Proof.
  apply (proj1 (detach_disk_by_number Demo.env Demo.two_of_three Demo.three 2
                  "y" ltac:(simpl; lia))).
Defined.

Lemma detach_iso_by_number_witness :
  run_session (manage_cdrom_detach Demo.env Demo.win_dir
                 (with_isos Demo.win ["a.iso"; "b.iso"]) (Py.str_of_nat 1))
  = with_isos (with_isos Demo.win ["a.iso"; "b.iso"]) ["b.iso"].
Proof.
  apply (proj1 (proj2 (detach_iso_by_number Demo.env Demo.win_dir
                         (with_isos Demo.win ["a.iso"; "b.iso"]) 1
                         ltac:(simpl; lia)))).
Defined.

Lemma snapshot_menu_picks_listed_disk_witness :
  manage_snapshots Demo.env Demo.healthy Demo.win (Py.str_of_nat 1) "d" "y"
  = snapshot_ops Demo.env Demo.healthy Demo.win 0 "sys.snap.qcow2"
                 (get_disk_info Demo.env Demo.healthy Demo.win "sys.snap.qcow2")
                 "d" "y".
Proof.
  apply (proj1 (snapshot_menu_picks_listed_disk Demo.env Demo.healthy Demo.win 1
                  "sys.snap.qcow2" "d" "y" ltac:(lia) eq_refl)).
Defined.

Lemma create_then_discard_leads_back_witness :
  let r1 := create_overlay Demo.env Demo.two_of_three Demo.three 1 "b.qcow2" in
  let r2 := discard_overlay Demo.env (run_fs r1) (run_session r1) 1
              (overlay_name "b.qcow2") "b.qcow2" in
  run_session r2 = Demo.three.
Proof.
  apply (proj1 (proj2 (create_then_discard_leads_back Demo.env Demo.two_of_three
                         Demo.three 1 "b.qcow2" "backing:b.qcow2"
                         eq_refl
                         ltac:(vm_compute; reflexivity)
                         ltac:(vm_compute; reflexivity)
                         ltac:(vm_compute; reflexivity)))).
Defined.

Lemma file_manager_keeps_disks_present_witness :
  let r := file_manager_delete Demo.env Demo.healthy Demo.win
             (disk_dir Demo.env Demo.win) "1" "y" in
  disks_present Demo.env (run_fs r) (run_session r).
Proof.
  apply (proj1 (proj2 (proj2
    (file_manager_keeps_disks_present Demo.env Demo.healthy Demo.win "1" "y"
       ltac:(apply (bool_decide_unpack _); vm_compute; exact I)
       ltac:(repeat constructor)
       ltac:(repeat constructor; vm_compute; reflexivity))))).
Defined.

Lemma new_session_refuses_listed_names_witness :
  main_new_session Demo.env win_root ["win"] "win" EmptyString EmptyString
  = None.
Proof.
  apply (proj2 (proj1 (new_session_refuses_listed_names Demo.env win_root
                         ["win"] "win" EmptyString EmptyString
                         ltac:(vm_compute; reflexivity)
                         ltac:(vm_compute; reflexivity)))).
  right. apply elem_of_cons. left. reflexivity.
Defined.

Lemma new_session_is_listed_witness :
  exists r,
    main_new_session Demo.env bare_root [] "mac"
                     EmptyString EmptyString
    = Some r
    /\ name (run_session r) = get_input "mac" EmptyString.
Proof.
  destruct (new_session_is_listed Demo.env bare_root []
              "mac" EmptyString EmptyString
              ltac:(vm_compute; reflexivity)
              ltac:(vm_compute; reflexivity)
              ltac:(vm_compute; reflexivity))
    as (r & Hr & Hname & _).
  - intros p Hp. destruct (decide (p = "/opt/vm/qemu_save")) as [->|Hne].
    + vm_compute in Hp. discriminate.
    + unfold bare_root. apply lookup_singleton_ne. congruence.
  - exists r. split; [exact Hr|exact Hname].
Defined.

Lemma add_disk_lists_the_name_regardless_witness :
  let r := manage_disk_add Demo.env Demo.healthy Demo.win "data.qcow2" "20G" in
  run_session r = with_disks Demo.win ["sys.snap.qcow2"; "data.qcow2"].
Proof.
  apply (proj1 (add_disk_lists_the_name_regardless Demo.env Demo.healthy
                  Demo.win "data.qcow2" "20G" eq_refl)).
Defined.

Lemma demo_win_in_place : save_in_place Demo.env win_root Demo.win.
Proof.
  split; [reflexivity|]. split; [vm_compute; reflexivity|].
  split; [repeat constructor; vm_compute; reflexivity|].
  vm_compute. reflexivity.
Defined.

Lemma save_touches_only_its_own_paths_witness :
  save Demo.env win_root Demo.win !! config_file Demo.env Demo.win
  = Some (File (config_text Demo.win)).
Proof.
  apply (proj1 (save_touches_only_its_own_paths Demo.env win_root Demo.win
                  demo_win_in_place)).
Defined.






Lemma later_assignment_wins_witness :
  exists k,
    sorted_keys (load_lines (Py.readlines Demo.twice_text)).1.2 !! k = Some 1%Z
    /\ disks (fst (load Demo.env Demo.twice Demo.win)) !! k = Some "new.qcow2".
Proof.
  apply (proj1 (later_assignment_wins Demo.env Demo.twice Demo.win
                  Demo.twice_text
                  [assignment "DISK_0" "sys.qcow2"]
                  (assignment "DISK_1" "old.qcow2")
                  [assignment "MEM_SIZE" "8G"]
                  (assignment "DISK_01" "new.qcow2") []
                  1%Z "old.qcow2" "new.qcow2"
                  ltac:(vm_compute; reflexivity) ltac:(vm_compute; reflexivity))).
  - exists "DISK_1", (Py.chr Py.dquote +:+ "old.qcow2" +:+ Py.chr Py.dquote).
    repeat split; vm_compute; reflexivity.
  - exists "DISK_01", (Py.chr Py.dquote +:+ "new.qcow2" +:+ Py.chr Py.dquote).
    repeat split; vm_compute; reflexivity.
  - constructor.
Defined.
